(** * nibabel.cifti2.cifti2: the CIFTI-2 header data model

    A shallow embedding of [src/nibabel/cifti2/cifti2.py].  Python objects are
    records, methods are functions that return a [result] (a value or the
    exception raised), mutating methods return the object after the call, and
    attribute values that Python leaves untyped range over [value]. *)

From Stdlib Require Import ZArith List String Ascii Bool Lia.
From Stdlib Require Import Floats.PrimFloat Floats.SpecFloat Floats.FloatOps.
From Stdlib Require Import DecimalString.
Import ListNotations.

#[local] Open Scope string_scope.
#[local] Open Scope Z_scope.

(** ** Python values

    The objects an untyped attribute or argument may hold: [None], an [int],
    a [float] (IEEE binary64) or a [str]. *)

Inductive value : Type :=
| VNone
| VInt (z : Z)
| VFloat (f : float)
| VStr (s : string).

(** ** Exceptions and results *)

Inductive exn : Type :=
| CIFTI2HeaderError (msg : string)
| ValueError (msg : string)
| TypeError (msg : string)
| KeyError (key : value)
| IndexError
| AttributeError (msg : string)
| OverflowError.

Inductive result (A : Type) : Type :=
| Ok (a : A)
| Raise (e : exn).

Arguments Ok {A} a.
Arguments Raise {A} e.

Definition bind {A B : Type} (r : result A) (k : A -> result B) : result B :=
  match r with
  | Ok a => k a
  | Raise e => Raise e
  end.

Notation "x <- r ;; k" := (bind r (fun x => k))
  (at level 61, r at next level, right associativity).

(** [try: r except ValueError: raise e'] *)
Definition except_ValueError {A : Type} (r : result A) (e' : exn) : result A :=
  match r with
  | Raise (ValueError _) => Raise e'
  | _ => r
  end.

Definition is_ok {A : Type} (r : result A) : bool :=
  match r with Ok _ => true | Raise _ => false end.

(** ** Python builtins *)

(** The interpreter's conversions between text and numbers, which are not
    part of the repository: [str] of a float, ['{:.10f}'.format], and the
    parsers behind [float(str)] and [int(str)] ([None] when they raise
    [ValueError]). *)
Record text_builtins : Type := {
  float_repr : float -> string;
  float_format_10f : float -> string;
  float_of_str : string -> option float;
  int_of_str : string -> option Z
}.

Definition str_int (z : Z) : string := NilZero.string_of_int (Z.to_int z).

Definition str (B : text_builtins) (v : value) : string :=
  match v with
  | VNone => "None"
  | VInt z => str_int z
  | VFloat f => float_repr B f
  | VStr s => s
  end.

(** [float(z)] for an int: the nearest binary64, [OverflowError] past the
    largest finite one. *)
Definition float_of_int (z : Z) : result float :=
  match binary_normalize prec emax z 0 false with
  | S754_infinity _ => Raise OverflowError
  | sf => Ok (SF2Prim sf)
  end.

Definition float_ (B : text_builtins) (v : value) : result float :=
  match v with
  | VNone => Raise (TypeError "float() argument must be a string or a number")
  | VInt z => float_of_int z
  | VFloat f => Ok f
  | VStr s =>
      match float_of_str B s with
      | Some f => Ok f
      | None => Raise (ValueError "could not convert string to float")
      end
  end.

(** [int(f)] for a float truncates towards zero. *)
Definition int_of_float (f : float) : result Z :=
  match Prim2SF f with
  | S754_zero _ => Ok 0
  | S754_infinity _ => Raise OverflowError
  | S754_nan => Raise (ValueError "cannot convert float NaN to integer")
  | S754_finite s m e =>
      let mag := if 0 <=? e then Z.shiftl (Zpos m) e else Z.shiftr (Zpos m) (- e) in
      Ok (if s then - mag else mag)
  end.

Definition int_ (B : text_builtins) (v : value) : result Z :=
  match v with
  | VNone => Raise (TypeError "int() argument must be a string or a number")
  | VInt z => Ok z
  | VFloat f => int_of_float f
  | VStr s =>
      match int_of_str B s with
      | Some z => Ok z
      | None => Raise (ValueError "invalid literal for int() with base 10")
      end
  end.

(** Python compares an int with a float, and two floats, by their exact
    numeric values: [exact] is that value, as an odd mantissa times a power
    of two. *)
Inductive exact : Type :=
| ENan
| EInf (neg : bool)
| EFin (m e : Z).

Fixpoint strip_zeros (p : positive) (e : Z) : positive * Z :=
  match p with
  | xO p' => strip_zeros p' (e + 1)
  | _ => (p, e)
  end.

Definition exact_fin (neg : bool) (m : positive) (e : Z) : exact :=
  let '(m', e') := strip_zeros m e in
  EFin (if neg then Zneg m' else Zpos m') e'.

Definition exact_of_int (z : Z) : exact :=
  match z with
  | Z0 => EFin 0 0
  | Zpos p => exact_fin false p 0
  | Zneg p => exact_fin true p 0
  end.

Definition exact_of_float (f : float) : exact :=
  match Prim2SF f with
  | S754_zero _ => EFin 0 0
  | S754_infinity s => EInf s
  | S754_nan => ENan
  | S754_finite s m e => exact_fin s m e
  end.

Definition exact_eqb (a b : exact) : bool :=
  match a, b with
  | EInf s, EInf s' => Bool.eqb s s'
  | EFin m e, EFin m' e' => (m =? m') && (e =? e')
  | _, _ => false
  end.

Definition number (v : value) : option exact :=
  match v with
  | VInt z => Some (exact_of_int z)
  | VFloat f => Some (exact_of_float f)
  | _ => None
  end.

(** [v == w] *)
Definition py_eq (v w : value) : bool :=
  match v, w with
  | VNone, VNone => true
  | VStr a, VStr b => (a =? b)%string
  | _, _ =>
      match number v, number w with
      | Some a, Some b => exact_eqb a b
      | _, _ => false
      end
  end.

Definition py_ne (v w : value) : bool := negb (py_eq v w).

(** ** Module-level helpers *)

Definition _float_01 (B : text_builtins) (val : value) : result float :=
  out <- float_ B val ;;
  if ((out <? 0) || (1 <? out))%float
  then Raise (ValueError "Float must be between 0 and 1 inclusive")
  else Ok out.

Definition is_upper (c : ascii) : bool :=
  let n := nat_of_ascii c in (65 <=? n)%nat && (n <=? 90)%nat.

Definition is_lower (c : ascii) : bool :=
  let n := nat_of_ascii c in (97 <=? n)%nat && (n <=? 122)%nat.

Definition is_digit (c : ascii) : bool :=
  let n := nat_of_ascii c in (48 <=? n)%nat && (n <=? 57)%nat.

Definition to_lower (c : ascii) : ascii :=
  if is_upper c then ascii_of_nat (nat_of_ascii c + 32) else c.

Definition to_upper (c : ascii) : ascii :=
  if is_lower c then ascii_of_nat (nat_of_ascii c - 32) else c.

Definition lower (s : string) : string :=
  string_of_list_ascii (map to_lower (list_ascii_of_string s)).

(** [str.capitalize()] *)
Definition capitalize (s : string) : string :=
  match s with
  | EmptyString => EmptyString
  | String c s' => String (to_upper c) (lower s')
  end.

(** [re.sub(r'([A-Z]+)([A-Z][a-z])', r'\1_\2', string)]: a run of two or more
    capitals followed by a lower-case letter gets an underscore before its
    last capital.  [run] holds the capitals read so far, last first. *)
Fixpoint sub_caps_word (run : list ascii) (s : list ascii) : list ascii :=
  match s with
  | [] => rev run
  | c :: s' =>
      if is_upper c then sub_caps_word (c :: run) s'
      else
        match run with
        | last :: prev :: before =>
            if is_lower c
            then rev (prev :: before) ++ "_"%char :: last :: c :: sub_caps_word [] s'
            else rev run ++ c :: sub_caps_word [] s'
        | _ => rev run ++ c :: sub_caps_word [] s'
        end
  end.

(** [re.sub(r'([a-z0-9])([A-Z])', r'\1_\2', string)] *)
Fixpoint sub_lower_cap (s : list ascii) : list ascii :=
  match s with
  | a :: ((b :: s'') as s') =>
      if (is_lower a || is_digit a) && is_upper b
      then a :: "_"%char :: b :: sub_lower_cap s''
      else a :: sub_lower_cap s'
  | _ => s
  end.

(** Convert a string from CamelCase to underscored *)
Definition _underscore (s : string) : string :=
  lower (string_of_list_ascii
           (sub_lower_cap (sub_caps_word [] (list_ascii_of_string s)))).

(** ** Strings and XML elements *)

(** [sep.join(parts)] *)
Fixpoint join (sep : string) (parts : list string) : string :=
  match parts with
  | [] => ""
  | [p] => p
  | p :: rest => p ++ sep ++ join sep rest
  end.

Definition newline : string := String (ascii_of_nat 10) EmptyString.

(** An [xml.Element]: tag, attributes in insertion order, text, children. *)
#[warnings="-register-all"]
Inductive Element : Type :=
  mkElement {
    tag : string;
    attrib : list (string * string);
    text : option string;
    children : list Element
  }.

Definition new_Element (t : string) : Element :=
  {| tag := t; attrib := []; text := None; children := [] |}.

(** Ordered dictionaries ([dict], [OrderedDict]): an association list without
    repeated keys, in insertion order. *)
Section odict.
Context {K V : Type} (eqb : K -> K -> bool).

Fixpoint odict_get (d : list (K * V)) (k : K) : option V :=
  match d with
  | [] => None
  | (k', v) :: d' => if eqb k' k then Some v else odict_get d' k
  end.

(** [d[k] = v]: an existing key keeps its place (and the key object). *)
Fixpoint odict_set (d : list (K * V)) (k : K) (v : V) : list (K * V) :=
  match d with
  | [] => [(k, v)]
  | (k', v') :: d' =>
      if eqb k' k then (k', v) :: d' else (k', v') :: odict_set d' k v
  end.

(** [del d[k]]; [None] stands for the [KeyError]. *)
Fixpoint odict_del (d : list (K * V)) (k : K) : option (list (K * V)) :=
  match d with
  | [] => None
  | (k', v) :: d' =>
      if eqb k' k then Some d'
      else option_map (cons (k', v)) (odict_del d' k)
  end.

(** [dict(pairs)] *)
Definition odict_of_pairs (pairs : list (K * V)) : list (K * V) :=
  fold_left (fun d kv => odict_set d (fst kv) (snd kv)) pairs [].
End odict.

Definition set_attrib (e : Element) (k v : string) : Element :=
  {| tag := tag e; attrib := odict_set String.eqb (attrib e) k v;
     text := text e; children := children e |}.

Definition set_text (e : Element) (t : string) : Element :=
  {| tag := tag e; attrib := attrib e; text := Some t; children := children e |}.

Definition append_child (e c : Element) : Element :=
  {| tag := tag e; attrib := attrib e; text := text e;
     children := children e ++ [c] |}.

Definition get_attrib (e : Element) (k : string) : option string :=
  odict_get String.eqb (attrib e) k.

(** Python lists indexed by an int: a negative index counts from the end. *)
Section pylist.
Context {A : Type}.

Definition norm_index (l : list A) (i : Z) : option nat :=
  let n := Z.of_nat (List.length l) in
  let i' := if i <? 0 then i + n else i in
  if (0 <=? i') && (i' <? n) then Some (Z.to_nat i') else None.

Fixpoint replace_nth (n : nat) (x : A) (l : list A) : list A :=
  match l, n with
  | [], _ => []
  | _ :: l', O => x :: l'
  | y :: l', S n' => y :: replace_nth n' x l'
  end.

Fixpoint remove_nth (n : nat) (l : list A) : list A :=
  match l, n with
  | [], _ => []
  | _ :: l', O => l'
  | y :: l', S n' => y :: remove_nth n' l'
  end.

(** [l[i]] *)
Definition list_getitem (l : list A) (i : Z) : result A :=
  match norm_index l i with
  | Some n =>
      match nth_error l n with
      | Some x => Ok x
      | None => Raise IndexError
      end
  | None => Raise IndexError
  end.

(** [l[i] = x] *)
Definition list_setitem (l : list A) (i : Z) (x : A) : result (list A) :=
  match norm_index l i with
  | Some n => Ok (replace_nth n x l)
  | None => Raise IndexError
  end.

(** [del l[i]] *)
Definition list_delitem (l : list A) (i : Z) : result (list A) :=
  match norm_index l i with
  | Some n => Ok (remove_nth n l)
  | None => Raise IndexError
  end.

(** [l.insert(i, x)]: an index past either end is clamped. *)
Definition list_insert (l : list A) (i : Z) (x : A) : list A :=
  let n := Z.of_nat (List.length l) in
  let i' := if i <? 0 then Z.max 0 (i + n) else Z.min i n in
  firstn (Z.to_nat i') l ++ x :: skipn (Z.to_nat i') l.

(** [len(l)] *)
Definition len (l : list A) : Z := Z.of_nat (List.length l).

(** A bound of the slice [start:stop] of a list of length [n]: a missing
    bound takes [default], a negative one counts from the end, and both are
    clamped to the list. *)
Definition slice_bound (n : Z) (i : option Z) (default : Z) : Z :=
  match i with
  | None => default
  | Some i => if i <? 0 then Z.max 0 (i + n) else Z.min i n
  end.

(** [l[start:stop] = xs]: the elements of [xs] take the place of the slice,
    which is empty when [stop] lies before [start]. *)
Definition list_setslice (l : list A) (start stop : option Z) (xs : list A)
  : list A :=
  let n := len l in
  let lo := slice_bound n start 0 in
  let hi := Z.max lo (slice_bound n stop n) in
  firstn (Z.to_nat lo) l ++ xs ++ skipn (Z.to_nat hi) l.
End pylist.

(** [[f(x) for x in xs]], stopping at the first exception *)
Fixpoint map_result {A B : Type} (f : A -> result B) (xs : list A)
  : result (list B) :=
  match xs with
  | [] => Ok []
  | x :: xs' => y <- f x ;; ys <- map_result f xs' ;; Ok (y :: ys)
  end.

(** [for x in xs: self = step(self, x)], stopping at the first exception *)
Fixpoint fold_result {S A : Type} (step : S -> A -> result S) (xs : list A)
    (self : S) : result S :=
  match xs with
  | [] => Ok self
  | x :: xs' => self' <- step self x ;; fold_result step xs' self'
  end.

(** [for x in xs: parent.append(x._to_xml_element())] *)
Definition append_elements {A : Type} (to_xml : A -> result Element)
    (xs : list A) (parent : Element) : result Element :=
  fold_result (fun parent x => c <- to_xml x ;; Ok (append_child parent c))
              xs parent.

(** ** Cifti2MetaData *)

Module Cifti2MetaData.

Record t : Type := { data : list (string * string) }.

(** [MutableMapping.update] with a list of pairs *)
Definition update (self : t) (metadata : list (string * string)) : t :=
  {| data := fold_left (fun d kv => odict_set String.eqb d (fst kv) (snd kv))
                       metadata (data self) |}.

Definition __init__ (metadata : option (list (string * string))) : t :=
  let self := {| data := [] |} in
  match metadata with
  | Some md => update self md
  | None => self
  end.

Definition __len__ (self : t) : Z := len (data self).

Definition __iter__ (self : t) : list string := map fst (data self).

Definition __getitem__ (self : t) (k : string) : result string :=
  match odict_get String.eqb (data self) k with
  | Some v => Ok v
  | None => Raise (KeyError (VStr k))
  end.

(** [for k in pairs: del self.data[k]]: the loop stops at the first absent
    key; what it deleted before stays deleted. *)
Fixpoint delete_keys (d : list (string * string)) (ks : list string)
  : result unit * list (string * string) :=
  match ks with
  | [] => (Ok tt, d)
  | k :: ks' =>
      match odict_del String.eqb d k with
      | Some d' => delete_keys d' ks'
      | None => (Raise (KeyError (VStr k)), d)
      end
  end.

(** The outcome of the call, and the object after it. *)
Definition difference_update (self : t)
    (metadata : option (list (string * string))) : result unit * t :=
  match metadata with
  | None => (Raise (ValueError "The metadata parameter can't be None"), self)
  | Some md =>
      let pairs := odict_of_pairs String.eqb md in
      let '(r, d) := delete_keys (data self) (map fst pairs) in
      (r, {| data := d |})
  end.

Definition _to_xml_element (self : t) : Element :=
  fold_left
    (fun metadata nv =>
       let name := set_text (new_Element "Name") (fst nv) in
       let value := set_text (new_Element "Value") (snd nv) in
       append_child metadata
         (append_child (append_child (new_Element "MD") name) value))
    (data self) (new_Element "MetaData").

Definition __setitem__ (self : t) (k v : string) : t :=
  {| data := odict_set String.eqb (data self) k v |}.

Definition __delitem__ (self : t) (k : string) : result t :=
  match odict_del String.eqb (data self) k with
  | Some d => Ok {| data := d |}
  | None => Raise (KeyError (VStr k))
  end.

End Cifti2MetaData.

(** ** Cifti2Label *)

Module Cifti2Label.

Record t : Type := {
  key : value;
  label : value;
  red : value;
  green : value;
  blue : value;
  alpha : value
}.

Definition __init__ (B : text_builtins) (k l r g b a : value) : result t :=
  k' <- int_ B k ;;
  let l' := str B l in
  r' <- _float_01 B r ;;
  g' <- _float_01 B g ;;
  b' <- _float_01 B b ;;
  a' <- _float_01 B a ;;
  Ok {| key := VInt k'; label := VStr l';
        red := VFloat r'; green := VFloat g';
        blue := VFloat b'; alpha := VFloat a' |}.

Definition rgba (self : t) : value * value * value * value :=
  (red self, green self, blue self, alpha self).

(** [getattr(self, name)], for the names the class passes to it *)
Definition getattr (self : t) (name : string) : value :=
  if (name =? "red")%string then red self
  else if (name =? "green")%string then green self
  else if (name =? "blue")%string then blue self
  else alpha self.

Definition invalid_color (B : text_builtins) (c_ : string) (v : value) : exn :=
  CIFTI2HeaderError
    ("Label invalid " ++ c_ ++
     " needs to be a float between 0 and 1. and it is " ++ str B v).

(** The loop over [('red', 'blue', 'green', 'alpha')]; [v] is the local the
    error message prints: the last value converted before the failure. *)
Fixpoint check_colors (B : text_builtins) (self : t) (names : list string)
    (v : value) : result value :=
  match names with
  | [] => Ok v
  | c_ :: names' =>
      v' <- except_ValueError (_float_01 B (getattr self c_))
              (invalid_color B c_ v) ;;
      check_colors B self names' (VFloat v')
  end.

(** ['0' if val == 0 else '1' if val == 1 else str(val)] *)
Definition color_attr (B : text_builtins) (val : value) : string :=
  if py_eq val (VInt 0) then "0"
  else if py_eq val (VInt 1) then "1"
  else str B val.

Definition _to_xml_element (B : text_builtins) (self : t) : result Element :=
  match label self with
  | VStr "" => Raise (CIFTI2HeaderError "Label needs a name")
  | _ =>
      v <- except_ValueError (int_ B (key self))
             (CIFTI2HeaderError "The key must be an integer") ;;
      _ <- check_colors B self ["red"; "blue"; "green"; "alpha"] (VInt v) ;;
      let lab := new_Element "Label" in
      let lab := set_attrib lab "Key" (str B (key self)) in
      let lab := set_text lab (str B (label self)) in
      Ok (fold_left
            (fun lab name =>
               set_attrib lab (capitalize name) (color_attr B (getattr self name)))
            ["red"; "green"; "blue"; "alpha"] lab)
  end.

End Cifti2Label.

(** ** Cifti2LabelTable *)

Module Cifti2LabelTable.

Record t : Type := { _labels : list (value * Cifti2Label.t) }.

Definition __init__ : t := {| _labels := [] |}.

Definition __len__ (self : t) : Z := len (_labels self).

Definition __getitem__ (self : t) (k : value) : result Cifti2Label.t :=
  match odict_get py_eq (_labels self) k with
  | Some l => Ok l
  | None => Raise (KeyError k)
  end.

(** What is assigned to [table[key]]: a [Cifti2Label], or a sequence. *)
Inductive item : Type :=
| ItemLabel (l : Cifti2Label.t)
| ItemSeq (xs : list value).

(** [Cifti2Label] applied to an unpacked argument list, which [__setitem__]
    builds from the key and the five elements of the sequence. *)
Definition new_label (B : text_builtins) (args : list value)
  : result Cifti2Label.t :=
  match args with
  | [k; l; r; g; b; a] => Cifti2Label.__init__ B k l r g b a
  | _ => Raise (TypeError "__init__() got a wrong number of arguments")
  end.

Definition __setitem__ (B : text_builtins) (self : t) (k : value) (v : item)
  : result t :=
  match v with
  | ItemLabel l =>
      if py_ne k (Cifti2Label.key l)
      then Raise (ValueError "The key and the label's key must agree")
      else Ok {| _labels := odict_set py_eq (_labels self) k l |}
  | ItemSeq xs =>
      if negb (len xs =? 5)
      then Raise (ValueError "Value should be length 5")
      else
        l <- except_ValueError (new_label B (k :: xs))
               (ValueError ("Key should be int, value should be sequence " ++
                            "of str and 4 floats between 0 and 1")) ;;
        Ok {| _labels := odict_set py_eq (_labels self) k l |}
  end.

Definition append (B : text_builtins) (self : t) (label : Cifti2Label.t)
  : result t :=
  __setitem__ B self (Cifti2Label.key label) (ItemLabel label).

Definition __delitem__ (self : t) (k : value) : result t :=
  match odict_del py_eq (_labels self) k with
  | Some d => Ok {| _labels := d |}
  | None => Raise (KeyError k)
  end.

Definition __iter__ (self : t) : list value := map fst (_labels self).

Definition _to_xml_element (B : text_builtins) (self : t) : result Element :=
  if __len__ self =? 0
  then Raise (CIFTI2HeaderError "LabelTable element requires at least 1 label")
  else
    fold_result
      (fun labeltable ele =>
         e <- Cifti2Label._to_xml_element B ele ;;
         Ok (append_child labeltable e))
      (map snd (_labels self)) (new_Element "LabelTable").

End Cifti2LabelTable.

(** ** Cifti2NamedMap *)

Module Cifti2NamedMap.

Record t : Type := {
  map_name : value;
  _metadata : option Cifti2MetaData.t;
  _label_table : option Cifti2LabelTable.t
}.

End Cifti2NamedMap.

(** ** Cifti2Surface *)

Module Cifti2Surface.

Record t : Type := {
  brain_structure : value;
  surface_number_of_vertices : value
}.

Definition __init__ (brain_structure surface_number_of_vertices : value) : t :=
  {| brain_structure := brain_structure;
     surface_number_of_vertices := surface_number_of_vertices |}.

Definition _to_xml_element (B : text_builtins) (self : t) : result Element :=
  match brain_structure self with
  | VNone =>
      Raise (CIFTI2HeaderError "Surface element requires at least 1 BrainStructure")
  | _ =>
      let surf := new_Element "Surface" in
      let surf := set_attrib surf "BrainStructure" (str B (brain_structure self)) in
      let surf := set_attrib surf "SurfaceNumberOfVertices"
                    (str B (surface_number_of_vertices self)) in
      Ok surf
  end.

End Cifti2Surface.

(** ** Cifti2VoxelIndicesIJK *)

Module Cifti2VoxelIndicesIJK.

Record t : Type := { _indices : list (list Z) }.

Definition __len__ (self : t) : Z := len (_indices self).

Definition __delitem__ (self : t) (index : Z) : result t :=
  l <- list_delitem (_indices self) index ;;
  Ok {| _indices := l |}.

Definition __getitem__ (self : t) (index : Z) : result (list Z) :=
  list_getitem (_indices self) index.

(** [self[row, column]] *)
Definition getitem_cell (self : t) (row column : Z) : result Z :=
  r <- list_getitem (_indices self) row ;;
  list_getitem r column.

(** [[int(v) for v in value]] and the check of its length *)
Definition triple (B : text_builtins) (value : list value) (msg : string)
  : result (list Z) :=
  value' <- map_result (int_ B) value ;;
  if negb (len value' =? 3) then Raise (ValueError msg) else Ok value'.

Definition __setitem__ (B : text_builtins) (self : t) (index : Z)
    (value : list value) : result t :=
  except_ValueError
    (value' <- triple B value "rows are triples of ints" ;;
     l <- list_setitem (_indices self) index value' ;;
     Ok {| _indices := l |})
    (ValueError "value must be a triple of ints").

(** [self[row, column] = value] *)
Definition setitem_cell (B : text_builtins) (self : t) (row column : Z)
    (value : value) : result t :=
  except_ValueError
    (value' <- int_ B value ;;
     r <- list_getitem (_indices self) row ;;
     r' <- list_setitem r column value' ;;
     l <- list_setitem (_indices self) row r' ;;
     Ok {| _indices := l |})
    (ValueError "value must be an int").

Definition insert (B : text_builtins) (self : t) (index : Z)
    (value : list value) : result t :=
  except_ValueError
    (value' <- triple B value "" ;;
     Ok {| _indices := list_insert (_indices self) index value' |})
    (ValueError "value must be a triple of int").

Definition append (B : text_builtins) (self : t) (value : list value)
  : result t :=
  insert B self (__len__ self) value.

Definition extend (B : text_builtins) (self : t) (values : list (list value))
  : result t :=
  fold_result (append B) values self.

Definition __init__ (B : text_builtins) (indices : option (list (list value)))
  : result t :=
  let self := {| _indices := [] |} in
  match indices with
  | Some ind => extend B self ind
  | None => Ok self
  end.

Definition _to_xml_element (self : t) : result Element :=
  if __len__ self =? 0
  then Raise (CIFTI2HeaderError "VoxelIndicesIJK element require an index table")
  else
    let vox_ind := new_Element "VoxelIndicesIJK" in
    Ok (set_text vox_ind
          (join newline
             (map (fun row => join " " (map str_int row)) (_indices self)))).

End Cifti2VoxelIndicesIJK.

(** ** Cifti2Vertices *)

Module Cifti2Vertices.

Record t : Type := {
  brain_structure : value;
  _vertices : list Z
}.

Definition __len__ (self : t) : Z := len (_vertices self).

Definition __delitem__ (self : t) (index : Z) : result t :=
  l <- list_delitem (_vertices self) index ;;
  Ok {| brain_structure := brain_structure self; _vertices := l |}.

Definition __getitem__ (self : t) (index : Z) : result Z :=
  list_getitem (_vertices self) index.

Definition __setitem__ (B : text_builtins) (self : t) (index : Z)
    (value : value) : result t :=
  except_ValueError
    (value' <- int_ B value ;;
     l <- list_setitem (_vertices self) index value' ;;
     Ok {| brain_structure := brain_structure self; _vertices := l |})
    (ValueError "value must be an int").

Definition insert (B : text_builtins) (self : t) (index : Z) (value : value)
  : result t :=
  except_ValueError
    (value' <- int_ B value ;;
     Ok {| brain_structure := brain_structure self;
           _vertices := list_insert (_vertices self) index value' |})
    (ValueError "value must be an int").

Definition append (B : text_builtins) (self : t) (value : value) : result t :=
  insert B self (__len__ self) value.

Definition extend (B : text_builtins) (self : t) (values : list value)
  : result t :=
  fold_result (append B) values self.

(** The vertices are stored first, the brain structure after them. *)
Definition __init__ (B : text_builtins) (brain_structure : value)
    (vertices : option (list value)) : result t :=
  let self := {| brain_structure := VNone; _vertices := [] |} in
  self <- match vertices with
          | Some vs => extend B self vs
          | None => Ok self
          end ;;
  Ok {| brain_structure := brain_structure; _vertices := _vertices self |}.

Definition _to_xml_element (B : text_builtins) (self : t) : result Element :=
  match brain_structure self with
  | VNone => Raise (CIFTI2HeaderError "Vertices element require a BrainStructure")
  | _ =>
      let vertices := new_Element "Vertices" in
      let vertices := set_attrib vertices "BrainStructure"
                        (str B (brain_structure self)) in
      Ok (set_text vertices (join " " (map str_int (_vertices self))))
  end.

End Cifti2Vertices.

(** ** Cifti2Parcel *)

Module Cifti2Parcel.

Record t : Type := {
  name : value;
  _voxel_indices_ijk : option Cifti2VoxelIndicesIJK.t;
  vertices : list Cifti2Vertices.t
}.

Definition __init__ (name : value)
    (voxel_indices_ijk : option Cifti2VoxelIndicesIJK.t)
    (vertices : option (list Cifti2Vertices.t)) : t :=
  {| name := name;
     _voxel_indices_ijk := voxel_indices_ijk;
     vertices := match vertices with Some vs => vs | None => [] end |}.

(** What a caller passes to [append_cifti_vertices]: a [Cifti2Vertices], or
    an object of another class. *)
Inductive argument : Type :=
| IsVertices (v : Cifti2Vertices.t)
| NotVertices (o : value).

Definition append_cifti_vertices (self : t) (vertices : argument) : result t :=
  match vertices with
  | NotVertices _ => Raise (TypeError "Not a valid Cifti2Vertices instance")
  | IsVertices v =>
      Ok {| name := name self;
            _voxel_indices_ijk := _voxel_indices_ijk self;
            vertices := Cifti2Parcel.vertices self ++ [v] |}
  end.

(** [self.vertices.pop(ith)]: the popped element is not returned. *)
Definition pop_cifti2_vertices (self : t) (ith : Z) : result t :=
  l <- list_delitem (vertices self) ith ;;
  Ok {| name := name self;
        _voxel_indices_ijk := _voxel_indices_ijk self;
        vertices := l |}.

Definition _to_xml_element (B : text_builtins) (self : t) : result Element :=
  match name self with
  | VNone => Raise (CIFTI2HeaderError "Parcel element requires a name")
  | _ =>
      let parcel := new_Element "Parcel" in
      let parcel := set_attrib parcel "Name" (str B (name self)) in
      parcel <-
        match _voxel_indices_ijk self with
        | Some ijk =>
            if Cifti2VoxelIndicesIJK.__len__ ijk =? 0 then Ok parcel
            else
              c <- Cifti2VoxelIndicesIJK._to_xml_element ijk ;;
              Ok (append_child parcel c)
        | None => Ok parcel
        end ;;
      append_elements (Cifti2Vertices._to_xml_element B) (vertices self) parcel
  end.

End Cifti2Parcel.

(** ** Cifti2TransformationMatrixVoxelIndicesIJKtoXYZ *)

Module Cifti2TransformationMatrixVoxelIndicesIJKtoXYZ.

Record t : Type := {
  meter_exponent : value;
  matrix : option (list (list float))
}.

Definition _to_xml_element (B : text_builtins) (self : t) : result Element :=
  match matrix self with
  | None =>
      Raise (CIFTI2HeaderError
               "TransformationMatrixVoxelIndicesIJKtoXYZ element requires a matrix")
  | Some m =>
      let trans := new_Element "TransformationMatrixVoxelIndicesIJKtoXYZ" in
      let trans := set_attrib trans "MeterExponent" (str B (meter_exponent self)) in
      Ok (set_text trans
            (join newline
               (map (fun row => join " " (map (float_format_10f B) row)) m)))
  end.

End Cifti2TransformationMatrixVoxelIndicesIJKtoXYZ.

(** ** Cifti2Volume *)

Module Cifti2Volume.

Record t : Type := {
  volume_dimensions : option (list value);
  transformation_matrix_voxel_indices_ijk_to_xyz
    : option Cifti2TransformationMatrixVoxelIndicesIJKtoXYZ.t
}.

Definition __init__ (volume_dimensions : option (list value))
    (transform_matrix : option Cifti2TransformationMatrixVoxelIndicesIJKtoXYZ.t)
  : t :=
  {| volume_dimensions := volume_dimensions;
     transformation_matrix_voxel_indices_ijk_to_xyz := transform_matrix |}.

Definition _to_xml_element (B : text_builtins) (self : t) : result Element :=
  match volume_dimensions self with
  | None => Raise (CIFTI2HeaderError "Volume element requires dimensions")
  | Some dims =>
      let volume := new_Element "Volume" in
      let volume := set_attrib volume "VolumeDimensions"
                      (join "," (map (str B) dims)) in
      match transformation_matrix_voxel_indices_ijk_to_xyz self with
      | None =>
          Raise (AttributeError
                   "'NoneType' object has no attribute '_to_xml_element'")
      | Some transform =>
          child <- Cifti2TransformationMatrixVoxelIndicesIJKtoXYZ._to_xml_element
                     B transform ;;
          Ok (append_child volume child)
      end
  end.

End Cifti2Volume.

(** ** Cifti2VertexIndices *)

Module Cifti2VertexIndices.

Record t : Type := { _indices : list Z }.

Definition __len__ (self : t) : Z := len (_indices self).

Definition _to_xml_element (self : t) : result Element :=
  if __len__ self =? 0
  then Raise (CIFTI2HeaderError "VertexIndices element requires indices")
  else
    let vert_indices := new_Element "VertexIndices" in
    Ok (set_text vert_indices (join " " (map str_int (_indices self)))).

Definition __delitem__ (self : t) (index : Z) : result t :=
  l <- list_delitem (_indices self) index ;;
  Ok {| _indices := l |}.

Definition __getitem__ (self : t) (index : Z) : result Z :=
  list_getitem (_indices self) index.

Definition __setitem__ (B : text_builtins) (self : t) (index : Z)
    (value : value) : result t :=
  except_ValueError
    (value' <- int_ B value ;;
     l <- list_setitem (_indices self) index value' ;;
     Ok {| _indices := l |})
    (ValueError "value must be an int").

Definition insert (B : text_builtins) (self : t) (index : Z) (value : value)
  : result t :=
  except_ValueError
    (value' <- int_ B value ;;
     Ok {| _indices := list_insert (_indices self) index value' |})
    (ValueError "value must be an int").

Definition append (B : text_builtins) (self : t) (value : value) : result t :=
  insert B self (__len__ self) value.

Definition extend (B : text_builtins) (self : t) (values : list value)
  : result t :=
  fold_result (append B) values self.

Definition __init__ (B : text_builtins) (indices : option (list value))
  : result t :=
  let self := {| _indices := [] |} in
  match indices with
  | Some ind => extend B self ind
  | None => Ok self
  end.

End Cifti2VertexIndices.

(** ** Cifti2BrainModel *)

Module Cifti2BrainModel.

Record t : Type := {
  index_offset : value;
  index_count : value;
  model_type : value;
  brain_structure : value;
  surface_number_of_vertices : value;
  _voxel_indices_ijk : option Cifti2VoxelIndicesIJK.t;
  _vertex_indices : option Cifti2VertexIndices.t
}.

Definition __init__ (index_offset index_count model_type brain_structure
    n_surface_vertices : value)
    (voxel_indices_ijk : option Cifti2VoxelIndicesIJK.t)
    (vertex_indices : option Cifti2VertexIndices.t) : t :=
  {| index_offset := index_offset;
     index_count := index_count;
     model_type := model_type;
     brain_structure := brain_structure;
     surface_number_of_vertices := n_surface_vertices;
     _voxel_indices_ijk := voxel_indices_ijk;
     _vertex_indices := vertex_indices |}.

(** [getattr(self, attr)] for the scalar attributes *)
Definition getattr (self : t) (attr : string) : result value :=
  if (attr =? "index_offset")%string then Ok (index_offset self)
  else if (attr =? "index_count")%string then Ok (index_count self)
  else if (attr =? "model_type")%string then Ok (model_type self)
  else if (attr =? "brain_structure")%string then Ok (brain_structure self)
  else if (attr =? "surface_number_of_vertices")%string
       then Ok (surface_number_of_vertices self)
  else Raise (AttributeError attr).

(** The loop over the attribute names: an attribute that is [None] is left out. *)
Definition set_attributes (B : text_builtins) (self : t) (keys : list string)
    (e : Element) : result Element :=
  fold_result
    (fun e key =>
       let attr := _underscore key in
       value <- getattr self attr ;;
       match value with
       | VNone => Ok e
       | _ => Ok (set_attrib e key (str B value))
       end)
    keys e.

Definition _to_xml_element (B : text_builtins) (self : t) : result Element :=
  brain_model <- set_attributes B self
                   ["IndexOffset"; "IndexCount"; "ModelType"; "BrainStructure";
                    "SurfaceNumberOfVertices"]
                   (new_Element "BrainModel") ;;
  brain_model <-
    match _voxel_indices_ijk self with
    | Some ijk =>
        if Cifti2VoxelIndicesIJK.__len__ ijk =? 0 then Ok brain_model
        else
          c <- Cifti2VoxelIndicesIJK._to_xml_element ijk ;;
          Ok (append_child brain_model c)
    | None => Ok brain_model
    end ;;
  match _vertex_indices self with
  | Some vi =>
      if Cifti2VertexIndices.__len__ vi =? 0 then Ok brain_model
      else
        c <- Cifti2VertexIndices._to_xml_element vi ;;
        Ok (append_child brain_model c)
  | None => Ok brain_model
  end.

End Cifti2BrainModel.

(** ** Cifti2MatrixIndicesMap *)

Module Cifti2MatrixIndicesMap.

(** The objects the sequence holds, by their class ([isinstance]); nothing in
    the class stops an object of another class from being stored. *)
Inductive element : Type :=
| NamedMap (m : Cifti2NamedMap.t)
| Surface (s : Cifti2Surface.t)
| Parcel (p : Cifti2Parcel.t)
| BrainModel (b : Cifti2BrainModel.t)
| Volume (v : Cifti2Volume.t)
| Other (o : value).

Definition is_Volume (e : element) : bool :=
  match e with Volume _ => true | _ => false end.

Record t : Type := {
  applies_to_matrix_dimension : option (list value);
  indices_map_to_data_type : value;
  number_of_series_points : value;
  series_exponent : value;
  series_start : value;
  series_step : value;
  series_unit : value;
  _maps : list element
}.

Definition with_maps (self : t) (maps : list element) : t :=
  {| applies_to_matrix_dimension := applies_to_matrix_dimension self;
     indices_map_to_data_type := indices_map_to_data_type self;
     number_of_series_points := number_of_series_points self;
     series_exponent := series_exponent self;
     series_start := series_start self;
     series_step := series_step self;
     series_unit := series_unit self;
     _maps := maps |}.

Definition __len__ (self : t) : Z := len (_maps self).

Definition __delitem__ (self : t) (index : Z) : result t :=
  l <- list_delitem (_maps self) index ;;
  Ok (with_maps self l).

Definition __getitem__ (self : t) (index : Z) : result element :=
  list_getitem (_maps self) index.

(** The [volume] property: the first Volume of the sequence, or [None]. *)
Definition volume (self : t) : option element :=
  find is_Volume (_maps self).

(** [self[index] = value] for an int [index]; [setitem_slice] below is the
    method at a slice. *)
Definition __setitem__ (self : t) (index : Z) (value : element) : result t :=
  clash <-
    (if is_Volume value then
       match volume self with
       | Some _ =>
           old <- list_getitem (_maps self) index ;;
           Ok (negb (is_Volume old))
       | None => Ok false
       end
     else Ok false) ;;
  if (clash : bool)
  then Raise (CIFTI2HeaderError "Only one Volume can be in a MatrixIndicesMap")
  else
    l <- list_setitem (_maps self) index value ;;
    Ok (with_maps self l).

(** What is assigned to a slice: one object, or a list of objects. *)
Inductive assigned : Type :=
| Object (e : element)
| Objects (es : list element).

(** The objects the list takes from the right-hand side of a slice
    assignment: those of a list, the characters of a str; an object of the
    classes of this module, [None] and a number are not iterable. *)
Definition iterate (value : assigned) : result (list element) :=
  match value with
  | Objects es => Ok es
  | Object (Other (VStr s)) =>
      Ok (map (fun c => Other (VStr (String c EmptyString)))
              (list_ascii_of_string s))
  | Object _ => Raise (TypeError "can only assign an iterable")
  end.

(** [self[start:stop] = value]: [__setitem__] at a slice.  The test
    [isinstance(value, Cifti2Volume)] is false of a list, whatever the list
    holds, and [self._maps[index]] is a list and so no Volume. *)
Definition setitem_slice (self : t) (start stop : option Z) (value : assigned)
  : result t :=
  let clash :=
    match value with
    | Object e =>
        is_Volume e && (match volume self with Some _ => true | None => false end)
    | Objects _ => false
    end in
  if clash
  then Raise (CIFTI2HeaderError "Only one Volume can be in a MatrixIndicesMap")
  else
    l <- iterate value ;;
    Ok (with_maps self (list_setslice (_maps self) start stop l)).

(** [del self[start:stop]]: [__delitem__] at a slice *)
Definition delitem_slice (self : t) (start stop : option Z) : result t :=
  Ok (with_maps self (list_setslice (_maps self) start stop [])).

Definition insert (self : t) (index : Z) (value : element) : result t :=
  if is_Volume value && (match volume self with Some _ => true | None => false end)
  then Raise (CIFTI2HeaderError "Only one Volume can be in a MatrixIndicesMap")
  else Ok (with_maps self (list_insert (_maps self) index value)).

(** [MutableSequence.append] *)
Definition append (self : t) (value : element) : result t :=
  insert self (__len__ self) value.

Definition __init__ (applies_to_matrix_dimension : option (list value))
    (indices_map_to_data_type number_of_series_points series_exponent
     series_start series_step series_unit : value)
    (maps : list element) : result t :=
  let self :=
    {| applies_to_matrix_dimension := applies_to_matrix_dimension;
       indices_map_to_data_type := indices_map_to_data_type;
       number_of_series_points := number_of_series_points;
       series_exponent := series_exponent;
       series_start := series_start;
       series_step := series_step;
       series_unit := series_unit;
       _maps := [] |} in
  fold_result append maps self.

(** [for i, v in enumerate(self): if isinstance(v, Cifti2Volume): break] *)
Fixpoint first_Volume (maps : list element) (i : Z) : option Z :=
  match maps with
  | [] => None
  | v :: maps' => if is_Volume v then Some i else first_Volume maps' (i + 1)
  end.

(** The setter of the [volume] property: [self.volume = volume] *)
Definition set_volume (self : t) (volume : element) : result t :=
  if negb (is_Volume volume)
  then Raise (ValueError "You can only set a volume with a volume")
  else
    match first_Volume (_maps self) 0 with
    | None => append self volume
    | Some i => __setitem__ self i volume
    end.

(** The deleter of the [volume] property: [del self.volume] *)
Definition del_volume (self : t) : result t :=
  match first_Volume (_maps self) 0 with
  | None => Raise (ValueError "No Cifti2Volume element")
  | Some i => __delitem__ self i
  end.

Definition named_maps (self : t) : list element :=
  filter (fun p => match p with NamedMap _ => true | _ => false end) (_maps self).

Definition surfaces (self : t) : list element :=
  filter (fun p => match p with Surface _ => true | _ => false end) (_maps self).

Definition parcels (self : t) : list element :=
  filter (fun p => match p with Parcel _ => true | _ => false end) (_maps self).

Definition brain_models (self : t) : list element :=
  filter (fun p => match p with BrainModel _ => true | _ => false end) (_maps self).

(** [getattr(self, attr)] for the scalar attributes *)
Definition getattr (self : t) (attr : string) : result value :=
  if (attr =? "indices_map_to_data_type")%string
  then Ok (indices_map_to_data_type self)
  else if (attr =? "number_of_series_points")%string
  then Ok (number_of_series_points self)
  else if (attr =? "series_exponent")%string then Ok (series_exponent self)
  else if (attr =? "series_start")%string then Ok (series_start self)
  else if (attr =? "series_step")%string then Ok (series_step self)
  else if (attr =? "series_unit")%string then Ok (series_unit self)
  else Raise (AttributeError attr).

(** The loop over the attribute names: an attribute that is [None] is left out. *)
Definition set_attributes (B : text_builtins) (self : t) (keys : list string)
    (e : Element) : result Element :=
  fold_result
    (fun e key =>
       let attr := _underscore key in
       value <- getattr self attr ;;
       match value with
       | VNone => Ok e
       | _ => Ok (set_attrib e key (str B value))
       end)
    keys e.

(** [map_._to_xml_element()] by the class of [map_].  The element of a
    NamedMap takes [map_name] for its text whatever object it is, which an
    [Element] with a string for text cannot hold: the method of
    Cifti2NamedMap is the parameter [named_map_xml]. *)
Definition element_to_xml (B : text_builtins)
    (named_map_xml : Cifti2NamedMap.t -> result Element) (map_ : element)
  : result Element :=
  match map_ with
  | NamedMap m => named_map_xml m
  | Surface s => Cifti2Surface._to_xml_element B s
  | Parcel p => Cifti2Parcel._to_xml_element B p
  | BrainModel b => Cifti2BrainModel._to_xml_element B b
  | Volume v => Cifti2Volume._to_xml_element B v
  | Other _ => Raise (AttributeError "object has no attribute '_to_xml_element'")
  end.

Definition _to_xml_element (B : text_builtins)
    (named_map_xml : Cifti2NamedMap.t -> result Element) (self : t)
  : result Element :=
  match applies_to_matrix_dimension self with
  | None =>
      Raise (CIFTI2HeaderError
               "MatrixIndicesMap element requires to be applied to at least 1 dimension")
  | Some dims =>
      let mat_ind_map := new_Element "MatrixIndicesMap" in
      let dims_as_strings := map (str B) dims in
      let mat_ind_map := set_attrib mat_ind_map "AppliesToMatrixDimension"
                           (join "," dims_as_strings) in
      mat_ind_map <- set_attributes B self
                       ["IndicesMapToDataType"; "NumberOfSeriesPoints";
                        "SeriesExponent"; "SeriesStart"; "SeriesStep";
                        "SeriesUnit"]
                       mat_ind_map ;;
      append_elements (element_to_xml B named_map_xml)
        (_maps self) mat_ind_map
  end.

End Cifti2MatrixIndicesMap.

(** ** Cifti2Matrix *)

Module Cifti2Matrix.

Record t : Type := {
  _mims : list Cifti2MatrixIndicesMap.t;
  _meta : option Cifti2MetaData.t
}.

Definition __init__ : t := {| _mims := []; _meta := None |}.

Definition set_metadata (self : t) (meta : option Cifti2MetaData.t) : t :=
  {| _mims := _mims self; _meta := meta |}.

Definition __len__ (self : t) : Z := len (_mims self).

Definition insert (self : t) (index : Z) (value : Cifti2MatrixIndicesMap.t) : t :=
  {| _mims := list_insert (_mims self) index value; _meta := _meta self |}.

Definition __getitem__ (self : t) (key : Z) : result Cifti2MatrixIndicesMap.t :=
  list_getitem (_mims self) key.

Definition __setitem__ (self : t) (key : Z) (value : Cifti2MatrixIndicesMap.t)
  : result t :=
  l <- list_setitem (_mims self) key value ;;
  Ok {| _mims := l; _meta := _meta self |}.

Definition __delitem__ (self : t) (key : Z) : result t :=
  l <- list_delitem (_mims self) key ;;
  Ok {| _mims := l; _meta := _meta self |}.

(** The method of Cifti2MatrixIndicesMap takes the serializer of NamedMap as
    a parameter, and so does this one. *)
Definition _to_xml_element (B : text_builtins)
    (named_map_xml : Cifti2NamedMap.t -> result Element) (self : t)
  : result Element :=
  match _mims self, _meta self with
  | [], None =>
      Raise (CIFTI2HeaderError
               "Matrix element requires either a MatrixIndicesMap or a Metadata element")
  | _, _ =>
      let mat := new_Element "Matrix" in
      let mat :=
        match _meta self with
        | Some md =>
            if Cifti2MetaData.__len__ md =? 0 then mat
            else append_child mat (Cifti2MetaData._to_xml_element md)
        | None => mat
        end in
      append_elements
        (Cifti2MatrixIndicesMap._to_xml_element B named_map_xml)
        (_mims self) mat
  end.

End Cifti2Matrix.

(** ** Cifti2Header *)

Module Cifti2Header.

Record t : Type := {
  matrix : Cifti2Matrix.t;
  version : value
}.

(** [matrix] is [None] or a [Cifti2Matrix]; [version] is [None] here when the
    caller leaves it out, and the default ["2.0"] applies. *)
Definition __init__ (matrix : option Cifti2Matrix.t) (version : option value) : t :=
  {| matrix := match matrix with
               | None => Cifti2Matrix.__init__
               | Some _ => Cifti2Matrix.__init__
               end;
     version := match version with
                | None => VStr "2.0"
                | Some v => v
                end |}.

Definition _to_xml_element (B : text_builtins)
    (named_map_xml : Cifti2NamedMap.t -> result Element) (self : t)
  : result Element :=
  let cifti := new_Element "CIFTI" in
  let cifti := set_attrib cifti "Version" (str B (version self)) in
  mat_xml <- Cifti2Matrix._to_xml_element B named_map_xml (matrix self) ;;
  Ok (append_child cifti mat_xml).

End Cifti2Header.

(** ** Reachable objects *)

Module MatrixIndicesMapSpec.
Import Cifti2MatrixIndicesMap.

(** The number of Volumes in the sequence *)
Definition count_Volume (maps : list element) : nat :=
  List.length (filter is_Volume maps).

(** The objects a caller gets without assigning a Volume through a slice:
    built by the constructor, then changed by [insert], by [self[i] = v] and
    [del self[i]] at an int [i], by the [volume] setter and deleter, by
    [del self[start:stop]], and by [self[start:stop] = value] for a [value]
    that brings no Volume.  The other methods of [MutableSequence] ([append],
    [extend], [pop], [remove], [reverse], [+=]) are sequences of these
    calls. *)
Inductive reachable : t -> Prop :=
| reach_init a b c d e f g maps self :
    __init__ a b c d e f g maps = Ok self -> reachable self
| reach_insert self index value self' :
    reachable self -> insert self index value = Ok self' -> reachable self'
| reach_setitem self index value self' :
    reachable self -> __setitem__ self index value = Ok self' -> reachable self'
| reach_delitem self index self' :
    reachable self -> __delitem__ self index = Ok self' -> reachable self'
| reach_set_volume self value self' :
    reachable self -> set_volume self value = Ok self' -> reachable self'
| reach_del_volume self self' :
    reachable self -> del_volume self = Ok self' -> reachable self'
| reach_delitem_slice self start stop self' :
    reachable self -> delitem_slice self start stop = Ok self' ->
    reachable self'
| reach_setitem_slice self start stop value objects self' :
    reachable self ->
    iterate value = Ok objects -> count_Volume objects = 0%nat ->
    setitem_slice self start stop value = Ok self' ->
    reachable self'.

Definition only_one_Volume : exn :=
  CIFTI2HeaderError "Only one Volume can be in a MatrixIndicesMap".

Definition sample_Surface : Cifti2Surface.t :=
  Cifti2Surface.__init__ (VStr "CIFTI_STRUCTURE_CORTEX_LEFT") (VInt 4).

Definition sample_Volume : Cifti2Volume.t :=
  Cifti2Volume.__init__ (Some [VInt 2; VInt 3; VInt 4]) None.

(** A SCALARS map over dimension 0 that holds a Surface and a Volume *)
Definition sample_map : t :=
  {| applies_to_matrix_dimension := Some [VInt 0];
     indices_map_to_data_type := VStr "CIFTI_INDEX_TYPE_SCALARS";
     number_of_series_points := VNone;
     series_exponent := VNone;
     series_start := VNone;
     series_step := VNone;
     series_unit := VNone;
     _maps := [Surface sample_Surface; Volume sample_Volume] |}.

End MatrixIndicesMapSpec.

(** ** Sample objects *)

(** The conversions of the closed examples below; the theorems hold for
    every [text_builtins].  It prints the floats the examples print, and the
    examples convert no text to a number. *)
Definition sample_builtins : text_builtins :=
  {| float_repr := fun f =>
       if (f =? 0.5)%float then "0.5"
       else if (f =? 0.25)%float then "0.25"
       else if (f =? 2)%float then "2.0"
       else "?";
     float_format_10f := fun _ => "0.0000000000";
     float_of_str := fun _ => None;
     int_of_str := fun _ => None |}.

(** A Matrix that holds a MetaData: [m = Cifti2Matrix(); m.metadata =
    Cifti2MetaData({'a': 'aval'})] *)
Definition sample_Matrix : Cifti2Matrix.t :=
  Cifti2Matrix.set_metadata Cifti2Matrix.__init__
    (Some (Cifti2MetaData.__init__ (Some [("a", "aval")]))).

(** [Cifti2Volume(volume_dimensions=[2, 3, 4])]: no transform is given. *)
Definition Volume_without_transform : Cifti2Volume.t :=
  Cifti2Volume.__init__ (Some [VInt 2; VInt 3; VInt 4]) None.

(** [Cifti2Surface('CIFTI_STRUCTURE_CORTEX_LEFT')]: no number of vertices *)
Definition Surface_without_vertices : Cifti2Surface.t :=
  Cifti2Surface.__init__ (VStr "CIFTI_STRUCTURE_CORTEX_LEFT") VNone.

(** One round of the loop of [Cifti2BrainModel._to_xml_element]: an attribute
    that is [None] is left out. *)
Definition put_attribute (B : text_builtins) (key : string) (value : value)
    (e : Element) : Element :=
  match value with
  | VNone => e
  | _ => set_attrib e key (str B value)
  end.

(** ** Cifti2MetaData: what [difference_update] leaves *)

Module MetaDataSpec.

Definition keys {V : Type} (d : list (string * V)) : list string := map fst d.

(** A dictionary holds a key once. *)
Definition wf (m : Cifti2MetaData.t) : Prop :=
  NoDup (keys (Cifti2MetaData.data m)).

Definition mem (k : string) (ks : list string) : bool :=
  existsb (String.eqb k) ks.

(** [d] without the keys [ks], the other entries in their order *)
Definition without {V : Type} (d : list (string * V)) (ks : list string)
  : list (string * V) :=
  filter (fun kv => negb (mem (fst kv) ks)) d.

(** [Cifti2MetaData({'a': '1', 'b': '2'})] *)
Definition sample : Cifti2MetaData.t :=
  Cifti2MetaData.__init__ (Some [("a", "1"); ("b", "2")]).

End MetaDataSpec.

(** ** Cifti2Label: which fields offend, and which an error names *)

Module LabelSpec.
Import Cifti2Label.

(** The fields in the order [_to_xml_element] checks them *)
Definition check_order : list string :=
  ["label"; "key"; "red"; "blue"; "green"; "alpha"].

(** The check of one field: the label is not empty, [int] accepts the key,
    [_float_01] accepts the colour. *)
Definition field_check (B : text_builtins) (l : t) (f : string) : result unit :=
  if (f =? "label")%string then
    match label l with
    | VStr "" => Raise (ValueError "empty")
    | _ => Ok tt
    end
  else if (f =? "key")%string then _ <- int_ B (key l) ;; Ok tt
  else _ <- _float_01 B (getattr l f) ;; Ok tt.

Definition passes (B : text_builtins) (l : t) (f : string) : bool :=
  is_ok (field_check B l f).

(** An offending field: its check fails as a validation failure, that is
    with [ValueError]; [int] and [float] raise [TypeError] for [None] and
    [OverflowError] for a number out of range, which are not. *)
Definition offending (B : text_builtins) (l : t) (f : string) : bool :=
  match field_check B l f with
  | Raise (ValueError _) => true
  | _ => false
  end.

(** Whether the exception names the field [f]. *)
Definition reports (e : exn) (f : string) : bool :=
  match e with
  | CIFTI2HeaderError msg =>
      if (f =? "label")%string then (msg =? "Label needs a name")%string
      else if (f =? "key")%string then (msg =? "The key must be an integer")%string
      else prefix ("Label invalid " ++ f ++ " ") msg
  | _ => false
  end.

(** What the attribute of a colour must read: "0" for a component equal to 0,
    "1" for one equal to 1, its string otherwise. *)
Definition rendered (B : text_builtins) (c : value) (s : string) : Prop :=
  (py_eq c (VInt 0) = true -> s = "0") /\
  (py_eq c (VInt 0) = false -> py_eq c (VInt 1) = true -> s = "1") /\
  (py_eq c (VInt 0) = false -> py_eq c (VInt 1) = false -> s = str B c).

(** A label without a name whose red and green are out of range *)
Definition nameless_red_green : t :=
  {| key := VInt 1; label := VStr "";
     red := VFloat 2; green := VFloat 3; blue := VInt 0; alpha := VInt 0 |}.

(** A named label whose blue and green are out of range *)
Definition blue_green : t :=
  {| key := VInt 1; label := VStr "x";
     red := VFloat 0.5; green := VFloat 3; blue := VFloat 2; alpha := VInt 0 |}.

(** A named label whose key is [None] and whose green is out of range *)
Definition key_None : t :=
  {| key := VNone; label := VStr "x";
     red := VFloat 0.5; green := VFloat 3; blue := VFloat 0; alpha := VInt 0 |}.

(** A label that serializes *)
Definition grey : t :=
  {| key := VInt 7; label := VStr "grey";
     red := VFloat 0.5; green := VFloat 1; blue := VFloat 0; alpha := VInt 1 |}.

End LabelSpec.

(** ** Cifti2VoxelIndicesIJK: reachable objects and the text of the element *)

Module VoxelIndicesSpec.
Import Cifti2VoxelIndicesIJK.

(** Built by the constructor, then changed by [insert], [self[i] = row],
    [self[i, j] = v] and [del self[i]]. *)
Inductive reachable (B : text_builtins) : t -> Prop :=
| reach_init indices self :
    __init__ B indices = Ok self -> reachable B self
| reach_insert self index value self' :
    reachable B self -> insert B self index value = Ok self' ->
    reachable B self'
| reach_setitem self index value self' :
    reachable B self -> __setitem__ B self index value = Ok self' ->
    reachable B self'
| reach_setitem_cell self row column value self' :
    reachable B self -> setitem_cell B self row column value = Ok self' ->
    reachable B self'
| reach_delitem self index self' :
    reachable B self -> __delitem__ self index = Ok self' ->
    reachable B self'.

Definition triples (rows : list (list Z)) : Prop :=
  Forall (fun row => List.length row = 3%nat) rows.

(** A row: its three integers, a single space between them *)
Definition row_text (row : list Z) : string :=
  match row with
  | [i; j; k] => str_int i ++ " " ++ str_int j ++ " " ++ str_int k
  | _ => ""
  end.

(** The rows, a newline before each row but the first *)
Definition rows_text (rows : list (list Z)) : string :=
  match rows with
  | [] => ""
  | row :: rest =>
      row_text row
      ++ fold_right String.append "" (map (fun r => newline ++ row_text r) rest)
  end.

(** How often the character [c] occurs in [s] *)
Fixpoint count_char (c : ascii) (s : string) : nat :=
  match s with
  | EmptyString => 0%nat
  | String x s' => ((if Ascii.eqb x c then 1 else 0) + count_char c s')%nat
  end.

(** A character that is no part of a printed integer *)
Definition separator (c : ascii) : bool :=
  negb (is_digit c) && negb (Ascii.eqb c "-").

(** [Cifti2VoxelIndicesIJK([[0, 0, 0], [1, 1, 1]])] *)
Definition two_rows : t := {| _indices := [[0; 0; 0]; [1; 1; 1]] |}.

End VoxelIndicesSpec.

(** ** Cifti2LabelTable: reachable tables *)

Module LabelTableSpec.
Import Cifti2LabelTable.



(** Built empty, then changed by [table[k] = v] for a Label or a sequence
    [v], [append] and [del table[k]], with keys of any kind; [seq_key] tells
    under which keys a sequence is assigned. *)
Inductive reachable (B : text_builtins) (seq_key : value -> bool) : t -> Prop :=
| reach_init : reachable B seq_key __init__
| reach_setitem_label self k l self' :
    reachable B seq_key self ->
    __setitem__ B self k (ItemLabel l) = Ok self' ->
    reachable B seq_key self'
| reach_setitem_seq self k xs self' :
    reachable B seq_key self -> seq_key k = true ->
    __setitem__ B self k (ItemSeq xs) = Ok self' ->
    reachable B seq_key self'
| reach_append self label self' :
    reachable B seq_key self -> append B self label = Ok self' ->
    reachable B seq_key self'
| reach_delitem self k self' :
    reachable B seq_key self -> __delitem__ self k = Ok self' ->
    reachable B seq_key self'.





(** [Cifti2Label(5, "name", 0.1, 0.2, 0.3, 0.4)] *)
#[warnings="-inexact-float"]
Definition label_name : Cifti2Label.t :=
  {| Cifti2Label.key := VInt 5; Cifti2Label.label := VStr "name";
     Cifti2Label.red := VFloat 0.1; Cifti2Label.green := VFloat 0.2;
     Cifti2Label.blue := VFloat 0.3; Cifti2Label.alpha := VFloat 0.4 |}.


End LabelTableSpec.

(** ** Cifti2MetaData: the element of one entry *)

Module MetaDataXml.

(** [<MD><Name>name</Name><Value>value</Value></MD>] *)
Definition MD (nv : string * string) : Element :=
  {| tag := "MD"; attrib := []; text := None;
     children :=
       [ {| tag := "Name"; attrib := []; text := Some (fst nv); children := [] |};
         {| tag := "Value"; attrib := []; text := Some (snd nv); children := [] |} ] |}.

End MetaDataXml.

(** ** Cifti2Label: what the constructor leaves *)

Module LabelInit.
Import Cifti2Label.

(** [not (f < 0 or f > 1)] *)
Definition in_01 (f : float) : Prop := ((f <? 0) || (1 <? f))%float = false.

(** The attributes hold an int, a str and four floats that passed the test
    of [_float_01]. *)
Definition coerced (self : t) : Prop :=
  exists z s r g b a,
    self = {| key := VInt z; label := VStr s;
              red := VFloat r; green := VFloat g;
              blue := VFloat b; alpha := VFloat a |} /\
    in_01 r /\ in_01 g /\ in_01 b /\ in_01 a.

End LabelInit.

(** ** The optional children of Cifti2Parcel and Cifti2BrainModel *)

Module ChildrenSpec.

(** The VoxelIndicesIJK child: none without the object, and none for an
    object that holds no row. *)
Definition voxel_children (ijk : option Cifti2VoxelIndicesIJK.t) : list Element :=
  match ijk with
  | Some ijk =>
      match Cifti2VoxelIndicesIJK._indices ijk with
      | [] => []
      | rows =>
          [ {| tag := "VoxelIndicesIJK"; attrib := [];
               text := Some (join newline
                               (map (fun row => join " " (map str_int row)) rows));
               children := [] |} ]
      end
  | None => []
  end.

(** The VertexIndices child, likewise *)
Definition vertex_children (vi : option Cifti2VertexIndices.t) : list Element :=
  match vi with
  | Some vi =>
      match Cifti2VertexIndices._indices vi with
      | [] => []
      | indices =>
          [ {| tag := "VertexIndices"; attrib := [];
               text := Some (join " " (map str_int indices));
               children := [] |} ]
      end
  | None => []
  end.

(** An attribute that is [None] is not written. *)
Definition attribute (B : text_builtins) (v : value) : option string :=
  match v with
  | VNone => None
  | _ => Some (str B v)
  end.

(** [Cifti2Vertices('CIFTI_STRUCTURE_CORTEX_LEFT', [0, 5])] *)
Definition left_vertices : Cifti2Vertices.t :=
  {| Cifti2Vertices.brain_structure := VStr "CIFTI_STRUCTURE_CORTEX_LEFT";
     Cifti2Vertices._vertices := [0; 5] |}.

(** [Cifti2Parcel('p', Cifti2VoxelIndicesIJK(), [left_vertices])]: the voxel
    indices are there and hold no row. *)
Definition sample_parcel : Cifti2Parcel.t :=
  Cifti2Parcel.__init__ (VStr "p")
    (Some {| Cifti2VoxelIndicesIJK._indices := [] |})
    (Some [left_vertices]).

End ChildrenSpec.

(** ** Cifti2MatrixIndicesMap: where the first Volume is *)

Module VolumeSpec.
Import Cifti2MatrixIndicesMap.

(** The position of the first Volume, counted from the head *)
Fixpoint first_index (maps : list element) : option nat :=
  match maps with
  | [] => None
  | v :: maps' =>
      if is_Volume v then Some O else option_map S (first_index maps')
  end.

Definition not_Volume (e : element) : bool := negb (is_Volume e).

End VolumeSpec.

(** ** Cifti2Matrix: the MetaData child *)

Module MatrixSpec.

(** The MetaData child: none without a MetaData, and none for a MetaData
    that holds no entry. *)
Definition metadata_children (meta : option Cifti2MetaData.t) : list Element :=
  match meta with
  | Some md =>
      match Cifti2MetaData.data md with
      | [] => []
      | _ => [Cifti2MetaData._to_xml_element md]
      end
  | None => []
  end.

Definition requires_content : exn :=
  CIFTI2HeaderError
    "Matrix element requires either a MatrixIndicesMap or a Metadata element".

End MatrixSpec.

(** ** _underscore: strings without capitals *)

Module UnderscoreSpec.

Definition no_capitals (s : string) : Prop :=
  Forall (fun c => is_upper c = false) (list_ascii_of_string s).

End UnderscoreSpec.

(** * Properties *)

(** ** The embedding on small inputs *)

Example underscore_attribute_names :
  map _underscore
    ["IndexOffset"; "IndexCount"; "ModelType"; "BrainStructure";
     "SurfaceNumberOfVertices"; "IndicesMapToDataType"; "HTTPResponseCode"]
  = ["index_offset"; "index_count"; "model_type"; "brain_structure";
     "surface_number_of_vertices"; "indices_map_to_data_type";
     "http_response_code"].
Proof. reflexivity. Qed.

Example capitalize_color_names :
  map capitalize ["red"; "green"; "blue"; "alpha"]
  = ["Red"; "Green"; "Blue"; "Alpha"].
Proof. reflexivity. Qed.

Example str_int_examples :
  map str_int [0; 7; -12; 105] = ["0"; "7"; "-12"; "105"].
Proof. reflexivity. Qed.

Example py_eq_examples :
  map (fun vw => py_eq (fst vw) (snd vw))
    [(VFloat 1, VInt 1); (VFloat (-0), VInt 0); (VFloat 0.5, VInt 0);
     (VFloat nan, VFloat nan); (VStr "0", VInt 0); (VNone, VNone);
     (VInt 6, VFloat 6)]
  = [true; true; false; false; false; true; true].
Proof. reflexivity. Qed.

Example float_01_examples :
  map (fun v => is_ok (_float_01 sample_builtins v))
    [VInt 0; VInt 1; VInt 2; VFloat 0.5; VFloat (-0.5); VFloat 1.5; VNone]
  = [true; true; false; true; false; false; false].
Proof. reflexivity. Qed.

Example int_examples :
  (int_ sample_builtins (VFloat 5.75), int_ sample_builtins (VFloat (-5.75)),
   int_ sample_builtins (VFloat nan), int_ sample_builtins (VFloat infinity))
  = (Ok 5, Ok (-5),
     Raise (ValueError "cannot convert float NaN to integer"),
     Raise OverflowError).
Proof. reflexivity. Qed.

Example list_index_examples :
  (list_getitem [10; 20; 30] (-1), list_getitem [10; 20; 30] 3,
   list_insert [10; 20; 30] (-1) 0, list_insert [10; 20; 30] 7 0,
   list_setitem [10; 20; 30] (-3) 0, list_delitem [10; 20; 30] 1)
  = (Ok 30, Raise IndexError,
     [10; 20; 0; 30], [10; 20; 30; 0],
     Ok [0; 20; 30], Ok [10; 30]).
Proof. reflexivity. Qed.

(** ** Results, lists and indices *)

Lemma bind_Ok {A B : Type} (r : result A) (k : A -> result B) (b : B) :
  bind r k = Ok b -> exists a, r = Ok a /\ k a = Ok b.
Proof.
  destruct r as [a | e]; simpl; intros H; [exists a; auto | discriminate].
Qed.

Tactic Notation "inv_bind" hyp(H) "as" ident(a) ident(Ha) :=
  apply bind_Ok in H; destruct H as (a & Ha & H).

Lemma norm_index_lt {A : Type} (l : list A) (i : Z) (n : nat) :
  norm_index l i = Some n -> (n < List.length l)%nat.
Proof.
  unfold norm_index. intros H.
  destruct (i <? 0) eqn:Hi;
    destruct ((0 <=? _) && (_ <? _)) eqn:Hb; try discriminate;
    injection H as <-; apply andb_prop in Hb as [H0 H1]; lia.
Qed.

Lemma fold_result_inv {S A : Type} (P : S -> Prop) (step : S -> A -> result S) :
  (forall s x s', P s -> step s x = Ok s' -> P s') ->
  forall xs s s', P s -> fold_result step xs s = Ok s' -> P s'.
Proof.
  intros Hstep xs. induction xs as [| x xs IH]; simpl; intros s s' Hs H.
  - injection H as <-. exact Hs.
  - inv_bind H as s1 Hs1. eauto.
Qed.

Section counting.
Context {A : Type} (p : A -> bool).

Lemma count_app (l1 l2 : list A) :
  List.length (filter p (l1 ++ l2))
  = (List.length (filter p l1) + List.length (filter p l2))%nat.
Proof. now rewrite filter_app, length_app. Qed.

Lemma count_insert (l : list A) (i : Z) (x : A) :
  List.length (filter p (list_insert l i x))
  = (List.length (filter p l) + Nat.b2n (p x))%nat.
Proof.
  cbv beta zeta delta [list_insert].
  set (n := Z.to_nat _).
  assert (Hl : List.length (filter p l)
               = (List.length (filter p (firstn n l))
                  + List.length (filter p (skipn n l)))%nat)
    by now rewrite <- count_app, firstn_skipn.
  rewrite count_app, Hl. simpl.
  destruct (p x); simpl; lia.
Qed.

Lemma count_replace_nth (l : list A) (n : nat) (x old : A) :
  nth_error l n = Some old ->
  (List.length (filter p (replace_nth n x l)) + Nat.b2n (p old)
   = List.length (filter p l) + Nat.b2n (p x))%nat.
Proof.
  revert n. induction l as [| y l IH]; intros [| n] H; simpl in *; try discriminate.
  - injection H as ->. destruct (p x), (p old); simpl; lia.
  - specialize (IH n H). destruct (p y); simpl; lia.
Qed.

Lemma count_remove_nth (l : list A) (n : nat) :
  (List.length (filter p (remove_nth n l)) <= List.length (filter p l))%nat.
Proof.
  revert n. induction l as [| y l IH]; intros [| n]; simpl; auto.
  - destruct (p y); simpl; lia.
  - specialize (IH n). destruct (p y); simpl; lia.
Qed.

Lemma count_firstn_skipn (l : list A) (lo hi : nat) :
  (lo <= hi)%nat ->
  (List.length (filter p (firstn lo l)) + List.length (filter p (skipn hi l))
   <= List.length (filter p l))%nat.
Proof.
  revert lo hi.
  induction l as [| y l IH]; intros [| lo] [| hi] H; simpl; try lia.
  - pose proof (IH O hi (Nat.le_0_l hi)) as IH0. simpl in IH0.
    destruct (p y); simpl; lia.
  - pose proof (IH lo hi (proj2 (Nat.succ_le_mono lo hi) H)) as IH1.
    destruct (p y); simpl; lia.
Qed.

Lemma find_None_count (l : list A) :
  find p l = None <-> List.length (filter p l) = 0%nat.
Proof.
  induction l as [| y l IH]; simpl; [tauto |].
  destruct (p y); simpl; [split; discriminate | exact IH].
Qed.

End counting.

Lemma list_getitem_nth {A : Type} (l : list A) (i : Z) (x : A) :
  list_getitem l i = Ok x ->
  exists n, norm_index l i = Some n /\ nth_error l n = Some x.
Proof.
  unfold list_getitem. destruct (norm_index l i) as [n |]; [| discriminate].
  destruct (nth_error l n) as [y |] eqn:Hn; [| discriminate].
  intros H; injection H as ->. eauto.
Qed.

Lemma nth_error_replace_nth {A : Type} (l : list A) (n : nat) (x : A) :
  (n < List.length l)%nat -> nth_error (replace_nth n x l) n = Some x.
Proof.
  revert n. induction l as [| y l IH]; intros [| n] H; simpl in *; try lia; auto.
  apply IH. lia.
Qed.

Lemma length_replace_nth {A : Type} (l : list A) (n : nat) (x : A) :
  List.length (replace_nth n x l) = List.length l.
Proof.
  revert n. induction l as [| y l IH]; intros [| n]; simpl; auto.
Qed.

(** ** Cifti2MatrixIndicesMap: at most one Volume *)

Section one_volume.
Import Cifti2MatrixIndicesMap MatrixIndicesMapSpec.

Lemma volume_None_count (self : t) :
  volume self = None <-> count_Volume (_maps self) = 0%nat.
Proof. apply find_None_count. Qed.

Lemma insert_keeps_one (self self' : t) (index : Z) (value : element) :
  (count_Volume (_maps self) <= 1)%nat ->
  insert self index value = Ok self' ->
  (count_Volume (_maps self') <= 1)%nat.
Proof.
  unfold insert. intros Hc H.
  destruct (is_Volume value) eqn:Hv; simpl in H.
  - destruct (volume self) eqn:Hvol; [discriminate |].
    injection H as <-. simpl. unfold count_Volume in *.
    rewrite count_insert, Hv.
    apply volume_None_count in Hvol. unfold count_Volume in Hvol.
    rewrite Hvol. simpl. lia.
  - injection H as <-. simpl. unfold count_Volume in *.
    rewrite count_insert, Hv. simpl. lia.
Qed.

Lemma setitem_keeps_one (self self' : t) (index : Z) (value : element) :
  (count_Volume (_maps self) <= 1)%nat ->
  __setitem__ self index value = Ok self' ->
  (count_Volume (_maps self') <= 1)%nat.
Proof.
  unfold __setitem__. intros Hc H.
  inv_bind H as clash Hclash. destruct clash; [discriminate |].
  inv_bind H as l Hl. injection H as <-. simpl.
  unfold list_setitem in Hl.
  destruct (norm_index (_maps self) index) as [n |] eqn:Hn; [| discriminate].
  injection Hl as <-.
  pose proof (norm_index_lt _ _ _ Hn) as Hlt.
  destruct (nth_error (_maps self) n) as [old |] eqn:Hold;
    [| apply nth_error_None in Hold; lia].
  pose proof (count_replace_nth is_Volume _ _ value _ Hold) as Hcount.
  unfold count_Volume in *.
  destruct (is_Volume value) eqn:Hv.
  - destruct (volume self) eqn:Hvol.
    + inv_bind Hclash as old' Hget. injection Hclash as Hclash.
      unfold list_getitem in Hget. rewrite Hn, Hold in Hget.
      injection Hget as <-.
      apply negb_false_iff in Hclash. rewrite Hclash in Hcount.
      simpl in Hcount. lia.
    + apply volume_None_count in Hvol. unfold count_Volume in Hvol.
      rewrite Hvol in Hcount. simpl in Hcount.
      destruct (is_Volume old); simpl in Hcount; lia.
  - simpl in Hcount. destruct (is_Volume old); simpl in Hcount; lia.
Qed.

Lemma delitem_keeps_one (self self' : t) (index : Z) :
  (count_Volume (_maps self) <= 1)%nat ->
  __delitem__ self index = Ok self' ->
  (count_Volume (_maps self') <= 1)%nat.
Proof.
  unfold __delitem__, list_delitem. intros Hc H.
  destruct (norm_index (_maps self) index) as [n |]; [| discriminate].
  simpl in H. injection H as <-. simpl.
  pose proof (count_remove_nth is_Volume (_maps self) n).
  unfold count_Volume in *. lia.
Qed.

Lemma setslice_keeps_one (maps objects : list element) (start stop : option Z) :
  (count_Volume maps <= 1)%nat -> count_Volume objects = 0%nat ->
  (count_Volume (list_setslice maps start stop objects) <= 1)%nat.
Proof.
  unfold count_Volume, list_setslice. cbv zeta. intros Hc Ho.
  rewrite !count_app, Ho.
  set (lo := slice_bound (len maps) start 0).
  set (hi := Z.max lo (slice_bound (len maps) stop (len maps))).
  pose proof (count_firstn_skipn is_Volume maps (Z.to_nat lo) (Z.to_nat hi)
                ltac:(lia)).
  lia.
Qed.

Lemma reachable_one_Volume (self : t) :
  reachable self -> (count_Volume (_maps self) <= 1)%nat.
Proof.
  induction 1 as [a b c d e f g maps self Hinit
                 | self index value self' _ IH Hop
                 | self index value self' _ IH Hop
                 | self index self' _ IH Hop
                 | self value self' _ IH Hop
                 | self self' _ IH Hop
                 | self start stop self' _ IH Hop
                 | self start stop value objects self' _ IH Hit Hnone Hop];
    [ | | | | | | injection Hop as <-; now apply setslice_keeps_one
      | unfold setitem_slice in Hop;
        destruct (match value with Object _ => _ | Objects _ => _ end);
        [discriminate |];
        rewrite Hit in Hop; injection Hop as <-; now apply setslice_keeps_one ].
  - unfold __init__ in Hinit.
    eapply (fold_result_inv (fun s => (count_Volume (_maps s) <= 1)%nat));
      [| | exact Hinit].
    + intros s x s' Hs Happ. eapply insert_keeps_one; eauto.
    + simpl. unfold count_Volume. simpl. lia.
  - eapply insert_keeps_one; eauto.
  - eapply setitem_keeps_one; eauto.
  - eapply delitem_keeps_one; eauto.
  - unfold set_volume in Hop.
    destruct (negb (is_Volume value)); [discriminate |].
    destruct (first_Volume (_maps self) 0).
    + eapply setitem_keeps_one; eauto.
    + eapply insert_keeps_one; eauto.
  - unfold del_volume in Hop.
    destruct (first_Volume (_maps self) 0); [| discriminate].
    eapply delitem_keeps_one; eauto.
Qed.

Lemma insert_second_Volume (self : t) (index : Z) (v : Cifti2Volume.t) :
  volume self <> None ->
  insert self index (Volume v) = Raise only_one_Volume.
Proof.
  unfold insert. intros Hvol. simpl.
  destruct (volume self); [reflexivity | contradiction].
Qed.

Lemma setitem_second_Volume (self : t) (index : Z) (v : Cifti2Volume.t)
    (old : element) :
  volume self <> None ->
  __getitem__ self index = Ok old ->
  is_Volume old = false ->
  __setitem__ self index (Volume v) = Raise only_one_Volume.
Proof.
  unfold __setitem__, __getitem__. intros Hvol Hget Hold. simpl.
  destruct (volume self); [| contradiction].
  rewrite Hget. simpl. rewrite Hold. reflexivity.
Qed.

Lemma setitem_over_Volume (self : t) (index : Z) (v old : Cifti2Volume.t) :
  __getitem__ self index = Ok (Volume old) ->
  exists self',
    __setitem__ self index (Volume v) = Ok self' /\
    __getitem__ self' index = Ok (Volume v) /\
    len (_maps self') = len (_maps self).
Proof.
  unfold __setitem__, __getitem__. intros Hget.
  destruct (list_getitem_nth _ _ _ Hget) as (n & Hn & Hnth).
  assert (Hvol : volume self <> None).
  { unfold volume. intros Hnone.
    assert (Hf : is_Volume (Volume old) = false)
      by (apply (find_none _ _ Hnone); eapply nth_error_In; eauto).
    discriminate Hf. }
  simpl. destruct (volume self); [| contradiction].
  rewrite Hget. simpl. unfold list_setitem. rewrite Hn. simpl.
  eexists. split; [reflexivity |]. simpl.
  pose proof (norm_index_lt _ _ _ Hn) as Hlt.
  split.
  - unfold list_getitem, norm_index in *.
    rewrite length_replace_nth, Hn.
    now rewrite nth_error_replace_nth.
  - unfold len. now rewrite length_replace_nth.
Qed.

End one_volume.

Lemma count_setslice (maps values : list Cifti2MatrixIndicesMap.element)
    (start stop : option Z) :
  (MatrixIndicesMapSpec.count_Volume values
   <= MatrixIndicesMapSpec.count_Volume (list_setslice maps start stop values))%nat.
Proof.
  unfold MatrixIndicesMapSpec.count_Volume, list_setslice.
  cbv zeta. rewrite !count_app. lia.
Qed.

(** C1: the guard of [__setitem__] asks whether the assigned value is a
    Volume, which a list is not, so an assignment of a list to a slice
    always succeeds and stores the list as it is, with every Volume it holds
    (a single Volume assigned to a slice is never stored).  On the map the
    constructor builds from no maps, [m[0:0] = [v1, v2]] leaves the two
    Volumes [v1] and [v2] in the sequence, while [insert] refuses [v2] once
    [v1] is there with CIFTI2HeaderError, and [m[0] = v2] then puts [v2] in
    the place of [v1]. *)
Theorem MatrixIndicesMap_slice_assignment_two_Volumes
    (a : option (list value)) (b c d e f g : value) (v1 v2 : Cifti2Volume.t) :
  (forall self start stop values,
      exists self',
        Cifti2MatrixIndicesMap.setitem_slice self start stop
          (Cifti2MatrixIndicesMap.Objects values) = Ok self' /\
        (MatrixIndicesMapSpec.count_Volume values
         <= MatrixIndicesMapSpec.count_Volume (Cifti2MatrixIndicesMap._maps self'))%nat) /\
  (forall self start stop v,
      is_ok (Cifti2MatrixIndicesMap.setitem_slice self start stop
               (Cifti2MatrixIndicesMap.Object (Cifti2MatrixIndicesMap.Volume v)))
      = false) /\
  exists m m' m1,
    Cifti2MatrixIndicesMap.__init__ a b c d e f g [] = Ok m /\
    Cifti2MatrixIndicesMap.setitem_slice m (Some 0) (Some 0)
      (Cifti2MatrixIndicesMap.Objects
         [Cifti2MatrixIndicesMap.Volume v1; Cifti2MatrixIndicesMap.Volume v2])
    = Ok m' /\
    Cifti2MatrixIndicesMap._maps m'
    = [Cifti2MatrixIndicesMap.Volume v1; Cifti2MatrixIndicesMap.Volume v2] /\
    MatrixIndicesMapSpec.count_Volume (Cifti2MatrixIndicesMap._maps m') = 2%nat /\
    Cifti2MatrixIndicesMap.insert m 0 (Cifti2MatrixIndicesMap.Volume v1) = Ok m1 /\
    (forall index,
        Cifti2MatrixIndicesMap.insert m1 index (Cifti2MatrixIndicesMap.Volume v2)
        = Raise MatrixIndicesMapSpec.only_one_Volume) /\
    Cifti2MatrixIndicesMap.__setitem__ m1 0 (Cifti2MatrixIndicesMap.Volume v2)
    = Ok (Cifti2MatrixIndicesMap.with_maps m [Cifti2MatrixIndicesMap.Volume v2]).
Proof.
  split; [| split].
  - intros self start stop values. eexists. split; [reflexivity |].
    apply count_setslice.
  - intros self start stop v. unfold Cifti2MatrixIndicesMap.setitem_slice.
    cbn [Cifti2MatrixIndicesMap.is_Volume andb].
    now destruct (Cifti2MatrixIndicesMap.volume self).
  - do 3 eexists. split; [reflexivity |]. split; [reflexivity |].
    split; [reflexivity |]. split; [reflexivity |]. split; [reflexivity |].
    split; [intros index |]; reflexivity.
Qed.

(** X28: a Cifti2MatrixIndicesMap reached without assigning a Volume
    through a slice holds at most one Cifti2Volume; inserting a Volume when
    one is present fails with CIFTI2HeaderError, and so does overwriting a
    position that holds no Volume with a Volume while a Volume is present;
    overwriting the position that holds the Volume with a new Volume
    succeeds. *)
Theorem MatrixIndicesMap_at_most_one_Volume
    (self : Cifti2MatrixIndicesMap.t)
    (H : MatrixIndicesMapSpec.reachable self) :
  (MatrixIndicesMapSpec.count_Volume (Cifti2MatrixIndicesMap._maps self) <= 1)%nat /\
  (forall index v,
      Cifti2MatrixIndicesMap.volume self <> None ->
      Cifti2MatrixIndicesMap.insert self index (Cifti2MatrixIndicesMap.Volume v)
      = Raise MatrixIndicesMapSpec.only_one_Volume) /\
  (forall index v old,
      Cifti2MatrixIndicesMap.volume self <> None ->
      Cifti2MatrixIndicesMap.__getitem__ self index = Ok old ->
      Cifti2MatrixIndicesMap.is_Volume old = false ->
      Cifti2MatrixIndicesMap.__setitem__ self index (Cifti2MatrixIndicesMap.Volume v)
      = Raise MatrixIndicesMapSpec.only_one_Volume) /\
  (forall index v old,
      Cifti2MatrixIndicesMap.__getitem__ self index
      = Ok (Cifti2MatrixIndicesMap.Volume old) ->
      exists self',
        Cifti2MatrixIndicesMap.__setitem__ self index (Cifti2MatrixIndicesMap.Volume v)
        = Ok self' /\
        Cifti2MatrixIndicesMap.__getitem__ self' index
        = Ok (Cifti2MatrixIndicesMap.Volume v) /\
        (MatrixIndicesMapSpec.count_Volume (Cifti2MatrixIndicesMap._maps self') <= 1)%nat).
Proof.
  repeat split.
  - now apply reachable_one_Volume.
  - intros. now apply insert_second_Volume.
  - intros. eapply setitem_second_Volume; eauto.
  - intros index v old Hget.
    destruct (setitem_over_Volume self index v old Hget) as (self' & Hset & Hget' & _).
    exists self'. repeat split; auto.
    eapply setitem_keeps_one; [| exact Hset].
    now apply reachable_one_Volume.
Qed.

Lemma MatrixIndicesMap_at_most_one_Volume_witness :
  MatrixIndicesMapSpec.reachable MatrixIndicesMapSpec.sample_map /\
  (MatrixIndicesMapSpec.count_Volume
     (Cifti2MatrixIndicesMap._maps MatrixIndicesMapSpec.sample_map) <= 1)%nat /\
  Cifti2MatrixIndicesMap.insert MatrixIndicesMapSpec.sample_map 0
    (Cifti2MatrixIndicesMap.Volume MatrixIndicesMapSpec.sample_Volume)
  = Raise MatrixIndicesMapSpec.only_one_Volume /\
  Cifti2MatrixIndicesMap.__setitem__ MatrixIndicesMapSpec.sample_map 0
    (Cifti2MatrixIndicesMap.Volume MatrixIndicesMapSpec.sample_Volume)
  = Raise MatrixIndicesMapSpec.only_one_Volume /\
  is_ok (Cifti2MatrixIndicesMap.__setitem__ MatrixIndicesMapSpec.sample_map 1
           (Cifti2MatrixIndicesMap.Volume MatrixIndicesMapSpec.sample_Volume))
  = true.
Proof.
  assert (Hr : MatrixIndicesMapSpec.reachable MatrixIndicesMapSpec.sample_map).
  { apply (MatrixIndicesMapSpec.reach_init
             (Some [VInt 0]) (VStr "CIFTI_INDEX_TYPE_SCALARS")
             VNone VNone VNone VNone VNone
             [Cifti2MatrixIndicesMap.Surface MatrixIndicesMapSpec.sample_Surface;
              Cifti2MatrixIndicesMap.Volume MatrixIndicesMapSpec.sample_Volume]).
    reflexivity. }
  destruct (MatrixIndicesMap_at_most_one_Volume _ Hr) as (Hc & Hins & Hset & Hover).
  split; [exact Hr |]. split; [exact Hc |].
  split; [apply Hins; discriminate |].
  split; [eapply Hset; [discriminate | reflexivity | reflexivity] |].
  reflexivity.
Defined.

(** ** Cifti2Header *)

(** C2: the constructor does not keep the Matrix it is given: whatever
    [matrix] is, the header's matrix is a new empty Cifti2Matrix (the version
    does default to "2.0"). *)
Theorem Header_init_ignores_matrix :
  (forall matrix version,
      Cifti2Header.matrix (Cifti2Header.__init__ matrix version)
      = Cifti2Matrix.__init__) /\
  Cifti2Header.matrix (Cifti2Header.__init__ (Some sample_Matrix) None)
  <> sample_Matrix /\
  (forall matrix,
      Cifti2Header.version (Cifti2Header.__init__ matrix None) = VStr "2.0").
Proof.
  split; [| split].
  - intros [m |] version; reflexivity.
  - discriminate.
  - reflexivity.
Qed.

(** ** Cifti2Volume *)

(** C4: a Volume without dimensions fails with CIFTI2HeaderError, but a
    Volume with dimensions and no transform fails with AttributeError: the
    method calls [_to_xml_element] on [None].  A transform that is there and
    holds no matrix fails with CIFTI2HeaderError. *)
Theorem Volume_null_transform_AttributeError :
  (forall B transform,
      Cifti2Volume._to_xml_element B (Cifti2Volume.__init__ None transform)
      = Raise (CIFTI2HeaderError "Volume element requires dimensions")) /\
  (forall B dims,
      Cifti2Volume._to_xml_element B (Cifti2Volume.__init__ (Some dims) None)
      = Raise (AttributeError
                 "'NoneType' object has no attribute '_to_xml_element'")) /\
  (forall B,
      Cifti2Volume._to_xml_element B Volume_without_transform
      = Raise (AttributeError
                 "'NoneType' object has no attribute '_to_xml_element'")) /\
  (forall B dims meter_exponent,
      Cifti2Volume._to_xml_element B
        (Cifti2Volume.__init__ (Some dims)
           (Some {| Cifti2TransformationMatrixVoxelIndicesIJKtoXYZ.meter_exponent :=
                      meter_exponent;
                    Cifti2TransformationMatrixVoxelIndicesIJKtoXYZ.matrix := None |}))
      = Raise (CIFTI2HeaderError
                 "TransformationMatrixVoxelIndicesIJKtoXYZ element requires a matrix")).
Proof. repeat split. Qed.

(** ** Attributes of an element *)

Lemma odict_get_set {V : Type} (d : list (string * V)) (k k' : string) (v : V) :
  odict_get String.eqb (odict_set String.eqb d k v) k'
  = if (k =? k')%string then Some v else odict_get String.eqb d k'.
Proof.
  induction d as [| [k0 v0] d IH]; simpl.
  - reflexivity.
  - destruct (k0 =? k)%string eqn:H0; simpl.
    + apply String.eqb_eq in H0. subst k0.
      destruct (k =? k')%string; reflexivity.
    + rewrite IH. destruct (k0 =? k')%string eqn:H1; [| reflexivity].
      apply String.eqb_eq in H1. subst k0. now rewrite String.eqb_sym, H0.
Qed.

Lemma get_attrib_set_attrib (e : Element) (k k' v : string) :
  get_attrib (set_attrib e k v) k'
  = if (k =? k')%string then Some v else get_attrib e k'.
Proof. unfold get_attrib, set_attrib. simpl. apply odict_get_set. Qed.

Lemma get_attrib_append_child (e c : Element) (k : string) :
  get_attrib (append_child e c) k = get_attrib e k.
Proof. reflexivity. Qed.

(** ** Cifti2Surface and Cifti2BrainModel *)

Section brain_model_attributes.
Import Cifti2BrainModel.
Context (B : text_builtins) (self : t).

Lemma get_attrib_put (key k' : string) (value : value) (e : Element) :
  get_attrib (put_attribute B key value e) k'
  = if (key =? k')%string
    then match value with
         | VNone => get_attrib e k'
         | _ => Some (str B value)
         end
    else get_attrib e k'.
Proof.
  destruct value; simpl; rewrite ?get_attrib_set_attrib;
    destruct (key =? k')%string; reflexivity.
Qed.

Lemma set_attributes_eq (e : Element) :
  set_attributes B self
    ["IndexOffset"; "IndexCount"; "ModelType"; "BrainStructure";
     "SurfaceNumberOfVertices"] e
  = Ok (put_attribute B "SurfaceNumberOfVertices" (surface_number_of_vertices self)
          (put_attribute B "BrainStructure" (brain_structure self)
             (put_attribute B "ModelType" (model_type self)
                (put_attribute B "IndexCount" (index_count self)
                   (put_attribute B "IndexOffset" (index_offset self) e))))).
Proof.
  unfold set_attributes.
  cbn [fold_result].
  replace (_underscore "IndexOffset") with "index_offset" by reflexivity.
  replace (_underscore "IndexCount") with "index_count" by reflexivity.
  replace (_underscore "ModelType") with "model_type" by reflexivity.
  replace (_underscore "BrainStructure") with "brain_structure" by reflexivity.
  replace (_underscore "SurfaceNumberOfVertices")
    with "surface_number_of_vertices" by reflexivity.
  unfold getattr. cbn [String.eqb Ascii.eqb Bool.eqb bind].
  destruct (index_offset self), (index_count self), (model_type self),
    (brain_structure self), (surface_number_of_vertices self); reflexivity.
Qed.

(** [Cifti2BrainModel._to_xml_element] raises nothing, and its attributes
    are those the loop has set. *)
Lemma BrainModel_to_xml_element_attrib :
  exists e,
    _to_xml_element B self = Ok e /\
    forall k,
      get_attrib e k
      = get_attrib
          (put_attribute B "SurfaceNumberOfVertices" (surface_number_of_vertices self)
             (put_attribute B "BrainStructure" (brain_structure self)
                (put_attribute B "ModelType" (model_type self)
                   (put_attribute B "IndexCount" (index_count self)
                      (put_attribute B "IndexOffset" (index_offset self)
                         (new_Element "BrainModel")))))) k.
Proof.
  unfold _to_xml_element. rewrite set_attributes_eq. cbn [bind].
  set (e0 := put_attribute _ _ _ _).
  assert (H1 : exists e1,
             match _voxel_indices_ijk self with
             | Some ijk =>
                 if Cifti2VoxelIndicesIJK.__len__ ijk =? 0 then Ok e0
                 else c <- Cifti2VoxelIndicesIJK._to_xml_element ijk ;;
                      Ok (append_child e0 c)
             | None => Ok e0
             end = Ok e1 /\ forall k, get_attrib e1 k = get_attrib e0 k).
  { destruct (_voxel_indices_ijk self) as [ijk |]; [| eauto].
    unfold Cifti2VoxelIndicesIJK._to_xml_element.
    destruct (Cifti2VoxelIndicesIJK.__len__ ijk =? 0); [eauto |].
    cbn [bind]. eexists. split; [reflexivity | reflexivity]. }
  destruct H1 as (e1 & -> & He1). cbn [bind].
  destruct (_vertex_indices self) as [vi |]; [| eauto].
  unfold Cifti2VertexIndices._to_xml_element.
  destruct (Cifti2VertexIndices.__len__ vi =? 0); [eauto |].
  cbn [bind]. eexists. split; [reflexivity |]. intros k.
  rewrite get_attrib_append_child. apply He1.
Qed.

End brain_model_attributes.

(** C10: Cifti2Surface serialization rejects only a null brain_structure,
    and otherwise always carries SurfaceNumberOfVertices, the string of the
    attribute's value, which is "None" when it is unset; Cifti2BrainModel
    serialization leaves an unset SurfaceNumberOfVertices out. *)
Theorem Surface_always_emits_number_of_vertices (B : text_builtins) :
  (forall s,
      Cifti2Surface.brain_structure s = VNone ->
      Cifti2Surface._to_xml_element B s
      = Raise (CIFTI2HeaderError
                 "Surface element requires at least 1 BrainStructure")) /\
  (forall s,
      Cifti2Surface.brain_structure s <> VNone ->
      exists e,
        Cifti2Surface._to_xml_element B s = Ok e /\
        get_attrib e "SurfaceNumberOfVertices"
        = Some (str B (Cifti2Surface.surface_number_of_vertices s)) /\
        (Cifti2Surface.surface_number_of_vertices s = VNone ->
         get_attrib e "SurfaceNumberOfVertices" = Some "None")) /\
  (forall b,
      exists e,
        Cifti2BrainModel._to_xml_element B b = Ok e /\
        (Cifti2BrainModel.surface_number_of_vertices b = VNone ->
         get_attrib e "SurfaceNumberOfVertices" = None) /\
        (Cifti2BrainModel.surface_number_of_vertices b <> VNone ->
         get_attrib e "SurfaceNumberOfVertices"
         = Some (str B (Cifti2BrainModel.surface_number_of_vertices b)))).
Proof.
  split; [| split].
  - intros s Hs. unfold Cifti2Surface._to_xml_element. now rewrite Hs.
  - intros s Hs. unfold Cifti2Surface._to_xml_element.
    destruct (Cifti2Surface.brain_structure s) eqn:Hb; [contradiction | | |];
      (eexists; split; [reflexivity |]; split;
       [reflexivity | intros ->; reflexivity]).
  - intros b.
    destruct (BrainModel_to_xml_element_attrib B b) as (e & He & Hattr).
    exists e. split; [exact He |].
    rewrite Hattr, get_attrib_put. cbn [String.eqb Ascii.eqb Bool.eqb].
    split.
    + intros ->. rewrite !get_attrib_put. reflexivity.
    + intros Hn.
      destruct (Cifti2BrainModel.surface_number_of_vertices b);
        [contradiction | reflexivity ..].
Qed.

Lemma Surface_always_emits_number_of_vertices_witness :
  exists e,
    Cifti2Surface._to_xml_element sample_builtins Surface_without_vertices = Ok e /\
    get_attrib e "SurfaceNumberOfVertices" = Some "None".
Proof.
  destruct (Surface_always_emits_number_of_vertices sample_builtins)
    as (_ & Hsurf & _).
  destruct (Hsurf Surface_without_vertices) as (e & He & _ & Hnone);
    [discriminate |].
  exists e. split; [exact He | apply Hnone; reflexivity].
Defined.

(** ** Cifti2MetaData *)

Section metadata.
Import MetaDataSpec.
#[local] Open Scope string_scope.
Context {V : Type}.
Implicit Types (d : list (string * V)) (k : string) (ks : list string).

Lemma mem_In k ks : mem k ks = true <-> In k ks.
Proof.
  unfold mem. rewrite existsb_exists. split.
  - intros (x & Hx & He). apply String.eqb_eq in He. now subst.
  - intros H. exists k. split; [exact H | apply String.eqb_refl].
Qed.

Lemma mem_ext k ks ks' :
  (forall x, In x ks <-> In x ks') -> mem k ks = mem k ks'.
Proof.
  intros H. apply eq_true_iff_eq. rewrite !mem_In. apply H.
Qed.

Lemma keys_odict_set d k (v : V) x :
  In x (keys (odict_set String.eqb d k v)) <-> x = k \/ In x (keys d).
Proof.
  induction d as [| [k0 v0] d IH]; simpl.
  - intuition.
  - destruct (k0 =? k) eqn:H0; simpl.
    + apply String.eqb_eq in H0. subst. intuition.
    + rewrite IH. intuition.
Qed.

Lemma NoDup_odict_set d k (v : V) :
  NoDup (keys d) -> NoDup (keys (odict_set String.eqb d k v)).
Proof.
  induction d as [| [k0 v0] d IH]; simpl; intros H.
  - constructor; [intros [] | constructor].
  - inversion_clear H as [| ? ? Hn Hd].
    destruct (k0 =? k) eqn:H0; simpl.
    + now constructor.
    + constructor; [| auto].
      intros Hin. apply keys_odict_set in Hin as [-> | Hin]; [| auto].
      now rewrite String.eqb_refl in H0.
Qed.

Lemma fold_odict_set (pairs : list (string * V)) d :
  NoDup (keys d) ->
  let d' := fold_left (fun d kv => odict_set String.eqb d (fst kv) (snd kv))
                      pairs d in
  NoDup (keys d') /\
  forall x, In x (keys d') <-> In x (keys pairs) \/ In x (keys d).
Proof.
  revert d. induction pairs as [| [k v] pairs IH]; simpl; intros d Hd.
  - split; [exact Hd | intuition].
  - destruct (IH (odict_set String.eqb d k v) (NoDup_odict_set _ _ _ Hd))
      as [Hn Hin].
    split; [exact Hn |]. intros x. rewrite Hin, keys_odict_set. intuition.
Qed.

Lemma odict_of_pairs_keys (pairs : list (string * V)) :
  NoDup (keys (odict_of_pairs String.eqb pairs)) /\
  forall x, In x (keys (odict_of_pairs String.eqb pairs)) <-> In x (keys pairs).
Proof.
  destruct (fold_odict_set pairs [] (NoDup_nil _)) as [Hn Hin].
  split; [exact Hn |]. intros x. unfold odict_of_pairs. rewrite Hin.
  simpl. intuition.
Qed.

Lemma odict_del_absent d k :
  ~ In k (keys d) -> odict_del String.eqb d k = None.
Proof.
  induction d as [| [k0 v0] d IH]; simpl; intros H; [reflexivity |].
  destruct (k0 =? k) eqn:H0.
  - apply String.eqb_eq in H0. tauto.
  - rewrite IH; [reflexivity | tauto].
Qed.

Lemma without_step d k0 (v0 : V) ks :
  without ((k0, v0) :: d) ks
  = if mem k0 ks then without d ks else (k0, v0) :: without d ks.
Proof. unfold without. simpl. destruct (mem k0 ks); reflexivity. Qed.

Lemma mem_one k0 k : mem k0 [k] = (k0 =? k).
Proof. unfold mem. simpl. apply orb_false_r. Qed.

Lemma mem_cons k0 k ks : mem k0 (k :: ks) = (k0 =? k) || mem k0 ks.
Proof. reflexivity. Qed.

Lemma without_absent d k :
  ~ In k (keys d) -> without d [k] = d.
Proof.
  induction d as [| [k0 v0] d IH]; intros H; [reflexivity |].
  rewrite without_step, mem_one. simpl in H.
  destruct (k0 =? k) eqn:H0.
  - apply String.eqb_eq in H0. tauto.
  - rewrite IH; [reflexivity | tauto].
Qed.

Lemma odict_del_present d k :
  NoDup (keys d) -> In k (keys d) ->
  odict_del String.eqb d k = Some (without d [k]).
Proof.
  induction d as [| [k0 v0] d IH]; intros Hn H; [contradiction |].
  simpl in Hn, H. inversion_clear Hn as [| ? ? Hk0 Hd].
  rewrite without_step, mem_one. cbn [odict_del].
  destruct (k0 =? k) eqn:H0; simpl.
  - apply String.eqb_eq in H0. subst k0.
    now rewrite (without_absent d k Hk0).
  - destruct H as [-> | H]; [now rewrite String.eqb_refl in H0 |].
    now rewrite (IH Hd H).
Qed.

Lemma keys_without d ks x :
  In x (keys (without d ks)) <-> In x (keys d) /\ ~ In x ks.
Proof.
  unfold without, keys. rewrite !in_map_iff. split.
  - intros ([k v] & <- & Hin). apply filter_In in Hin as [Hin Hm].
    simpl in *. split; [exists (k, v); auto |].
    intros Hx. apply mem_In in Hx. now rewrite Hx in Hm.
  - intros (([k v] & <- & Hin) & Hn). exists (k, v). split; [reflexivity |].
    apply filter_In. split; [exact Hin |]. simpl in *.
    destruct (mem k ks) eqn:Hm; [| reflexivity].
    apply mem_In in Hm. contradiction.
Qed.

Lemma NoDup_without d ks : NoDup (keys d) -> NoDup (keys (without d ks)).
Proof.
  induction d as [| [k0 v0] d IH]; intros H; [constructor |].
  simpl in H. inversion_clear H as [| ? ? Hk0 Hd].
  rewrite without_step. destruct (mem k0 ks); simpl; [auto |].
  constructor; [| auto].
  intros Hin. apply (keys_without d ks k0) in Hin. tauto.
Qed.

Lemma without_cons d k ks : without (without d [k]) ks = without d (k :: ks).
Proof.
  induction d as [| [k0 v0] d IH]; [reflexivity |].
  rewrite (without_step d k0 v0 (k :: ks)), (without_step d k0 v0 [k]).
  rewrite mem_one, mem_cons.
  destruct (k0 =? k); cbn [orb]; [exact IH |].
  rewrite without_step. now rewrite IH.
Qed.

Lemma without_ext d ks ks' :
  (forall x, In x ks <-> In x ks') -> without d ks = without d ks'.
Proof.
  intros H. unfold without. apply filter_ext. intros [k v]. simpl.
  now rewrite (mem_ext k ks ks' H).
Qed.

End metadata.

Lemma MetaData_init_wf (metadata : option (list (string * string))) :
  MetaDataSpec.wf (Cifti2MetaData.__init__ metadata).
Proof.
  destruct metadata as [md |]; unfold MetaDataSpec.wf; simpl.
  - apply (fold_odict_set md [] (NoDup_nil _)).
  - constructor.
Qed.

Section delete_keys.
Import MetaDataSpec Cifti2MetaData.
#[local] Open Scope string_scope.

Lemma delete_keys_all_present (ks : list string) :
  forall d,
    NoDup ks -> NoDup (keys d) ->
    (forall k, In k ks -> In k (keys d)) ->
    delete_keys d ks = (Ok tt, without d ks).
Proof.
  induction ks as [| k ks IH]; simpl; intros d Hks Hd Hsub.
  - unfold without. simpl. f_equal. symmetry. apply forallb_filter_id.
    now apply forallb_forall.
  - inversion_clear Hks as [| ? ? Hk Hks'].
    rewrite (odict_del_present d k Hd) by auto.
    rewrite IH; [now rewrite without_cons | exact Hks' | now apply NoDup_without |].
    intros k' Hk'. apply keys_without. split; [auto |].
    simpl. intros [-> | []]. contradiction.
Qed.

Lemma delete_keys_some_absent (ks : list string) :
  forall d,
    NoDup ks -> NoDup (keys d) ->
    (exists k, In k ks /\ ~ In k (keys d)) ->
    exists k d',
      delete_keys d ks = (Raise (KeyError (VStr k)), d') /\
      In k ks /\ ~ In k (keys d).
Proof.
  induction ks as [| k ks IH]; simpl; intros d Hks Hd (k0 & Hk0 & Habs).
  - contradiction.
  - inversion_clear Hks as [| ? ? Hk Hks'].
    destruct (in_dec string_dec k (keys d)) as [Hin | Hout].
    + rewrite (odict_del_present d k Hd Hin).
      destruct Hk0 as [-> | Hk0]; [contradiction |].
      destruct (IH (without d [k]) Hks' (NoDup_without d [k] Hd))
        as (k1 & d' & Hdel & Hk1 & Hk1abs).
      { exists k0. split; [exact Hk0 |]. rewrite keys_without. tauto. }
      exists k1, d'. split; [exact Hdel |]. split; [now right |].
      intros Hk1in. apply Hk1abs. apply keys_without. split; [exact Hk1in |].
      simpl. intros [-> | []]. contradiction.
    + rewrite (odict_del_absent d k Hout).
      exists k, d. auto.
Qed.

End delete_keys.

(** C6: [difference_update(None)] raises ValueError and leaves the MetaData
    as it was; when every key of [other] is in the MetaData the call removes
    exactly those keys; when some key of [other] is absent it raises KeyError
    for such a key. *)
Theorem MetaData_difference_update
    (m : Cifti2MetaData.t) (Hwf : MetaDataSpec.wf m) :
  Cifti2MetaData.difference_update m None
  = (Raise (ValueError "The metadata parameter can't be None"), m) /\
  (forall other,
      (forall k, In k (MetaDataSpec.keys other) ->
                 In k (MetaDataSpec.keys (Cifti2MetaData.data m))) ->
      Cifti2MetaData.difference_update m (Some other)
      = (Ok tt,
         {| Cifti2MetaData.data :=
              MetaDataSpec.without (Cifti2MetaData.data m)
                                   (MetaDataSpec.keys other) |})) /\
  (forall other,
      (exists k, In k (MetaDataSpec.keys other) /\
                 ~ In k (MetaDataSpec.keys (Cifti2MetaData.data m))) ->
      exists k m',
        Cifti2MetaData.difference_update m (Some other)
        = (Raise (KeyError (VStr k)), m') /\
        In k (MetaDataSpec.keys other) /\
        ~ In k (MetaDataSpec.keys (Cifti2MetaData.data m))).
Proof.
  split; [reflexivity | split].
  - intros other Hsub. unfold Cifti2MetaData.difference_update.
    destruct (odict_of_pairs_keys other) as [Hn Hin].
    rewrite delete_keys_all_present; [| exact Hn | exact Hwf |].
    + f_equal. f_equal. apply without_ext. exact Hin.
    + intros k Hk. apply Hsub. now apply Hin.
  - intros other (k & Hk & Habs). unfold Cifti2MetaData.difference_update.
    destruct (odict_of_pairs_keys other) as [Hn Hin].
    destruct (delete_keys_some_absent
                (map fst (odict_of_pairs String.eqb other))
                (Cifti2MetaData.data m) Hn Hwf)
      as (k1 & d' & Hdel & Hk1 & Hk1abs).
    { exists k. split; [now apply Hin | exact Habs]. }
    rewrite Hdel. exists k1, {| Cifti2MetaData.data := d' |}.
    split; [reflexivity |]. split; [now apply Hin | exact Hk1abs].
Qed.

Lemma MetaData_difference_update_witness :
  Cifti2MetaData.difference_update MetaDataSpec.sample (Some [("b", "")])
  = (Ok tt, Cifti2MetaData.__init__ (Some [("a", "1")])) /\
  Cifti2MetaData.difference_update MetaDataSpec.sample None
  = (Raise (ValueError "The metadata parameter can't be None"),
     MetaDataSpec.sample).
Proof.
  assert (Hwf : MetaDataSpec.wf MetaDataSpec.sample).
  { unfold MetaDataSpec.wf. simpl.
    constructor; [simpl; intros [H | []]; discriminate |].
    constructor; [intros [] | constructor]. }
  destruct (MetaData_difference_update MetaDataSpec.sample Hwf)
    as (Hnone & Hall & _).
  split; [| exact Hnone].
  rewrite (Hall [("b", "")]); [reflexivity |].
  simpl. intros k [<- | []]. right. left. reflexivity.
Defined.

(** C9: [difference_update] is not atomic: called on {'a': '1', 'b': '2'} with
    the keys 'a' and 'z' it raises KeyError for 'z' after it has deleted 'a'. *)
Theorem MetaData_difference_update_not_atomic :
  exists (m m' : Cifti2MetaData.t) (other : list (string * string)) (k k' : string),
    MetaDataSpec.wf m /\
    In k (MetaDataSpec.keys other) /\
    In k (MetaDataSpec.keys (Cifti2MetaData.data m)) /\
    In k' (MetaDataSpec.keys other) /\
    ~ In k' (MetaDataSpec.keys (Cifti2MetaData.data m)) /\
    Cifti2MetaData.difference_update m (Some other)
    = (Raise (KeyError (VStr k')), m') /\
    ~ In k (MetaDataSpec.keys (Cifti2MetaData.data m')) /\
    m' <> m.
Proof.
  exists MetaDataSpec.sample, (Cifti2MetaData.__init__ (Some [("b", "2")])),
    [("a", ""); ("z", "")], "a", "z".
  repeat split.
  - unfold MetaDataSpec.wf. simpl.
    constructor; [simpl; intros [H | []]; discriminate |].
    constructor; [intros [] | constructor].
  - simpl. auto.
  - simpl. auto.
  - simpl. auto.
  - simpl. intros [H | [H | []]]; discriminate.
  - simpl. intros [H | []]; discriminate.
  - discriminate.
Qed.

(** ** Cifti2Label *)

Section label.
Import Cifti2Label LabelSpec.
Context (B : text_builtins).

Lemma except_ValueError_Ok {A : Type} (r : result A) (e : exn) (a : A) :
  r = Ok a -> except_ValueError r e = Ok a.
Proof. now intros ->. Qed.

Lemma except_ValueError_Raise {A : Type} (r : result A) (e : exn) (m : string) :
  r = Raise (ValueError m) -> except_ValueError r e = Raise e.
Proof. now intros ->. Qed.

Lemma passes_result {A : Type} (r : result A) :
  is_ok (_ <- r ;; Ok tt) = true -> exists a, r = Ok a.
Proof. destruct r as [a | e]; [eauto | discriminate]. Qed.

Lemma offending_result {A : Type} (r : result A) :
  match _ <- r ;; Ok tt with Raise (ValueError _) => true | _ => false end = true ->
  exists m, r = Raise (ValueError m).
Proof. destruct r as [a | [ | m | | | | | ]]; try discriminate. eauto. Qed.

Lemma failing_result {A : Type} (r : result A) (e0 : exn) :
  (_ <- r ;; Ok tt) = Raise e0 -> r = Raise e0.
Proof. destruct r as [a | e]; [discriminate | now intros H; injection H as ->]. Qed.

Lemma failing_label l e0 :
  field_check B l "label" = Raise e0 ->
  label l = VStr "" /\ e0 = ValueError "empty".
Proof.
  unfold field_check. cbn [String.eqb Ascii.eqb Bool.eqb].
  destruct (label l) as [| | | [| c s]]; try discriminate.
  intros H. injection H as <-. auto.
Qed.

Lemma passes_label l : passes B l "label" = true -> label l <> VStr "".
Proof.
  unfold passes, field_check. cbn [String.eqb Ascii.eqb Bool.eqb].
  intros H Hl. rewrite Hl in H. discriminate.
Qed.

Lemma offending_label l : offending B l "label" = true -> label l = VStr "".
Proof.
  unfold offending, field_check. cbn [String.eqb Ascii.eqb Bool.eqb].
  destruct (label l) as [| | | [| c s]]; try discriminate. reflexivity.
Qed.

(** Past the check of the name, the method is the chain of conversions. *)
Lemma to_xml_element_named l :
  label l <> VStr "" ->
  _to_xml_element B l
  = (v <- except_ValueError (int_ B (key l))
            (CIFTI2HeaderError "The key must be an integer") ;;
     r <- except_ValueError (_float_01 B (red l)) (invalid_color B "red" (VInt v)) ;;
     b <- except_ValueError (_float_01 B (blue l)) (invalid_color B "blue" (VFloat r)) ;;
     g <- except_ValueError (_float_01 B (green l)) (invalid_color B "green" (VFloat b)) ;;
     _ <- except_ValueError (_float_01 B (alpha l)) (invalid_color B "alpha" (VFloat g)) ;;
     Ok (set_attrib
           (set_attrib
              (set_attrib
                 (set_attrib
                    (set_text (set_attrib (new_Element "Label") "Key" (str B (key l)))
                       (str B (label l)))
                    "Red" (color_attr B (red l)))
                 "Green" (color_attr B (green l)))
              "Blue" (color_attr B (blue l)))
           "Alpha" (color_attr B (alpha l)))).
Proof.
  intros Hl. unfold _to_xml_element.
  assert (Hbody : forall X Y : result Element,
             match label l with
             | VStr "" => X
             | _ => Y
             end = Y).
  { intros X Y. destruct (label l) as [| | | [| c s]]; try reflexivity.
    now contradiction Hl. }
  rewrite Hbody.
  destruct (except_ValueError (int_ B (key l)) _) as [v | e]; [| reflexivity].
  cbn [bind check_colors getattr String.eqb Ascii.eqb Bool.eqb].
  destruct (except_ValueError (_float_01 B (red l)) _) as [r | e]; [| reflexivity].
  cbn [bind].
  destruct (except_ValueError (_float_01 B (blue l)) _) as [b | e]; [| reflexivity].
  cbn [bind].
  destruct (except_ValueError (_float_01 B (green l)) _) as [g | e]; [| reflexivity].
  cbn [bind].
  destruct (except_ValueError (_float_01 B (alpha l)) _) as [a | e]; [| reflexivity].
  reflexivity.
Qed.

End label.

Ltac names_no_other :=
  let g := fresh "g" in
  let Hg := fresh "Hg" in
  intros g Hg;
  repeat (destruct Hg as [<- | Hg]; [reflexivity |]);
  contradiction.

(** The next check of the chain fails: a [ValueError] becomes the
    CIFTI2HeaderError of the field, another exception is the result. *)
Ltac check_fails Horder Hf e0 :=
  let Hc := fresh "Hc" in
  let Ht := fresh "Ht" in
  injection Horder as <- <-;
  pose proof Hf as Hc;
  unfold LabelSpec.field_check in Hc;
  cbn [Cifti2Label.getattr String.eqb Ascii.eqb Bool.eqb] in Hc;
  apply failing_result in Hc;
  unfold LabelSpec.offending; rewrite Hf, Hc;
  destruct e0; cbn [except_ValueError bind];
  eexists; (split; [reflexivity |]);
  (split;
   [ intros Ht;
     first [ discriminate Ht
           | eexists; split; [reflexivity |]; split; [reflexivity | names_no_other] ]
   | intros Ht; first [discriminate Ht | reflexivity] ]).

(** The next check of the chain passes: go on to the one after it. *)
Ltac check_passes Horder Hbefore :=
  let x := fresh "x" in
  let Hp := fresh "Hp" in
  injection Horder as <- Horder;
  cbn [forallb] in Hbefore;
  apply andb_prop in Hbefore as [Hp Hbefore];
  apply passes_result in Hp as (x & Hp);
  cbn [Cifti2Label.getattr String.eqb Ascii.eqb Bool.eqb] in Hp;
  rewrite (except_ValueError_Ok _ _ _ Hp); cbn [bind].

(** C3, as the code has it: serialization stops at the first check that
    fails, in the order label, key, red, blue, green, alpha.  When that check
    fails as a validation failure (an empty name, a [ValueError] of [int] or
    [float], a colour outside [0,1]) the result is one CIFTI2HeaderError that
    names that field and none of the later ones; when [int] or [float] raise
    another exception there, that exception is the result. *)
Theorem Label_reports_first_offending_field
    (B : text_builtins) (l : Cifti2Label.t)
    (before after : list string) (f : string) (e0 : exn)
    (Horder : LabelSpec.check_order = (before ++ f :: after)%list)
    (Hbefore : forallb (LabelSpec.passes B l) before = true)
    (Hf : LabelSpec.field_check B l f = Raise e0) :
  exists e,
    Cifti2Label._to_xml_element B l = Raise e /\
    (LabelSpec.offending B l f = true ->
     exists msg,
       e = CIFTI2HeaderError msg /\
       LabelSpec.reports e f = true /\
       forall g, In g after -> LabelSpec.reports e g = false) /\
    (LabelSpec.offending B l f = false -> e = e0).
Proof.
  unfold LabelSpec.check_order in Horder.
  destruct before as [| b0 before].
  { injection Horder as <- <-.
    destruct (failing_label B l e0 Hf) as [Hl ->].
    unfold Cifti2Label._to_xml_element, LabelSpec.offending.
    rewrite Hf, Hl.
    eexists. split; [reflexivity |]. split.
    - intros _. eexists. split; [reflexivity |].
      split; [reflexivity | names_no_other].
    - discriminate. }
  injection Horder as <- Horder.
  cbn [forallb] in Hbefore. apply andb_prop in Hbefore as [Hl Hbefore].
  apply passes_label in Hl.
  rewrite (to_xml_element_named B l Hl).
  do 5 (destruct before as [| ? before];
        [check_fails Horder Hf e0 | check_passes Horder Hbefore]).
  destruct before; discriminate.
Qed.

Lemma Label_reports_first_offending_field_witness :
  exists msg,
    Cifti2Label._to_xml_element sample_builtins LabelSpec.blue_green
    = Raise (CIFTI2HeaderError msg) /\
    LabelSpec.reports (CIFTI2HeaderError msg) "blue" = true /\
    forall g, In g ["green"; "alpha"] ->
              LabelSpec.reports (CIFTI2HeaderError msg) g = false.
Proof.
  destruct (Label_reports_first_offending_field sample_builtins LabelSpec.blue_green
              ["label"; "key"; "red"] ["green"; "alpha"] "blue"
              (ValueError "Float must be between 0 and 1 inclusive")
              eq_refl eq_refl eq_refl)
    as (e & He & Hvalidation & _).
  destruct (Hvalidation eq_refl) as (msg & -> & Hblue & Hafter).
  exists msg. split; [exact He |]. split; [exact Hblue | exact Hafter].
Defined.

(** A key that is [None]: [int] raises TypeError, which is no validation
    failure of the method and reaches the caller as it is; the green out of
    range is not looked at. *)
Example Label_key_None_TypeError :
  Cifti2Label._to_xml_element sample_builtins LabelSpec.key_None
  = Raise (TypeError "int() argument must be a string or a number") /\
  LabelSpec.offending sample_builtins LabelSpec.key_None "key" = false /\
  LabelSpec.offending sample_builtins LabelSpec.key_None "green" = true.
Proof. repeat split. Qed.

(** C3, as stated, fails: a label without a name whose red and green are out
    of range has three offending fields, and the error names the label only. *)
Lemma Label_errors_are_not_collected :
  exists e,
    Cifti2Label._to_xml_element sample_builtins LabelSpec.nameless_red_green
    = Raise e /\
    LabelSpec.offending sample_builtins LabelSpec.nameless_red_green "label" = true /\
    LabelSpec.offending sample_builtins LabelSpec.nameless_red_green "red" = true /\
    LabelSpec.offending sample_builtins LabelSpec.nameless_red_green "green" = true /\
    LabelSpec.reports e "label" = true /\
    LabelSpec.reports e "red" = false /\
    LabelSpec.reports e "green" = false.
Proof.
  exists (CIFTI2HeaderError "Label needs a name"). repeat split.
Qed.

Section label_colors.
Import Cifti2Label LabelSpec.
Context (B : text_builtins).

Lemma rendered_color_attr (c : value) : rendered B c (color_attr B c).
Proof.
  unfold rendered, color_attr. repeat split.
  - now intros ->.
  - now intros -> ->.
  - now intros -> ->.
Qed.

Lemma to_xml_element_Ok_attrib l e :
  _to_xml_element B l = Ok e ->
  get_attrib e "Red" = Some (color_attr B (red l)) /\
  get_attrib e "Green" = Some (color_attr B (green l)) /\
  get_attrib e "Blue" = Some (color_attr B (blue l)) /\
  get_attrib e "Alpha" = Some (color_attr B (alpha l)).
Proof.
  intros H.
  assert (Hl : label l <> VStr "").
  { intros Hl. unfold _to_xml_element in H. rewrite Hl in H. discriminate. }
  rewrite (to_xml_element_named B l Hl) in H.
  inv_bind H as v Hv. inv_bind H as r Hr. inv_bind H as b Hb.
  inv_bind H as g Hg. inv_bind H as a Ha.
  injection H as <-.
  rewrite !get_attrib_set_attrib. cbn [String.eqb Ascii.eqb Bool.eqb].
  repeat split; reflexivity.
Qed.

End label_colors.

(** C8: in the element of a Label that serializes, each of Red, Green, Blue
    and Alpha reads "0" when the component equals 0, "1" when it equals 1, and
    the string of the component otherwise. *)
Theorem Label_color_attributes
    (B : text_builtins) (l : Cifti2Label.t) (e : Element)
    (H : Cifti2Label._to_xml_element B l = Ok e) :
  (exists s, get_attrib e "Red" = Some s /\
             LabelSpec.rendered B (Cifti2Label.red l) s) /\
  (exists s, get_attrib e "Green" = Some s /\
             LabelSpec.rendered B (Cifti2Label.green l) s) /\
  (exists s, get_attrib e "Blue" = Some s /\
             LabelSpec.rendered B (Cifti2Label.blue l) s) /\
  (exists s, get_attrib e "Alpha" = Some s /\
             LabelSpec.rendered B (Cifti2Label.alpha l) s).
Proof.
  destruct (to_xml_element_Ok_attrib B l e H) as (Hr & Hg & Hb & Ha).
  repeat split; eexists; (split; [eassumption | apply rendered_color_attr]).
Qed.

Lemma Label_color_attributes_witness :
  exists e,
    Cifti2Label._to_xml_element sample_builtins LabelSpec.grey = Ok e /\
    (exists s, get_attrib e "Red" = Some s /\
               LabelSpec.rendered sample_builtins (VFloat 0.5) s) /\
    (exists s, get_attrib e "Green" = Some s /\
               LabelSpec.rendered sample_builtins (VFloat 1) s) /\
    (exists s, get_attrib e "Blue" = Some s /\
               LabelSpec.rendered sample_builtins (VFloat 0) s) /\
    (exists s, get_attrib e "Alpha" = Some s /\
               LabelSpec.rendered sample_builtins (VInt 1) s).
Proof.
  eexists. split; [reflexivity |].
  apply (Label_color_attributes sample_builtins LabelSpec.grey). reflexivity.
Defined.

Example Label_grey_attributes :
  option_map attrib
    (match Cifti2Label._to_xml_element sample_builtins LabelSpec.grey with
     | Ok e => Some e
     | Raise _ => None
     end)
  = Some [("Key", "7"); ("Red", "0.5"); ("Green", "1"); ("Blue", "0");
          ("Alpha", "1")].
Proof. reflexivity. Qed.

(** ** Cifti2VoxelIndicesIJK *)

Lemma append_assoc (a b c : string) : (a ++ b) ++ c = a ++ (b ++ c).
Proof. induction a as [| x a IH]; simpl; [reflexivity | now rewrite IH]. Qed.

Lemma append_nil_r (a : string) : a ++ "" = a.
Proof. induction a as [| x a IH]; simpl; [reflexivity | now rewrite IH]. Qed.

Lemma join_as_fold (sep p : string) (rest : list string) :
  join sep (p :: rest)
  = p ++ fold_right String.append "" (map (fun r => sep ++ r) rest).
Proof.
  revert p. induction rest as [| q rest IH]; intros p.
  - simpl. now rewrite append_nil_r.
  - change (join sep (p :: q :: rest)) with (p ++ sep ++ join sep (q :: rest)).
    rewrite IH. simpl. now rewrite append_assoc.
Qed.

Lemma Forall_list_insert {A : Type} (P : A -> Prop) (l : list A) (i : Z) (x : A) :
  Forall P l -> P x -> Forall P (list_insert l i x).
Proof.
  intros Hl Hx. cbv beta zeta delta [list_insert].
  set (n := Z.to_nat _).
  rewrite <- (firstn_skipn n l) in Hl. apply Forall_app in Hl as [Hfirst Hrest].
  apply Forall_app. split; [exact Hfirst | now constructor].
Qed.

Lemma Forall_replace_nth {A : Type} (P : A -> Prop) (l : list A) (n : nat) (x : A) :
  Forall P l -> P x -> Forall P (replace_nth n x l).
Proof.
  intros Hl Hx. revert n.
  induction Hl as [| y l Hy Hl IH]; intros [| n]; simpl; auto.
Qed.

Lemma Forall_remove_nth {A : Type} (P : A -> Prop) (l : list A) (n : nat) :
  Forall P l -> Forall P (remove_nth n l).
Proof.
  intros Hl. revert n.
  induction Hl as [| y l Hy Hl IH]; intros [| n]; simpl; auto.
Qed.

Lemma Forall_list_getitem {A : Type} (P : A -> Prop) (l : list A) (i : Z) (x : A) :
  Forall P l -> list_getitem l i = Ok x -> P x.
Proof.
  intros Hl H. apply list_getitem_nth in H as (n & _ & Hn).
  rewrite Forall_forall in Hl. apply Hl. eapply nth_error_In; eauto.
Qed.

Lemma except_ValueError_inv {A : Type} (r : result A) (e : exn) (a : A) :
  except_ValueError r e = Ok a -> r = Ok a.
Proof. destruct r as [x | [ | | | | | | ]]; simpl; congruence. Qed.

Lemma count_char_append (c : ascii) (a b : string) :
  VoxelIndicesSpec.count_char c (a ++ b) = (VoxelIndicesSpec.count_char c a + VoxelIndicesSpec.count_char c b)%nat.
Proof. induction a as [| x a IH]; simpl; [reflexivity | rewrite IH; lia]. Qed.

Lemma count_char_cons (c x : ascii) (s : string) :
  VoxelIndicesSpec.separator c = true -> VoxelIndicesSpec.separator x = false -> VoxelIndicesSpec.count_char c s = 0%nat ->
  VoxelIndicesSpec.count_char c (String x s) = 0%nat.
Proof.
  intros Hc Hx Hs. cbn [VoxelIndicesSpec.count_char]. rewrite Hs.
  destruct (Ascii.eqb x c) eqn:He; [| reflexivity].
  apply Ascii.eqb_eq in He. subst x. congruence.
Qed.

Lemma count_char_uint (c : ascii) (d : Decimal.uint) :
  VoxelIndicesSpec.separator c = true -> VoxelIndicesSpec.count_char c (NilEmpty.string_of_uint d) = 0%nat.
Proof.
  intros Hc. induction d; cbn [NilEmpty.string_of_uint];
    [reflexivity | apply count_char_cons; auto ..].
Qed.

Lemma count_char_str_int (c : ascii) (z : Z) :
  VoxelIndicesSpec.separator c = true -> VoxelIndicesSpec.count_char c (str_int z) = 0%nat.
Proof.
  intros Hc.
  assert (Hu : forall d, VoxelIndicesSpec.count_char c (NilZero.string_of_uint d) = 0%nat).
  { intros d. unfold NilZero.string_of_uint.
    destruct d; try (now apply count_char_uint).
    apply count_char_cons; auto. }
  unfold str_int, NilZero.string_of_int.
  destruct (Z.to_int z) as [d | d]; [apply Hu |].
  apply count_char_cons; auto.
Qed.

Section voxel_indices.
Import Cifti2VoxelIndicesIJK VoxelIndicesSpec.
Context (B : text_builtins).

Lemma triple_length (value : list value) (msg : string) (row : list Z) :
  triple B value msg = Ok row -> List.length row = 3%nat.
Proof.
  unfold triple. intros H. inv_bind H as row' Hrow.
  destruct (negb (len row' =? 3)) eqn:Hlen; [discriminate |].
  injection H as <-. apply negb_false_iff, Z.eqb_eq in Hlen.
  unfold len in Hlen. lia.
Qed.

Lemma insert_triples self index value self' :
  triples (_indices self) -> insert B self index value = Ok self' ->
  triples (_indices self').
Proof.
  unfold insert. intros Hself H. apply except_ValueError_inv in H.
  inv_bind H as row Hrow. injection H as <-. simpl.
  apply Forall_list_insert; [exact Hself | eapply triple_length; eauto].
Qed.

Lemma reachable_triples self : reachable B self -> triples (_indices self).
Proof.
  induction 1 as [indices self Hinit
                 | self index value self' _ IH Hop
                 | self index value self' _ IH Hop
                 | self row column value self' _ IH Hop
                 | self index self' _ IH Hop].
  - unfold __init__ in Hinit. destruct indices as [ind |].
    + eapply (fold_result_inv (fun s => triples (_indices s))); [| | exact Hinit].
      * intros s x s' Hs Happ. eapply insert_triples; eauto.
      * constructor.
    + injection Hinit as <-. constructor.
  - eapply insert_triples; eauto.
  - unfold __setitem__ in Hop. apply except_ValueError_inv in Hop.
    inv_bind Hop as row Hrow. inv_bind Hop as l Hl. injection Hop as <-. simpl.
    unfold list_setitem in Hl.
    destruct (norm_index (_indices self) index) as [n |]; [| discriminate].
    injection Hl as <-.
    apply Forall_replace_nth; [exact IH | eapply triple_length; eauto].
  - unfold setitem_cell in Hop. apply except_ValueError_inv in Hop.
    inv_bind Hop as v Hv. inv_bind Hop as r Hr. inv_bind Hop as r' Hr'.
    inv_bind Hop as l Hl. injection Hop as <-. simpl.
    unfold list_setitem in Hl, Hr'.
    destruct (norm_index (_indices self) row) as [n |]; [| discriminate].
    destruct (norm_index r column) as [m |]; [| discriminate].
    injection Hl as <-. injection Hr' as <-.
    apply Forall_replace_nth; [exact IH |].
    rewrite length_replace_nth.
    apply (Forall_list_getitem _ _ _ _ IH Hr).
  - unfold __delitem__ in Hop. inv_bind Hop as l Hl. injection Hop as <-. simpl.
    unfold list_delitem in Hl.
    destruct (norm_index (_indices self) index) as [n |]; [| discriminate].
    injection Hl as <-. now apply Forall_remove_nth.
Qed.

Lemma join_row (row : list Z) :
  List.length row = 3%nat -> join " " (map str_int row) = row_text row.
Proof.
  destruct row as [| i [| j [| k [| x row]]]]; try discriminate. reflexivity.
Qed.

Lemma join_rows (rows : list (list Z)) :
  triples rows ->
  join newline (map (fun row => join " " (map str_int row)) rows)
  = rows_text rows.
Proof.
  intros H.
  assert (Hmap : map (fun row => join " " (map str_int row)) rows
                 = map row_text rows).
  { induction H as [| row rows Hrow Hrows IH]; simpl; [reflexivity |].
    now rewrite IH, (join_row row Hrow). }
  rewrite Hmap. destruct rows as [| row rest]; [reflexivity |].
  cbn [map]. rewrite join_as_fold. unfold rows_text. now rewrite map_map.
Qed.

Lemma count_char_row (c : ascii) (row : list Z) :
  separator c = true -> List.length row = 3%nat ->
  count_char c (row_text row) = (2 * count_char c " ")%nat.
Proof.
  intros Hc Hrow.
  destruct row as [| i [| j [| k [| x row]]]]; try discriminate.
  unfold row_text. rewrite !count_char_append, !(count_char_str_int c) by exact Hc.
  lia.
Qed.

(** Each row holds two spaces and no newline, and a newline stands between
    two rows. *)
Lemma count_char_rows (c : ascii) (rows : list (list Z)) :
  separator c = true -> triples rows -> rows <> [] ->
  count_char c (rows_text rows)
  = (2 * List.length rows * count_char c " "
     + (List.length rows - 1) * count_char c newline)%nat.
Proof.
  intros Hc Hrows Hne. destruct Hrows as [| row rest Hrow Hrest]; [contradiction |].
  clear Hne. unfold rows_text. rewrite count_char_append, (count_char_row c row Hc Hrow).
  assert (Hfold : count_char c
                    (fold_right String.append ""
                       (map (fun r => newline ++ row_text r) rest))
                  = (List.length rest
                     * (count_char c newline + 2 * count_char c " "))%nat).
  { induction Hrest as [| r rest Hr Hrest IH]; [reflexivity |].
    cbn [map fold_right List.length].
    rewrite !count_char_append, IH, (count_char_row c r Hc Hr). lia. }
  rewrite Hfold. cbn [List.length]. lia.
Qed.

End voxel_indices.

(** C7: the element of a non-empty Cifti2VoxelIndicesIJK has for text its
    rows joined by newlines, each row its three integers joined by single
    spaces; an empty one fails with CIFTI2HeaderError. *)
Theorem VoxelIndicesIJK_text
    (B : text_builtins) (self : Cifti2VoxelIndicesIJK.t)
    (H : VoxelIndicesSpec.reachable B self) :
  VoxelIndicesSpec.triples (Cifti2VoxelIndicesIJK._indices self) /\
  (Cifti2VoxelIndicesIJK._indices self = [] ->
   Cifti2VoxelIndicesIJK._to_xml_element self
   = Raise (CIFTI2HeaderError "VoxelIndicesIJK element require an index table")) /\
  (Cifti2VoxelIndicesIJK._indices self <> [] ->
   Cifti2VoxelIndicesIJK._to_xml_element self
   = Ok {| tag := "VoxelIndicesIJK"; attrib := [];
           text := Some (VoxelIndicesSpec.rows_text
                           (Cifti2VoxelIndicesIJK._indices self));
           children := [] |} /\
   VoxelIndicesSpec.count_char " "
     (VoxelIndicesSpec.rows_text (Cifti2VoxelIndicesIJK._indices self))
   = (2 * List.length (Cifti2VoxelIndicesIJK._indices self))%nat /\
   S (VoxelIndicesSpec.count_char (ascii_of_nat 10)
        (VoxelIndicesSpec.rows_text (Cifti2VoxelIndicesIJK._indices self)))
   = List.length (Cifti2VoxelIndicesIJK._indices self)).
Proof.
  pose proof (reachable_triples B self H) as Ht.
  split; [exact Ht |]. unfold Cifti2VoxelIndicesIJK._to_xml_element.
  unfold Cifti2VoxelIndicesIJK.__len__, len.
  split; intros Hrows.
  - now rewrite Hrows.
  - split; [| split].
    + destruct (Cifti2VoxelIndicesIJK._indices self) as [| row rows] eqn:Hi;
        [contradiction |].
      rewrite <- (join_rows _ Ht). reflexivity.
    + rewrite (count_char_rows " " _ eq_refl Ht Hrows). simpl. lia.
    + rewrite (count_char_rows (ascii_of_nat 10) _ eq_refl Ht Hrows).
      destruct (Cifti2VoxelIndicesIJK._indices self); [contradiction |].
      simpl. lia.
Qed.

Lemma VoxelIndicesIJK_text_witness :
  Cifti2VoxelIndicesIJK.__init__ sample_builtins
    (Some [[VInt 0; VInt 0; VInt 0]; [VInt 1; VInt 1; VInt 1]])
  = Ok VoxelIndicesSpec.two_rows /\
  Cifti2VoxelIndicesIJK._to_xml_element VoxelIndicesSpec.two_rows
  = Ok {| tag := "VoxelIndicesIJK"; attrib := [];
          text := Some ("0 0 0" ++ newline ++ "1 1 1");
          children := [] |}.
Proof.
  assert (Hinit : Cifti2VoxelIndicesIJK.__init__ sample_builtins
                    (Some [[VInt 0; VInt 0; VInt 0]; [VInt 1; VInt 1; VInt 1]])
                  = Ok VoxelIndicesSpec.two_rows) by reflexivity.
  split; [exact Hinit |].
  refine (proj1 (proj2 (proj2 (VoxelIndicesIJK_text sample_builtins _
                                 (VoxelIndicesSpec.reach_init _ _ _ Hinit))) _)).
  discriminate.
Defined.

(** ** Equality of Python values *)



Lemma exact_of_int_refl (z : Z) : exact_eqb (exact_of_int z) (exact_of_int z) = true.
Proof.
  destruct z as [| p | p]; [reflexivity | |];
    unfold exact_of_int, exact_fin; destruct (strip_zeros p 0) as [m e];
    cbn [exact_eqb]; now rewrite !Z.eqb_refl.
Qed.



Lemma py_eq_int_refl (z : Z) : py_eq (VInt z) (VInt z) = true.
Proof. apply exact_of_int_refl. Qed.

(** ** Ordered dictionaries *)

Section odict_facts.
Context {K V : Type} (eqb : K -> K -> bool).





End odict_facts.

(** ** Cifti2LabelTable *)

Section label_table.
Import Cifti2LabelTable LabelTableSpec.
Context (B : text_builtins).










End label_table.




(** * Further properties *)

(** ** Python lists *)

Section pylist_facts.
#[local] Open Scope list_scope.
Context {A : Type}.
Implicit Types (l : list A) (x : A) (i : Z).

Lemma norm_index_nonneg l i :
  0 <= i < len l -> norm_index l i = Some (Z.to_nat i).
Proof.
  unfold norm_index, len. intros [H0 H1].
  destruct (i <? 0) eqn:Hi; [lia |].
  destruct ((0 <=? i) && (i <? Z.of_nat (List.length l))) eqn:Hb; [reflexivity |].
  apply andb_false_iff in Hb as [Hb | Hb]; lia.
Qed.

Lemma norm_index_length l l' i :
  List.length l' = List.length l -> norm_index l' i = norm_index l i.
Proof. unfold norm_index. now intros ->. Qed.

Lemma length_list_insert l i x :
  List.length (list_insert l i x) = S (List.length l).
Proof.
  cbv beta zeta delta [list_insert]. set (n := Z.to_nat _).
  rewrite length_app. simpl.
  rewrite <- (firstn_skipn n l) at 3. rewrite length_app. lia.
Qed.

Lemma len_list_insert l i x : len (list_insert l i x) = len l + 1.
Proof. unfold len. rewrite length_list_insert. lia. Qed.

Lemma list_insert_at l i x :
  0 <= i <= len l ->
  list_insert l i x = firstn (Z.to_nat i) l ++ x :: skipn (Z.to_nat i) l.
Proof.
  unfold len. intros Hi. cbv beta zeta delta [list_insert].
  destruct (i <? 0) eqn:Hneg; [lia |].
  now rewrite Z.min_l by lia.
Qed.

Lemma list_insert_end l x : list_insert l (len l) x = l ++ [x].
Proof.
  rewrite list_insert_at by (unfold len; lia). unfold len.
  rewrite Nat2Z.id, firstn_all, skipn_all. reflexivity.
Qed.

Lemma list_getitem_insert l i x :
  0 <= i <= len l -> list_getitem (list_insert l i x) i = Ok x.
Proof.
  intros Hi. unfold list_getitem.
  rewrite norm_index_nonneg by (rewrite len_list_insert; lia).
  rewrite list_insert_at by exact Hi.
  rewrite nth_error_app2; rewrite length_firstn; unfold len in Hi; try lia.
  replace (Z.to_nat i - Nat.min (Z.to_nat i) (List.length l))%nat with 0%nat by lia.
  reflexivity.
Qed.

Lemma list_setitem_getitem l l' i x :
  list_setitem l i x = Ok l' ->
  list_getitem l' i = Ok x /\ len l' = len l.
Proof.
  unfold list_setitem, list_getitem, len.
  destruct (norm_index l i) as [n |] eqn:Hn; [| discriminate].
  intros H. injection H as <-.
  rewrite (norm_index_length l _ i) by apply length_replace_nth.
  rewrite Hn, nth_error_replace_nth by (eapply norm_index_lt; eauto).
  now rewrite length_replace_nth.
Qed.

Lemma nth_error_replace_nth_other l n m x :
  n <> m -> nth_error (replace_nth n x l) m = nth_error l m.
Proof.
  revert n m. induction l as [| y l IH]; intros [| n] [| m] H; simpl; auto.
  contradiction.
Qed.

Lemma length_remove_nth l n :
  (n < List.length l)%nat -> S (List.length (remove_nth n l)) = List.length l.
Proof.
  revert n. induction l as [| y l IH]; intros [| n] H; simpl in *; try lia.
  rewrite IH; lia.
Qed.

Lemma list_delitem_len l l' i :
  list_delitem l i = Ok l' -> len l' + 1 = len l.
Proof.
  unfold list_delitem, len.
  destruct (norm_index l i) as [n |] eqn:Hn; [| discriminate].
  intros H. injection H as <-.
  pose proof (length_remove_nth l n (norm_index_lt _ _ _ Hn)). lia.
Qed.

Lemma list_index_out_of_range l i :
  i < - len l \/ len l <= i -> norm_index l i = None.
Proof.
  unfold norm_index, len. intros H.
  destruct (i <? 0) eqn:Hi;
    (destruct ((0 <=? _) && (_ <? _)) eqn:Hb; [| reflexivity]);
    apply andb_prop in Hb as [H0 H1]; lia.
Qed.

End pylist_facts.

(** ** Cifti2MetaData: item access, update and the element *)

Section metadata_items.
Import MetaDataSpec.
#[local] Open Scope string_scope.
Context {V : Type}.
Implicit Types (d : list (string * V)) (k : string) (ks : list string).

Lemma keys_odict_set_present d k (v : V) :
  In k (keys d) -> keys (odict_set String.eqb d k v) = keys d.
Proof.
  induction d as [| [k0 v0] d IH]; simpl; [contradiction |].
  destruct (k0 =? k) eqn:H0; simpl; [reflexivity |].
  intros [-> | H]; [now rewrite String.eqb_refl in H0 | now rewrite IH].
Qed.

Lemma keys_odict_set_absent d k (v : V) :
  ~ In k (keys d) -> odict_set String.eqb d k v = (d ++ [(k, v)])%list.
Proof.
  induction d as [| [k0 v0] d IH]; simpl; [reflexivity |].
  intros H. destruct (k0 =? k) eqn:H0.
  - apply String.eqb_eq in H0. tauto.
  - rewrite IH; [reflexivity | tauto].
Qed.

Lemma odict_get_without d k k' :
  (k =? k') = false ->
  odict_get String.eqb (without d [k]) k' = odict_get String.eqb d k'.
Proof.
  intros Hk.
  induction d as [| [k0 v0] d IH]; [reflexivity |].
  rewrite without_step, mem_one.
  destruct (k0 =? k) eqn:H0; simpl.
  - apply String.eqb_eq in H0. subst k0. now rewrite Hk.
  - now rewrite IH.
Qed.

Lemma odict_get_absent d k :
  ~ In k (keys d) -> odict_get String.eqb d k = None.
Proof.
  induction d as [| [k0 v0] d IH]; simpl; [reflexivity |].
  intros H. destruct (k0 =? k) eqn:H0.
  - apply String.eqb_eq in H0. tauto.
  - apply IH. tauto.
Qed.

Lemma without_odict_set d k (v : V) ks :
  In k ks -> without (odict_set String.eqb d k v) ks = without d ks.
Proof.
  intros Hk. apply mem_In in Hk.
  induction d as [| [k0 v0] d IH]; cbn [odict_set].
  - now rewrite without_step, Hk.
  - destruct (k0 =? k) eqn:H0.
    + apply String.eqb_eq in H0. subst k0. now rewrite !without_step, Hk.
    + now rewrite !without_step, IH.
Qed.

Lemma without_fold_set (pairs : list (string * V)) d ks :
  (forall k, In k (keys pairs) -> In k ks) ->
  without (fold_left (fun d kv => odict_set String.eqb d (fst kv) (snd kv))
                     pairs d) ks
  = without d ks.
Proof.
  revert d. induction pairs as [| [k v] pairs IH]; simpl; intros d H;
    [reflexivity |].
  rewrite IH by auto. apply without_odict_set. auto.
Qed.

Lemma without_disjoint d ks :
  (forall k, In k ks -> ~ In k (keys d)) -> without d ks = d.
Proof.
  induction d as [| [k0 v0] d IH]; intros H; [reflexivity |].
  rewrite without_step. destruct (mem k0 ks) eqn:Hm.
  - apply mem_In in Hm. exfalso. apply (H k0 Hm). now left.
  - rewrite IH; [reflexivity |]. intros k Hk Hin. apply (H k Hk). now right.
Qed.

Lemma without_own_keys d : without d (keys d) = [].
Proof.
  assert (H : forall ks, (forall k, In k (keys d) -> In k ks) -> without d ks = []).
  { induction d as [| [k0 v0] d IH]; intros ks Hks; [reflexivity |].
    rewrite without_step.
    assert (Hm : mem k0 ks = true) by (apply mem_In, Hks; now left).
    rewrite Hm. apply IH. intros k Hk. apply Hks. now right. }
  now apply H.
Qed.

Lemma length_without_one d k :
  NoDup (keys d) -> In k (keys d) ->
  S (List.length (without d [k])) = List.length d.
Proof.
  induction d as [| [k0 v0] d IH]; intros Hn H; [contradiction |].
  simpl in Hn, H. inversion_clear Hn as [| ? ? Hk0 Hd].
  rewrite without_step, mem_one.
  destruct (k0 =? k) eqn:H0.
  - apply String.eqb_eq in H0. subst k0. now rewrite (without_absent d k Hk0).
  - destruct H as [-> | H]; [now rewrite String.eqb_refl in H0 |].
    simpl. now rewrite (IH Hd H).
Qed.

End metadata_items.

(** X1: [m[k] = v] makes [m[k]] read [v] and leaves every other key as it
    was; a key that was there keeps its place, a new one goes last. *)
Theorem MetaData_setitem_getitem (m : Cifti2MetaData.t) (k v : string) :
  Cifti2MetaData.__getitem__ (Cifti2MetaData.__setitem__ m k v) k = Ok v /\
  (forall k', k' <> k ->
     Cifti2MetaData.__getitem__ (Cifti2MetaData.__setitem__ m k v) k'
     = Cifti2MetaData.__getitem__ m k') /\
  (In k (Cifti2MetaData.__iter__ m) ->
   Cifti2MetaData.__iter__ (Cifti2MetaData.__setitem__ m k v)
   = Cifti2MetaData.__iter__ m) /\
  (~ In k (Cifti2MetaData.__iter__ m) ->
   Cifti2MetaData.__iter__ (Cifti2MetaData.__setitem__ m k v)
   = (Cifti2MetaData.__iter__ m ++ [k])%list) /\
  (MetaDataSpec.wf m -> MetaDataSpec.wf (Cifti2MetaData.__setitem__ m k v)).
Proof.
  unfold Cifti2MetaData.__getitem__, Cifti2MetaData.__setitem__,
    Cifti2MetaData.__iter__, MetaDataSpec.wf. simpl.
  split; [| split; [| split; [| split]]].
  - now rewrite odict_get_set, String.eqb_refl.
  - intros k' Hk'. rewrite odict_get_set.
    destruct (k =? k')%string eqn:He; [| reflexivity].
    apply String.eqb_eq in He. congruence.
  - apply keys_odict_set_present.
  - intros H. rewrite (keys_odict_set_absent _ _ _ H), map_app. reflexivity.
  - apply NoDup_odict_set.
Qed.

(** X2: [del m[k]] raises KeyError for an absent key; for a key that is
    there it removes that key alone. *)
Theorem MetaData_delitem (m : Cifti2MetaData.t) (Hwf : MetaDataSpec.wf m)
    (k : string) :
  (~ In k (Cifti2MetaData.__iter__ m) ->
   Cifti2MetaData.__delitem__ m k = Raise (KeyError (VStr k))) /\
  (In k (Cifti2MetaData.__iter__ m) ->
   exists m',
     Cifti2MetaData.__delitem__ m k = Ok m' /\
     Cifti2MetaData.__getitem__ m' k = Raise (KeyError (VStr k)) /\
     (forall k', k' <> k ->
        Cifti2MetaData.__getitem__ m' k' = Cifti2MetaData.__getitem__ m k') /\
     Cifti2MetaData.__len__ m' + 1 = Cifti2MetaData.__len__ m /\
     MetaDataSpec.wf m').
Proof.
  unfold Cifti2MetaData.__delitem__, Cifti2MetaData.__iter__. split.
  - intros H. now rewrite (odict_del_absent _ _ H).
  - intros H. rewrite (odict_del_present _ _ Hwf H).
    eexists. split; [reflexivity |].
    unfold Cifti2MetaData.__getitem__, Cifti2MetaData.__len__, MetaDataSpec.wf.
    simpl. split; [| split; [| split]].
    + rewrite odict_get_absent; [reflexivity |].
      rewrite keys_without. simpl. tauto.
    + intros k' Hk'. rewrite odict_get_without; [reflexivity |].
      apply String.eqb_neq. congruence.
    + unfold len. pose proof (length_without_one _ _ Hwf H). lia.
    + now apply NoDup_without.
Qed.

Lemma MetaData_delitem_witness :
  Cifti2MetaData.__delitem__ MetaDataSpec.sample "z" = Raise (KeyError (VStr "z")) /\
  exists m',
    Cifti2MetaData.__delitem__ MetaDataSpec.sample "a" = Ok m' /\
    Cifti2MetaData.__getitem__ m' "a" = Raise (KeyError (VStr "a")) /\
    Cifti2MetaData.__getitem__ m' "b" = Ok "2".
Proof.
  destruct (MetaData_delitem MetaDataSpec.sample (MetaData_init_wf _) "z")
    as [Habsent _].
  destruct (MetaData_delitem MetaDataSpec.sample (MetaData_init_wf _) "a")
    as [_ Hpresent].
  split.
  - apply Habsent. simpl. intros [H | [H | []]]; discriminate.
  - destruct Hpresent as (m' & Hdel & Hget & Hother & _); [simpl; auto |].
    exists m'. split; [exact Hdel |]. split; [exact Hget |].
    rewrite Hother by discriminate. reflexivity.
Defined.

(** X3: [update] with keys the MetaData does not hold, then
    [difference_update] with the same pairs, gives the MetaData back. *)
Theorem MetaData_update_difference_update
    (m : Cifti2MetaData.t) (other : list (string * string))
    (Hwf : MetaDataSpec.wf m)
    (Hnew : forall k, In k (MetaDataSpec.keys other) ->
                      ~ In k (Cifti2MetaData.__iter__ m)) :
  Cifti2MetaData.difference_update (Cifti2MetaData.update m other) (Some other)
  = (Ok tt, m).
Proof.
  unfold Cifti2MetaData.difference_update, Cifti2MetaData.update. simpl.
  destruct (odict_of_pairs_keys other) as [Hn Hin].
  destruct (fold_odict_set other (Cifti2MetaData.data m) Hwf) as [Hn' Hin'].
  rewrite delete_keys_all_present; [| exact Hn | exact Hn' |].
  - rewrite (without_ext _ _ (MetaDataSpec.keys other) Hin).
    rewrite without_fold_set by auto.
    rewrite without_disjoint by exact Hnew.
    now destruct m.
  - intros k Hk. apply Hin'. left. now apply Hin.
Qed.

Lemma MetaData_update_difference_update_witness :
  Cifti2MetaData.difference_update
    (Cifti2MetaData.update MetaDataSpec.sample [("c", "3"); ("d", "4")])
    (Some [("c", "3"); ("d", "4")])
  = (Ok tt, MetaDataSpec.sample).
Proof.
  apply MetaData_update_difference_update.
  - apply MetaData_init_wf.
  - simpl. intros k [<- | [<- | []]] [H | [H | []]]; discriminate.
Defined.

(** X4: [m.difference_update(m)] empties the MetaData. *)
Theorem MetaData_difference_update_self
    (m : Cifti2MetaData.t) (Hwf : MetaDataSpec.wf m) :
  Cifti2MetaData.difference_update m (Some (Cifti2MetaData.data m))
  = (Ok tt, Cifti2MetaData.__init__ None).
Proof.
  unfold Cifti2MetaData.difference_update.
  destruct (odict_of_pairs_keys (Cifti2MetaData.data m)) as [Hn Hin].
  rewrite delete_keys_all_present; [| exact Hn | exact Hwf |].
  - rewrite (without_ext _ _ (MetaDataSpec.keys (Cifti2MetaData.data m)) Hin).
    now rewrite without_own_keys.
  - intros k Hk. now apply Hin.
Qed.

Lemma MetaData_difference_update_self_witness :
  Cifti2MetaData.difference_update MetaDataSpec.sample
    (Some [("a", "1"); ("b", "2")])
  = (Ok tt, Cifti2MetaData.__init__ None).
Proof.
  apply (MetaData_difference_update_self MetaDataSpec.sample).
  apply MetaData_init_wf.
Defined.

Lemma fold_append_child {A : Type} (f : A -> Element) (xs : list A) (e : Element) :
  fold_left (fun e x => append_child e (f x)) xs e
  = {| tag := tag e; attrib := attrib e; text := text e;
       children := (children e ++ map f xs)%list |}.
Proof.
  revert e. induction xs as [| x xs IH]; intros e; simpl.
  - rewrite app_nil_r. now destruct e.
  - rewrite IH. simpl. now rewrite <- app_assoc.
Qed.

(** X5: the element of a MetaData holds one MD child per entry, in the order
    of the MetaData, each with the name and the value for its two texts. *)
Theorem MetaData_to_xml_element_children (m : Cifti2MetaData.t) :
  Cifti2MetaData._to_xml_element m
  = {| tag := "MetaData"; attrib := []; text := None;
       children := map MetaDataXml.MD (Cifti2MetaData.data m) |} /\
  len (children (Cifti2MetaData._to_xml_element m)) = Cifti2MetaData.__len__ m /\
  map (fun md => option_map text (hd_error (children md)))
      (children (Cifti2MetaData._to_xml_element m))
  = map (fun k => Some (Some k)) (Cifti2MetaData.__iter__ m).
Proof.
  assert (H : Cifti2MetaData._to_xml_element m
              = {| tag := "MetaData"; attrib := []; text := None;
                   children := map MetaDataXml.MD (Cifti2MetaData.data m) |}).
  { unfold Cifti2MetaData._to_xml_element.
    exact (fold_append_child MetaDataXml.MD (Cifti2MetaData.data m)
             (new_Element "MetaData")). }
  rewrite H. split; [reflexivity |]. simpl. split.
  - unfold len, Cifti2MetaData.__len__, len. now rewrite length_map.
  - unfold Cifti2MetaData.__iter__. rewrite !map_map. reflexivity.
Qed.

(** ** Cifti2Label: the constructor *)

Lemma float_01_in_01 (B : text_builtins) (v : value) (f : float) :
  _float_01 B v = Ok f -> LabelInit.in_01 f.
Proof.
  unfold _float_01, LabelInit.in_01. intros H. inv_bind H as out Hout.
  destruct ((out <? 0) || (1 <? out))%float eqn:Hr; [discriminate |].
  now injection H as <-.
Qed.

Lemma float_01_of_float (B : text_builtins) (f : float) :
  LabelInit.in_01 f -> _float_01 B (VFloat f) = Ok f.
Proof. unfold _float_01, LabelInit.in_01. simpl. now intros ->. Qed.

(** X6: a Label the constructor returns holds an int key, a str and four
    floats that pass the range test, and if its name is not empty it
    serializes: Key is the decimal key and the text is the name. *)
Theorem Label_init_serializes
    (B : text_builtins) (k l r g b a : value) (self : Cifti2Label.t)
    (H : Cifti2Label.__init__ B k l r g b a = Ok self) :
  LabelInit.coerced self /\
  Cifti2Label.label self = VStr (str B l) /\
  (str B l <> "" ->
   exists e z,
     Cifti2Label._to_xml_element B self = Ok e /\
     Cifti2Label.key self = VInt z /\
     tag e = "Label" /\
     get_attrib e "Key" = Some (str_int z) /\
     text e = Some (str B l)).
Proof.
  unfold Cifti2Label.__init__ in H.
  inv_bind H as z Hz. inv_bind H as fr Hr. inv_bind H as fg Hg.
  inv_bind H as fb Hb. inv_bind H as fa Ha. injection H as <-.
  apply float_01_in_01 in Hr, Hg, Hb, Ha.
  split; [| split].
  - exists z, (str B l), fr, fg, fb, fa. auto.
  - reflexivity.
  - intros Hname. rewrite to_xml_element_named by (simpl; congruence).
    cbn [Cifti2Label.key Cifti2Label.red Cifti2Label.green Cifti2Label.blue
         Cifti2Label.alpha Cifti2Label.label int_ except_ValueError bind].
    rewrite !float_01_of_float by assumption.
    cbn [except_ValueError bind].
    eexists. exists z. split; [reflexivity |].
    split; [reflexivity |]. split; [reflexivity |].
    split; [| reflexivity].
    rewrite !get_attrib_set_attrib. reflexivity.
Qed.

Lemma Label_init_serializes_witness :
  LabelInit.coerced LabelTableSpec.label_name /\
  Cifti2Label.label LabelTableSpec.label_name = VStr "name" /\
  exists e z,
    Cifti2Label._to_xml_element sample_builtins LabelTableSpec.label_name = Ok e /\
    Cifti2Label.key LabelTableSpec.label_name = VInt z /\
    tag e = "Label" /\
    get_attrib e "Key" = Some (str_int z) /\
    text e = Some "name".
Proof.
  assert (Hinit : Cifti2Label.__init__ sample_builtins (VInt 5) (VStr "name")
                    (Cifti2Label.red LabelTableSpec.label_name)
                    (Cifti2Label.green LabelTableSpec.label_name)
                    (Cifti2Label.blue LabelTableSpec.label_name)
                    (Cifti2Label.alpha LabelTableSpec.label_name)
                  = Ok LabelTableSpec.label_name) by reflexivity.
  destruct (Label_init_serializes _ _ _ _ _ _ _ _ Hinit) as (Hc & Hl & Hxml).
  split; [exact Hc |]. split; [exact Hl |]. apply Hxml. discriminate.
Defined.

(** ** Cifti2LabelTable: the element *)

Lemma fold_result_append_child {A : Type} (f : A -> result Element)
    (xs : list A) (parent : Element) :
  append_elements f xs parent
  = (es <- map_result f xs ;;
     Ok {| tag := tag parent; attrib := attrib parent; text := text parent;
           children := (children parent ++ es)%list |}).
Proof.
  unfold append_elements. revert parent.
  induction xs as [| x xs IH]; intros parent; simpl.
  - rewrite app_nil_r. now destruct parent.
  - destruct (f x) as [c | e]; simpl; [| reflexivity].
    rewrite IH. destruct (map_result f xs) as [es | e]; simpl; [| reflexivity].
    now rewrite <- app_assoc.
Qed.

Lemma map_result_first_error {A B : Type} (f : A -> result B)
    (before after : list A) (x : A) (e : exn) :
  Forall (fun y => is_ok (f y) = true) before ->
  f x = Raise e ->
  map_result f (before ++ x :: after)%list = Raise e.
Proof.
  intros Hb Hx. induction Hb as [| y before Hy Hb IH]; simpl.
  - now rewrite Hx.
  - destruct (f y) as [b |]; [| discriminate]. simpl. now rewrite IH.
Qed.

Lemma map_result_Ok_length {A B : Type} (f : A -> result B) (xs : list A)
    (ys : list B) :
  map_result f xs = Ok ys ->
  List.length ys = List.length xs /\ Forall (fun y => is_ok (f y) = true) xs.
Proof.
  revert ys. induction xs as [| x xs IH]; simpl; intros ys H.
  - injection H as <-. auto.
  - inv_bind H as y Hy. inv_bind H as ys' Hys. injection H as <-.
    destruct (IH _ Hys) as [Hlen Hall]. simpl. split; [lia |].
    constructor; [now rewrite Hy | exact Hall].
Qed.

(** X7: an empty LabelTable fails with CIFTI2HeaderError; another one fails
    with the error of its first label that does not serialize, and when
    every label serializes its element holds their elements in the order of
    the table. *)
Theorem LabelTable_to_xml_element (B : text_builtins) (self : Cifti2LabelTable.t) :
  (Cifti2LabelTable.__len__ self = 0 ->
   Cifti2LabelTable._to_xml_element B self
   = Raise (CIFTI2HeaderError "LabelTable element requires at least 1 label")) /\
  (forall es,
      Cifti2LabelTable.__len__ self <> 0 ->
      map_result (Cifti2Label._to_xml_element B)
        (map snd (Cifti2LabelTable._labels self)) = Ok es ->
      Cifti2LabelTable._to_xml_element B self
      = Ok {| tag := "LabelTable"; attrib := []; text := None; children := es |} /\
      len es = Cifti2LabelTable.__len__ self) /\
  (forall before l after e,
      map snd (Cifti2LabelTable._labels self) = (before ++ l :: after)%list ->
      Forall (fun l' => is_ok (Cifti2Label._to_xml_element B l') = true) before ->
      Cifti2Label._to_xml_element B l = Raise e ->
      Cifti2LabelTable._to_xml_element B self = Raise e).
Proof.
  unfold Cifti2LabelTable._to_xml_element.
  change (fold_result _ (map snd (Cifti2LabelTable._labels self))
            (new_Element "LabelTable"))
    with (append_elements (Cifti2Label._to_xml_element B)
            (map snd (Cifti2LabelTable._labels self)) (new_Element "LabelTable")).
  rewrite fold_result_append_child.
  split; [| split].
  - now intros ->.
  - intros es Hlen Hes. apply Z.eqb_neq in Hlen. rewrite Hlen, Hes.
    split; [reflexivity |].
    apply map_result_Ok_length in Hes as [Hl _].
    unfold Cifti2LabelTable.__len__, len. rewrite Hl, length_map. reflexivity.
  - intros before l after e Hlabels Hbefore Hl.
    assert (Hlen : (Cifti2LabelTable.__len__ self =? 0) = false).
    { apply Z.eqb_neq. unfold Cifti2LabelTable.__len__, len.
      rewrite <- (length_map snd), Hlabels, length_app. simpl. lia. }
    rewrite Hlen, Hlabels, (map_result_first_error _ _ _ _ _ Hbefore Hl).
    reflexivity.
Qed.

(** ** Cifti2VoxelIndicesIJK: the sequence *)

Lemma map_result_int_VInt (B : text_builtins) (zs : list Z) :
  map_result (int_ B) (map VInt zs) = Ok zs.
Proof. induction zs as [| z zs IH]; simpl; [reflexivity | now rewrite IH]. Qed.


Section voxel_sequence.
Import Cifti2VoxelIndicesIJK VoxelIndicesSpec.
#[local] Open Scope list_scope.
Context (B : text_builtins).

Lemma triple_Ok (value : list value) (msg : string) (ints : list Z) :
  triple B value msg = Ok ints ->
  map_result (int_ B) value = Ok ints /\ List.length ints = 3%nat.
Proof.
  intros H. split; [| eapply triple_length; eauto].
  unfold triple in H. inv_bind H as ints' Hints.
  destruct (negb (len ints' =? 3)); [discriminate |]. now injection H as <-.
Qed.

Lemma triple_of_ints (row : list Z) (msg : string) :
  List.length row = 3%nat -> triple B (map VInt row) msg = Ok row.
Proof.
  intros H. unfold triple. rewrite map_result_int_VInt. simpl.
  unfold len. rewrite H. reflexivity.
Qed.

Lemma extend_rows (rows : list (list Z)) :
  triples rows ->
  forall self,
    extend B self (map (map VInt) rows) = Ok {| _indices := _indices self ++ rows |}.
Proof.
  unfold extend. induction 1 as [| row rows Hrow Hrows IH]; intros self; simpl.
  - rewrite app_nil_r. now destruct self.
  - unfold append at 1, insert. rewrite (triple_of_ints row "" Hrow). simpl.
    unfold __len__. rewrite list_insert_end, IH. simpl.
    now rewrite <- app_assoc.
Qed.

End voxel_sequence.

(** X8: the constructor, given rows of three ints, stores these rows in their
    order, and [extend] adds such rows at the end. *)
Theorem VoxelIndicesIJK_init_rows
    (B : text_builtins) (rows : list (list Z))
    (H : VoxelIndicesSpec.triples rows) :
  Cifti2VoxelIndicesIJK.__init__ B (Some (map (map VInt) rows))
  = Ok {| Cifti2VoxelIndicesIJK._indices := rows |} /\
  forall self,
    Cifti2VoxelIndicesIJK.extend B self (map (map VInt) rows)
    = Ok {| Cifti2VoxelIndicesIJK._indices :=
              (Cifti2VoxelIndicesIJK._indices self ++ rows)%list |}.
Proof.
  split; [| now apply extend_rows].
  unfold Cifti2VoxelIndicesIJK.__init__. now rewrite extend_rows.
Qed.

Lemma VoxelIndicesIJK_init_rows_witness :
  Cifti2VoxelIndicesIJK.__init__ sample_builtins
    (Some (map (map VInt) [[0; 0; 0]; [1; 1; 1]]))
  = Ok VoxelIndicesSpec.two_rows.
Proof.
  apply (VoxelIndicesIJK_init_rows sample_builtins [[0; 0; 0]; [1; 1; 1]]).
  repeat constructor.
Defined.



(** X10: a successful [insert] stores the row converted to ints and makes
    the sequence one longer; the row is at the index given when that index
    is within the sequence, and at the end when the index is past it. *)
Theorem VoxelIndicesIJK_insert
    (B : text_builtins) (self self' : Cifti2VoxelIndicesIJK.t) (index : Z)
    (value : list value)
    (H : Cifti2VoxelIndicesIJK.insert B self index value = Ok self') :
  exists ints,
    map_result (int_ B) value = Ok ints /\
    List.length ints = 3%nat /\
    Cifti2VoxelIndicesIJK.__len__ self' = Cifti2VoxelIndicesIJK.__len__ self + 1 /\
    (0 <= index <= Cifti2VoxelIndicesIJK.__len__ self ->
     Cifti2VoxelIndicesIJK.__getitem__ self' index = Ok ints) /\
    (Cifti2VoxelIndicesIJK.__len__ self <= index ->
     Cifti2VoxelIndicesIJK._indices self'
     = (Cifti2VoxelIndicesIJK._indices self ++ [ints])%list).
Proof.
  unfold Cifti2VoxelIndicesIJK.insert in H. apply except_ValueError_inv in H.
  inv_bind H as ints Hints. injection H as <-.
  apply triple_Ok in Hints as [Hints Hlen].
  exists ints. split; [exact Hints |]. split; [exact Hlen |].
  unfold Cifti2VoxelIndicesIJK.__len__, Cifti2VoxelIndicesIJK.__getitem__. simpl.
  split; [apply len_list_insert |]. split.
  - apply list_getitem_insert.
  - intros Hpast. rewrite <- list_insert_end.
    cbv beta zeta delta [list_insert]. unfold len in *.
    destruct (index <? 0) eqn:Hneg; [lia |].
    destruct (Z.of_nat (List.length (Cifti2VoxelIndicesIJK._indices self)) <? 0)
      eqn:Hneg'; [lia |].
    now rewrite !Z.min_r by lia.
Qed.

Lemma VoxelIndicesIJK_insert_witness :
  exists self',
    Cifti2VoxelIndicesIJK.insert sample_builtins VoxelIndicesSpec.two_rows 1
      [VInt 5; VInt 6; VInt 7] = Ok self' /\
    Cifti2VoxelIndicesIJK.__len__ self' = 3 /\
    Cifti2VoxelIndicesIJK.__getitem__ self' 1 = Ok [5; 6; 7].
Proof.
  eexists. split; [reflexivity |].
  destruct (VoxelIndicesIJK_insert sample_builtins VoxelIndicesSpec.two_rows _ 1
              [VInt 5; VInt 6; VInt 7] eq_refl)
    as (ints & Hints & _ & Hlen & Hget & _).
  injection Hints as <-. split; [exact Hlen |].
  apply Hget. unfold Cifti2VoxelIndicesIJK.__len__, len. simpl. lia.
Defined.

(** X11: a successful [self[index] = row] makes [self[index]] read the row
    converted to ints and keeps the length; with a row of three ints and an
    index outside the sequence it raises IndexError. *)
Theorem VoxelIndicesIJK_setitem_getitem
    (B : text_builtins) (self : Cifti2VoxelIndicesIJK.t) (index : Z)
    (value : list value) :
  (forall self',
      Cifti2VoxelIndicesIJK.__setitem__ B self index value = Ok self' ->
      exists ints,
        map_result (int_ B) value = Ok ints /\
        Cifti2VoxelIndicesIJK.__getitem__ self' index = Ok ints /\
        Cifti2VoxelIndicesIJK.__len__ self' = Cifti2VoxelIndicesIJK.__len__ self) /\
  (forall ints,
      map_result (int_ B) value = Ok ints -> List.length ints = 3%nat ->
      index < - Cifti2VoxelIndicesIJK.__len__ self \/
      Cifti2VoxelIndicesIJK.__len__ self <= index ->
      Cifti2VoxelIndicesIJK.__setitem__ B self index value = Raise IndexError).
Proof.
  unfold Cifti2VoxelIndicesIJK.__setitem__, Cifti2VoxelIndicesIJK.__getitem__,
    Cifti2VoxelIndicesIJK.__len__.
  split.
  - intros self' H. apply except_ValueError_inv in H.
    inv_bind H as ints Hints. inv_bind H as l Hl. injection H as <-.
    apply triple_Ok in Hints as [Hints _].
    apply list_setitem_getitem in Hl as [Hget Hlen].
    exists ints. auto.
  - intros ints Hints Hlen Hout. unfold Cifti2VoxelIndicesIJK.triple.
    rewrite Hints. simpl. unfold len at 1. rewrite Hlen. simpl.
    unfold list_setitem. now rewrite (list_index_out_of_range _ _ Hout).
Qed.

(** X12: a successful [self[row, column] = v] makes [self[row, column]] read
    [int(v)] and keeps the number of rows. *)
Theorem VoxelIndicesIJK_setitem_cell
    (B : text_builtins) (self self' : Cifti2VoxelIndicesIJK.t)
    (row column : Z) (v : value)
    (H : Cifti2VoxelIndicesIJK.setitem_cell B self row column v = Ok self') :
  exists z,
    int_ B v = Ok z /\
    Cifti2VoxelIndicesIJK.getitem_cell self' row column = Ok z /\
    Cifti2VoxelIndicesIJK.__len__ self' = Cifti2VoxelIndicesIJK.__len__ self.
Proof.
  unfold Cifti2VoxelIndicesIJK.setitem_cell in H. apply except_ValueError_inv in H.
  inv_bind H as z Hz. inv_bind H as r Hr. inv_bind H as r' Hr'.
  inv_bind H as l Hl. injection H as <-.
  apply list_setitem_getitem in Hl as [Hget Hlen].
  apply list_setitem_getitem in Hr' as [Hget' _].
  exists z. split; [exact Hz |].
  unfold Cifti2VoxelIndicesIJK.getitem_cell, Cifti2VoxelIndicesIJK.__len__. simpl.
  rewrite Hget. simpl. auto.
Qed.

Lemma VoxelIndicesIJK_setitem_cell_witness :
  exists self',
    Cifti2VoxelIndicesIJK.setitem_cell sample_builtins VoxelIndicesSpec.two_rows
      (-1) 2 (VInt 9) = Ok self' /\
    Cifti2VoxelIndicesIJK.getitem_cell self' (-1) 2 = Ok 9.
Proof.
  eexists. split; [reflexivity |].
  destruct (VoxelIndicesIJK_setitem_cell sample_builtins
              VoxelIndicesSpec.two_rows _ (-1) 2 (VInt 9) eq_refl)
    as (z & Hz & Hget & _).
  injection Hz as <-. exact Hget.
Defined.

(** X13: [del self[index]] raises IndexError for an index outside the
    sequence and otherwise makes it one shorter. *)
Theorem VoxelIndicesIJK_delitem
    (self : Cifti2VoxelIndicesIJK.t) (index : Z) :
  (index < - Cifti2VoxelIndicesIJK.__len__ self \/
   Cifti2VoxelIndicesIJK.__len__ self <= index ->
   Cifti2VoxelIndicesIJK.__delitem__ self index = Raise IndexError) /\
  (- Cifti2VoxelIndicesIJK.__len__ self <= index
   < Cifti2VoxelIndicesIJK.__len__ self ->
   exists self',
     Cifti2VoxelIndicesIJK.__delitem__ self index = Ok self' /\
     Cifti2VoxelIndicesIJK.__len__ self' + 1 = Cifti2VoxelIndicesIJK.__len__ self).
Proof.
  unfold Cifti2VoxelIndicesIJK.__delitem__, Cifti2VoxelIndicesIJK.__len__.
  split.
  - intros Hout. unfold list_delitem.
    now rewrite (list_index_out_of_range _ _ Hout).
  - intros Hin.
    destruct (list_delitem (Cifti2VoxelIndicesIJK._indices self) index)
      as [l | e] eqn:Hdel.
    + simpl. eexists. split; [reflexivity |]. simpl.
      eapply list_delitem_len; eauto.
    + exfalso. unfold list_delitem, norm_index, len in *.
      destruct (index <? 0) eqn:Hneg;
        (destruct ((0 <=? _) && (_ <? _)) eqn:Hb; [discriminate |]);
        apply andb_false_iff in Hb as [Hb | Hb]; lia.
Qed.

(** ** Cifti2VertexIndices and Cifti2Vertices *)

Lemma count_char_join_ints (c : ascii) (sep : string) (zs : list Z) :
  VoxelIndicesSpec.separator c = true ->
  VoxelIndicesSpec.count_char c (join sep (map str_int zs))
  = ((List.length zs - 1) * VoxelIndicesSpec.count_char c sep)%nat.
Proof.
  intros Hc. destruct zs as [| z zs]; [reflexivity |].
  cbn [map]. rewrite join_as_fold, count_char_append, count_char_str_int by exact Hc.
  induction zs as [| z' zs IH]; [reflexivity |].
  cbn [map fold_right List.length] in *.
  rewrite !count_char_append, count_char_str_int by exact Hc. lia.
Qed.

Section vertex_indices.
Import Cifti2VertexIndices.
Context (B : text_builtins).

Lemma VertexIndices_extend_ints (zs : list Z) :
  forall self,
    extend B self (map VInt zs) = Ok {| _indices := (_indices self ++ zs)%list |}.
Proof.
  unfold extend. induction zs as [| z zs IH]; intros self; simpl.
  - rewrite app_nil_r. now destruct self.
  - unfold append at 1, insert. simpl. unfold __len__.
    rewrite list_insert_end, IH. simpl. now rewrite <- app_assoc.
Qed.

End vertex_indices.

(** X14: a Cifti2VertexIndices built from ints holds them in their order; its
    element fails with CIFTI2HeaderError when there is none, and otherwise
    has for text the ints with one space between two of them. *)
Theorem VertexIndices_to_xml_element (B : text_builtins) (zs : list Z) :
  Cifti2VertexIndices.__init__ B (Some (map VInt zs))
  = Ok {| Cifti2VertexIndices._indices := zs |} /\
  (zs = [] ->
   Cifti2VertexIndices._to_xml_element {| Cifti2VertexIndices._indices := zs |}
   = Raise (CIFTI2HeaderError "VertexIndices element requires indices")) /\
  (zs <> [] ->
   Cifti2VertexIndices._to_xml_element {| Cifti2VertexIndices._indices := zs |}
   = Ok {| tag := "VertexIndices"; attrib := [];
           text := Some (join " " (map str_int zs)); children := [] |} /\
   S (VoxelIndicesSpec.count_char " " (join " " (map str_int zs)))
   = List.length zs).
Proof.
  split; [| split].
  - unfold Cifti2VertexIndices.__init__. now rewrite VertexIndices_extend_ints.
  - now intros ->.
  - intros Hne. split.
    + destruct zs; [contradiction | reflexivity].
    + rewrite (count_char_join_ints " " " " zs eq_refl).
      destruct zs; [contradiction |]. simpl. lia.
Qed.

(** X15: the element of a Cifti2Vertices fails only when brain_structure is
    None; with a brain structure it is built even when there is no vertex,
    the text then being empty. *)
Theorem Vertices_to_xml_element (B : text_builtins) (self : Cifti2Vertices.t) :
  (Cifti2Vertices.brain_structure self = VNone ->
   Cifti2Vertices._to_xml_element B self
   = Raise (CIFTI2HeaderError "Vertices element require a BrainStructure")) /\
  (Cifti2Vertices.brain_structure self <> VNone ->
   Cifti2Vertices._to_xml_element B self
   = Ok {| tag := "Vertices";
           attrib := [("BrainStructure", str B (Cifti2Vertices.brain_structure self))];
           text := Some (join " " (map str_int (Cifti2Vertices._vertices self)));
           children := [] |} /\
   VoxelIndicesSpec.count_char " "
     (join " " (map str_int (Cifti2Vertices._vertices self)))
   = (List.length (Cifti2Vertices._vertices self) - 1)%nat).
Proof.
  unfold Cifti2Vertices._to_xml_element. split.
  - now intros ->.
  - intros Hb.
    assert (Hxml : forall X Y : result Element,
               match Cifti2Vertices.brain_structure self with
               | VNone => X
               | _ => Y
               end = Y)
      by (intros X Y; destruct (Cifti2Vertices.brain_structure self);
          [contradiction | reflexivity ..]).
    rewrite Hxml. split; [reflexivity |].
    rewrite (count_char_join_ints " " " " _ eq_refl). simpl. lia.
Qed.

(** X16: [insert] and item assignment of a Cifti2Vertices store [int(value)]
    and keep the brain structure; a value [int] refuses with ValueError is
    refused with ValueError. *)
Theorem Vertices_insert_setitem
    (B : text_builtins) (self : Cifti2Vertices.t) (index : Z) (value : value) :
  (forall self',
      Cifti2Vertices.insert B self index value = Ok self' ->
      exists z,
        int_ B value = Ok z /\
        Cifti2Vertices.__len__ self' = Cifti2Vertices.__len__ self + 1 /\
        Cifti2Vertices.brain_structure self' = Cifti2Vertices.brain_structure self /\
        (0 <= index <= Cifti2Vertices.__len__ self ->
         Cifti2Vertices.__getitem__ self' index = Ok z)) /\
  (forall self',
      Cifti2Vertices.__setitem__ B self index value = Ok self' ->
      exists z,
        int_ B value = Ok z /\
        Cifti2Vertices.__len__ self' = Cifti2Vertices.__len__ self /\
        Cifti2Vertices.brain_structure self' = Cifti2Vertices.brain_structure self /\
        Cifti2Vertices.__getitem__ self' index = Ok z) /\
  (forall msg,
      int_ B value = Raise (ValueError msg) ->
      Cifti2Vertices.insert B self index value
      = Raise (ValueError "value must be an int") /\
      Cifti2Vertices.__setitem__ B self index value
      = Raise (ValueError "value must be an int")).
Proof.
  unfold Cifti2Vertices.insert, Cifti2Vertices.__setitem__,
    Cifti2Vertices.__len__, Cifti2Vertices.__getitem__.
  split; [| split].
  - intros self' H. apply except_ValueError_inv in H.
    inv_bind H as z Hz. injection H as <-. exists z. simpl.
    split; [exact Hz |]. split; [apply len_list_insert |].
    split; [reflexivity | apply list_getitem_insert].
  - intros self' H. apply except_ValueError_inv in H.
    inv_bind H as z Hz. inv_bind H as l Hl. injection H as <-.
    apply list_setitem_getitem in Hl as [Hget Hlen].
    exists z. simpl. auto.
  - intros msg Hmsg. now rewrite Hmsg.
Qed.

(** ** Cifti2Parcel *)

Lemma voxel_child_step (parent : Element) (ijk : option Cifti2VoxelIndicesIJK.t) :
  match ijk with
  | Some ijk =>
      if Cifti2VoxelIndicesIJK.__len__ ijk =? 0 then Ok parent
      else c <- Cifti2VoxelIndicesIJK._to_xml_element ijk ;;
           Ok (append_child parent c)
  | None => Ok parent
  end
  = Ok {| tag := tag parent; attrib := attrib parent; text := text parent;
          children := (children parent ++ ChildrenSpec.voxel_children ijk)%list |}.
Proof.
  destruct ijk as [[rows] |]; simpl.
  - unfold Cifti2VoxelIndicesIJK._to_xml_element, Cifti2VoxelIndicesIJK.__len__.
    simpl. destruct rows as [| row rows]; simpl.
    + rewrite app_nil_r. now destruct parent.
    + reflexivity.
  - rewrite app_nil_r. now destruct parent.
Qed.

Lemma vertex_child_step (parent : Element) (vi : option Cifti2VertexIndices.t) :
  match vi with
  | Some vi =>
      if Cifti2VertexIndices.__len__ vi =? 0 then Ok parent
      else c <- Cifti2VertexIndices._to_xml_element vi ;;
           Ok (append_child parent c)
  | None => Ok parent
  end
  = Ok {| tag := tag parent; attrib := attrib parent; text := text parent;
          children := (children parent ++ ChildrenSpec.vertex_children vi)%list |}.
Proof.
  destruct vi as [[indices] |]; simpl.
  - unfold Cifti2VertexIndices._to_xml_element, Cifti2VertexIndices.__len__.
    simpl. destruct indices as [| i indices]; simpl.
    + rewrite app_nil_r. now destruct parent.
    + reflexivity.
  - rewrite app_nil_r. now destruct parent.
Qed.

(** X17: the element of a Parcel fails with CIFTI2HeaderError when the name
    is None, and with the error of the first Vertices that does not
    serialize; otherwise it holds the VoxelIndicesIJK child, left out when
    there are no voxel indices or no row in them, and then the elements of
    the Vertices in their order. *)
Theorem Parcel_to_xml_element (B : text_builtins) (self : Cifti2Parcel.t) :
  (Cifti2Parcel.name self = VNone ->
   Cifti2Parcel._to_xml_element B self
   = Raise (CIFTI2HeaderError "Parcel element requires a name")) /\
  (Cifti2Parcel.name self <> VNone ->
   (forall es,
       map_result (Cifti2Vertices._to_xml_element B) (Cifti2Parcel.vertices self)
       = Ok es ->
       Cifti2Parcel._to_xml_element B self
       = Ok {| tag := "Parcel";
               attrib := [("Name", str B (Cifti2Parcel.name self))];
               text := None;
               children :=
                 (ChildrenSpec.voxel_children (Cifti2Parcel._voxel_indices_ijk self)
                  ++ es)%list |}) /\
   (forall before v after,
       Cifti2Parcel.vertices self = (before ++ v :: after)%list ->
       Forall (fun v' => Cifti2Vertices.brain_structure v' <> VNone) before ->
       Cifti2Vertices.brain_structure v = VNone ->
       Cifti2Parcel._to_xml_element B self
       = Raise (CIFTI2HeaderError "Vertices element require a BrainStructure"))).
Proof.
  unfold Cifti2Parcel._to_xml_element. split.
  - now intros ->.
  - intros Hname.
    assert (Hxml : forall X Y : result Element,
               match Cifti2Parcel.name self with
               | VNone => X
               | _ => Y
               end = Y)
      by (intros X Y; destruct (Cifti2Parcel.name self);
          [contradiction | reflexivity ..]).
    rewrite Hxml, voxel_child_step. cbn [bind].
    rewrite fold_result_append_child. split.
    + intros es Hes. now rewrite Hes.
    + intros before v after Hv Hbefore Hnone. rewrite Hv.
      rewrite (map_result_first_error _ before after v
                 (CIFTI2HeaderError "Vertices element require a BrainStructure")).
      * reflexivity.
      * eapply Forall_impl; [| exact Hbefore]. intros v' Hv'. simpl in Hv'.
        unfold Cifti2Vertices._to_xml_element.
        destruct (Cifti2Vertices.brain_structure v'); [contradiction | reflexivity ..].
      * unfold Cifti2Vertices._to_xml_element. now rewrite Hnone.
Qed.

Example Parcel_with_empty_voxel_indices :
  Cifti2Parcel._to_xml_element sample_builtins ChildrenSpec.sample_parcel
  = Ok {| tag := "Parcel"; attrib := [("Name", "p")]; text := None;
          children :=
            [ {| tag := "Vertices";
                 attrib := [("BrainStructure", "CIFTI_STRUCTURE_CORTEX_LEFT")];
                 text := Some "0 5"; children := [] |} ] |}.
Proof. reflexivity. Qed.

Lemma remove_nth_last {A : Type} (l : list A) (x : A) :
  remove_nth (List.length l) (l ++ [x])%list = l.
Proof. induction l as [| y l IH]; simpl; [reflexivity | now rewrite IH]. Qed.

Lemma norm_index_negative {A : Type} (l : list A) (i : Z) :
  - len l <= i < 0 -> norm_index l i = Some (Z.to_nat (i + len l)).
Proof.
  unfold norm_index, len. intros [H0 H1].
  destruct (i <? 0) eqn:Hi; [| lia].
  destruct ((0 <=? i + Z.of_nat (List.length l))
            && (i + Z.of_nat (List.length l) <? Z.of_nat (List.length l)))
    eqn:Hb; [reflexivity |].
  apply andb_false_iff in Hb as [Hb | Hb]; lia.
Qed.

Lemma list_delitem_last {A : Type} (l : list A) (x : A) :
  list_delitem (l ++ [x])%list (-1) = Ok l.
Proof.
  unfold list_delitem.
  rewrite norm_index_negative
    by (unfold len; rewrite length_app; cbn [List.length]; lia).
  replace (Z.to_nat (-1 + len (l ++ [x])%list)) with (List.length l);
    [now rewrite remove_nth_last |].
  unfold len. rewrite length_app. cbn [List.length]. lia.
Qed.

(** X18: [append_cifti_vertices] refuses an object that is no Cifti2Vertices
    with TypeError and puts a Cifti2Vertices last; [pop_cifti2_vertices(-1)]
    then gives the Parcel back; popping from a Parcel without Vertices
    raises IndexError. *)
Theorem Parcel_append_pop (self : Cifti2Parcel.t) :
  (forall o,
      Cifti2Parcel.append_cifti_vertices self (Cifti2Parcel.NotVertices o)
      = Raise (TypeError "Not a valid Cifti2Vertices instance")) /\
  (forall v,
      exists self',
        Cifti2Parcel.append_cifti_vertices self (Cifti2Parcel.IsVertices v)
        = Ok self' /\
        Cifti2Parcel.vertices self' = (Cifti2Parcel.vertices self ++ [v])%list /\
        Cifti2Parcel.pop_cifti2_vertices self' (-1) = Ok self) /\
  (Cifti2Parcel.vertices self = [] ->
   forall ith, Cifti2Parcel.pop_cifti2_vertices self ith = Raise IndexError).
Proof.
  split; [reflexivity | split].
  - intros v. eexists. split; [reflexivity |]. split; [reflexivity |].
    unfold Cifti2Parcel.pop_cifti2_vertices. simpl.
    rewrite list_delitem_last. simpl. now destruct self.
  - intros Hempty ith. unfold Cifti2Parcel.pop_cifti2_vertices, list_delitem.
    rewrite Hempty, list_index_out_of_range; [reflexivity |].
    unfold len. simpl. lia.
Qed.

(** ** Cifti2Volume and its transformation matrix *)

(** X19: a Volume serializes exactly when it has dimensions and a transform
    that has a matrix; its element then carries VolumeDimensions, the
    dimensions joined by commas, and one child, the element of the transform
    with MeterExponent and the rows of the matrix. *)
Theorem Volume_to_xml_element_Ok (B : text_builtins) (self : Cifti2Volume.t) :
  (forall e,
      Cifti2Volume._to_xml_element B self = Ok e ->
      exists dims transform rows,
        Cifti2Volume.volume_dimensions self = Some dims /\
        Cifti2Volume.transformation_matrix_voxel_indices_ijk_to_xyz self
        = Some transform /\
        Cifti2TransformationMatrixVoxelIndicesIJKtoXYZ.matrix transform = Some rows) /\
  (forall dims transform rows,
      Cifti2Volume.volume_dimensions self = Some dims ->
      Cifti2Volume.transformation_matrix_voxel_indices_ijk_to_xyz self
      = Some transform ->
      Cifti2TransformationMatrixVoxelIndicesIJKtoXYZ.matrix transform = Some rows ->
      Cifti2Volume._to_xml_element B self
      = Ok {| tag := "Volume";
              attrib := [("VolumeDimensions", join "," (map (str B) dims))];
              text := None;
              children :=
                [ {| tag := "TransformationMatrixVoxelIndicesIJKtoXYZ";
                     attrib :=
                       [("MeterExponent",
                         str B (Cifti2TransformationMatrixVoxelIndicesIJKtoXYZ.meter_exponent
                                  transform))];
                     text :=
                       Some (join newline
                               (map (fun row => join " " (map (float_format_10f B) row))
                                    rows));
                     children := [] |} ] |}).
Proof.
  unfold Cifti2Volume._to_xml_element,
    Cifti2TransformationMatrixVoxelIndicesIJKtoXYZ._to_xml_element.
  split.
  - intros e H.
    destruct (Cifti2Volume.volume_dimensions self) as [dims |]; [| discriminate].
    destruct (Cifti2Volume.transformation_matrix_voxel_indices_ijk_to_xyz self)
      as [transform |]; [| discriminate].
    destruct (Cifti2TransformationMatrixVoxelIndicesIJKtoXYZ.matrix transform)
      as [rows |] eqn:Hrows; [| discriminate].
    exists dims, transform, rows. auto.
  - intros dims transform rows -> -> ->. reflexivity.
Qed.

(** ** Cifti2BrainModel: the whole element *)

Lemma put_attribute_fields (B : text_builtins) (key : string) (v : value)
    (e : Element) :
  tag (put_attribute B key v e) = tag e /\
  text (put_attribute B key v e) = text e /\
  children (put_attribute B key v e) = children e.
Proof. destruct v; repeat split. Qed.

(** The attributes the loop of [Cifti2BrainModel._to_xml_element] leaves *)
Lemma BrainModel_attributes (B : text_builtins) (io ic mt bs snv : value) :
  let e := put_attribute B "SurfaceNumberOfVertices" snv
             (put_attribute B "BrainStructure" bs
                (put_attribute B "ModelType" mt
                   (put_attribute B "IndexCount" ic
                      (put_attribute B "IndexOffset" io
                         (new_Element "BrainModel"))))) in
  tag e = "BrainModel" /\ text e = None /\ children e = [] /\
  get_attrib e "IndexOffset" = ChildrenSpec.attribute B io /\
  get_attrib e "IndexCount" = ChildrenSpec.attribute B ic /\
  get_attrib e "ModelType" = ChildrenSpec.attribute B mt /\
  get_attrib e "BrainStructure" = ChildrenSpec.attribute B bs /\
  get_attrib e "SurfaceNumberOfVertices" = ChildrenSpec.attribute B snv.
Proof.
  cbv zeta.
  repeat rewrite (proj1 (put_attribute_fields B _ _ _)).
  repeat rewrite (proj1 (proj2 (put_attribute_fields B _ _ _))).
  repeat rewrite (proj2 (proj2 (put_attribute_fields B _ _ _))).
  rewrite !get_attrib_put. cbn [String.eqb Ascii.eqb Bool.eqb].
  repeat split;
    repeat match goal with
           | |- context [match ?v with VNone => _ | _ => _ end] => destruct v
           end;
    reflexivity.
Qed.

(** X20: the element of a BrainModel is always built; each of IndexOffset,
    IndexCount, ModelType, BrainStructure and SurfaceNumberOfVertices is
    there exactly when the attribute is not None; the children are the
    VoxelIndicesIJK child, then the VertexIndices child, each left out when
    the object is absent or holds nothing. *)
Theorem BrainModel_to_xml_element (B : text_builtins) (self : Cifti2BrainModel.t) :
  exists e,
    Cifti2BrainModel._to_xml_element B self = Ok e /\
    tag e = "BrainModel" /\
    text e = None /\
    get_attrib e "IndexOffset"
    = ChildrenSpec.attribute B (Cifti2BrainModel.index_offset self) /\
    get_attrib e "IndexCount"
    = ChildrenSpec.attribute B (Cifti2BrainModel.index_count self) /\
    get_attrib e "ModelType"
    = ChildrenSpec.attribute B (Cifti2BrainModel.model_type self) /\
    get_attrib e "BrainStructure"
    = ChildrenSpec.attribute B (Cifti2BrainModel.brain_structure self) /\
    get_attrib e "SurfaceNumberOfVertices"
    = ChildrenSpec.attribute B (Cifti2BrainModel.surface_number_of_vertices self) /\
    children e
    = (ChildrenSpec.voxel_children (Cifti2BrainModel._voxel_indices_ijk self)
       ++ ChildrenSpec.vertex_children (Cifti2BrainModel._vertex_indices self))%list.
Proof.
  unfold Cifti2BrainModel._to_xml_element.
  rewrite set_attributes_eq. cbn [bind].
  rewrite voxel_child_step. cbn [bind].
  rewrite vertex_child_step.
  destruct (BrainModel_attributes B
              (Cifti2BrainModel.index_offset self)
              (Cifti2BrainModel.index_count self)
              (Cifti2BrainModel.model_type self)
              (Cifti2BrainModel.brain_structure self)
              (Cifti2BrainModel.surface_number_of_vertices self))
    as (Htag & Htext & Hchildren & Hio & Hic & Hmt & Hbs & Hsnv).
  eexists. split; [reflexivity |].
  cbn [tag text children]. rewrite Hchildren.
  repeat split; assumption.
Qed.

(** ** Cifti2MatrixIndicesMap: the volume property *)

Section volume_property.
Import Cifti2MatrixIndicesMap MatrixIndicesMapSpec VolumeSpec.
#[local] Open Scope list_scope.

Lemma first_Volume_first_index (maps : list element) (k : Z) :
  first_Volume maps k
  = option_map (fun n => k + Z.of_nat n) (first_index maps).
Proof.
  revert k. induction maps as [| v maps IH]; intros k; simpl; [reflexivity |].
  destruct (is_Volume v); simpl; [f_equal; lia |].
  rewrite IH. destruct (first_index maps) as [n |]; simpl; [f_equal; lia | reflexivity].
Qed.

Lemma first_index_None (maps : list element) :
  first_index maps = None <-> find is_Volume maps = None.
Proof.
  induction maps as [| v maps IH]; simpl; [tauto |].
  destruct (is_Volume v); [split; discriminate |].
  destruct (first_index maps); simpl; [| tauto].
  split; [discriminate | intros H; apply IH in H; discriminate].
Qed.

Lemma first_index_Some (maps : list element) (n : nat) :
  first_index maps = Some n ->
  (n < List.length maps)%nat /\
  exists v, nth_error maps n = Some v /\ is_Volume v = true /\
            find is_Volume maps = Some v.
Proof.
  revert n. induction maps as [| v maps IH]; simpl; intros n; [discriminate |].
  destruct (is_Volume v) eqn:Hv.
  - intros H. injection H as <-. split; [lia |]. exists v. auto.
  - destruct (first_index maps) as [m |]; [| discriminate].
    simpl. intros H. injection H as <-.
    destruct (IH m eq_refl) as (Hlt & v' & Hnth & Hv' & Hfind).
    split; [lia |]. exists v'. auto.
Qed.

Lemma find_replace_first (maps : list element) (n : nat) (new : element) :
  first_index maps = Some n -> is_Volume new = true ->
  find is_Volume (replace_nth n new maps) = Some new.
Proof.
  revert n. induction maps as [| v maps IH]; simpl; intros n; [discriminate |].
  destruct (is_Volume v) eqn:Hv.
  - intros H Hnew. injection H as <-. simpl. now rewrite Hnew.
  - destruct (first_index maps) as [m |]; [| discriminate].
    simpl. intros H Hnew. injection H as <-. simpl. rewrite Hv. now apply IH.
Qed.

Lemma remove_first (maps : list element) (n : nat) :
  first_index maps = Some n ->
  S (count_Volume (remove_nth n maps)) = count_Volume maps /\
  filter not_Volume (remove_nth n maps) = filter not_Volume maps.
Proof.
  unfold count_Volume, not_Volume.
  revert n. induction maps as [| v maps IH]; simpl; intros n; [discriminate |].
  destruct (is_Volume v) eqn:Hv.
  - intros H. injection H as <-. simpl. auto.
  - destruct (first_index maps) as [m |]; [| discriminate].
    simpl. intros H. injection H as <-. simpl. rewrite Hv. simpl.
    destruct (IH m eq_refl) as [Hc Hf]. now rewrite Hf.
Qed.

(** The sequence around its first Volume *)
Lemma first_index_split (maps : list element) (n : nat) :
  first_index maps = Some n ->
  exists before old after,
    maps = before ++ old :: after /\
    forallb not_Volume before = true /\
    is_Volume old = true /\
    (forall new, replace_nth n new maps = before ++ new :: after) /\
    remove_nth n maps = before ++ after.
Proof.
  revert n. induction maps as [| v maps IH]; simpl; intros n; [discriminate |].
  destruct (is_Volume v) eqn:Hv.
  - intros H. injection H as <-. exists [], v, maps. simpl. auto.
  - destruct (first_index maps) as [m |]; [| discriminate].
    simpl. intros H. injection H as <-.
    destruct (IH m eq_refl) as (before & old & after & -> & Hb & Hold & Hrep & Hrem).
    exists (v :: before), old, after. simpl. unfold not_Volume at 1.
    rewrite Hv, Hb, Hrem. repeat split; auto.
    intros new. now rewrite Hrep.
Qed.

Lemma find_app_None {A : Type} (p : A -> bool) (l1 l2 : list A) :
  find p (l1 ++ l2)
  = match find p l1 with Some x => Some x | None => find p l2 end.
Proof.
  induction l1 as [| x l1 IH]; simpl; [reflexivity |].
  now destruct (p x).
Qed.

Lemma find_list_insert_other (maps : list element) (i : Z) (e : element) :
  is_Volume e = false ->
  find is_Volume (list_insert maps i e) = find is_Volume maps.
Proof.
  intros He. cbv beta zeta delta [list_insert]. set (n := Z.to_nat _).
  assert (Hmaps : find is_Volume maps
                  = find is_Volume (firstn n maps ++ skipn n maps))
    by now rewrite firstn_skipn.
  rewrite Hmaps, !find_app_None. simpl. now rewrite He.
Qed.

End volume_property.

(** X21: the setter of [volume] refuses an object that is no Volume with
    ValueError; given a Volume it always succeeds and [volume] then reads
    that Volume.  Without a Volume in the map the new one goes last; with
    one, the new Volume takes the place of the first Volume of the sequence,
    and everything before and after it, and every attribute, stays. *)
Theorem MatrixIndicesMap_set_volume
    (self : Cifti2MatrixIndicesMap.t) (vol : Cifti2Volume.t) :
  (forall e,
      Cifti2MatrixIndicesMap.is_Volume e = false ->
      Cifti2MatrixIndicesMap.set_volume self e
      = Raise (ValueError "You can only set a volume with a volume")) /\
  exists self',
    Cifti2MatrixIndicesMap.set_volume self (Cifti2MatrixIndicesMap.Volume vol)
    = Ok self' /\
    Cifti2MatrixIndicesMap.volume self' = Some (Cifti2MatrixIndicesMap.Volume vol) /\
    (Cifti2MatrixIndicesMap.volume self = None ->
     self' = Cifti2MatrixIndicesMap.with_maps self
               (Cifti2MatrixIndicesMap._maps self
                ++ [Cifti2MatrixIndicesMap.Volume vol])%list) /\
    (Cifti2MatrixIndicesMap.volume self <> None ->
     Cifti2MatrixIndicesMap.__len__ self' = Cifti2MatrixIndicesMap.__len__ self /\
     exists before old after,
       Cifti2MatrixIndicesMap._maps self = (before ++ old :: after)%list /\
       forallb VolumeSpec.not_Volume before = true /\
       Cifti2MatrixIndicesMap.is_Volume old = true /\
       self' = Cifti2MatrixIndicesMap.with_maps self
                 (before ++ Cifti2MatrixIndicesMap.Volume vol :: after)%list).
Proof.
  split.
  - intros e He. unfold Cifti2MatrixIndicesMap.set_volume. now rewrite He.
  - unfold Cifti2MatrixIndicesMap.set_volume. cbn [Cifti2MatrixIndicesMap.is_Volume negb].
    rewrite first_Volume_first_index.
    destruct (VolumeSpec.first_index (Cifti2MatrixIndicesMap._maps self))
      as [n |] eqn:Hfirst; cbn [option_map].
    + destruct (first_index_Some _ _ Hfirst) as (Hlt & old & Hnth & Hold & Hfind).
      destruct (first_index_split _ _ Hfirst)
        as (before & old' & after & Hmaps & Hbefore & Hold' & Hrep & _).
      assert (Hidx : norm_index (Cifti2MatrixIndicesMap._maps self) (0 + Z.of_nat n)
                     = Some n).
      { rewrite norm_index_nonneg by (unfold len; lia). f_equal. lia. }
      unfold Cifti2MatrixIndicesMap.__setitem__, Cifti2MatrixIndicesMap.volume.
      cbn [Cifti2MatrixIndicesMap.is_Volume]. rewrite Hfind.
      unfold list_getitem, list_setitem. rewrite Hidx, Hnth. cbn [bind].
      rewrite Hold. cbn [negb bind].
      eexists. split; [reflexivity |].
      split; [simpl; now apply find_replace_first |].
      split; [intros Hnone; rewrite Hnone in Hfind; discriminate |].
      intros _. split.
      * unfold Cifti2MatrixIndicesMap.__len__, len. simpl.
        now rewrite length_replace_nth.
      * exists before, old', after. rewrite Hrep. auto.
    + apply first_index_None in Hfirst.
      unfold Cifti2MatrixIndicesMap.append, Cifti2MatrixIndicesMap.insert,
        Cifti2MatrixIndicesMap.volume.
      rewrite Hfirst. cbn [Cifti2MatrixIndicesMap.is_Volume andb].
      eexists. split; [reflexivity |].
      unfold Cifti2MatrixIndicesMap.__len__. rewrite list_insert_end.
      split; [simpl; rewrite find_app_None, Hfirst; reflexivity |].
      split; [reflexivity |].
      intros Hne. unfold Cifti2MatrixIndicesMap.volume in Hne. contradiction.
Qed.

(** X22: the deleter of [volume] raises ValueError when there is no Volume;
    otherwise it removes the first Volume of the sequence and nothing else:
    what stood before and after it stays in its order, and every attribute
    stays.  A map that held one Volume holds none afterwards. *)
Theorem MatrixIndicesMap_del_volume (self : Cifti2MatrixIndicesMap.t) :
  (Cifti2MatrixIndicesMap.volume self = None ->
   Cifti2MatrixIndicesMap.del_volume self
   = Raise (ValueError "No Cifti2Volume element")) /\
  (Cifti2MatrixIndicesMap.volume self <> None ->
   exists self',
     Cifti2MatrixIndicesMap.del_volume self = Ok self' /\
     Cifti2MatrixIndicesMap.__len__ self' + 1 = Cifti2MatrixIndicesMap.__len__ self /\
     filter VolumeSpec.not_Volume (Cifti2MatrixIndicesMap._maps self')
     = filter VolumeSpec.not_Volume (Cifti2MatrixIndicesMap._maps self) /\
     S (MatrixIndicesMapSpec.count_Volume (Cifti2MatrixIndicesMap._maps self'))
     = MatrixIndicesMapSpec.count_Volume (Cifti2MatrixIndicesMap._maps self) /\
     ((MatrixIndicesMapSpec.count_Volume (Cifti2MatrixIndicesMap._maps self) <= 1)%nat ->
      Cifti2MatrixIndicesMap.volume self' = None) /\
     exists before old after,
       Cifti2MatrixIndicesMap._maps self = (before ++ old :: after)%list /\
       forallb VolumeSpec.not_Volume before = true /\
       Cifti2MatrixIndicesMap.is_Volume old = true /\
       self' = Cifti2MatrixIndicesMap.with_maps self (before ++ after)%list).
Proof.
  unfold Cifti2MatrixIndicesMap.del_volume, Cifti2MatrixIndicesMap.volume.
  rewrite first_Volume_first_index.
  destruct (VolumeSpec.first_index (Cifti2MatrixIndicesMap._maps self))
    as [n |] eqn:Hfirst; cbn [option_map].
  - split; [intros Hnone; apply first_index_None in Hnone; congruence |].
    intros _.
    destruct (first_index_Some _ _ Hfirst) as (Hlt & old & Hnth & Hold & Hfind).
    destruct (remove_first _ _ Hfirst) as [Hcount Hfilter].
    destruct (first_index_split _ _ Hfirst)
      as (before & old' & after & Hmaps & Hbefore & Hold' & _ & Hrem).
    unfold Cifti2MatrixIndicesMap.__delitem__, list_delitem.
    rewrite norm_index_nonneg by (unfold len; lia).
    replace (Z.to_nat (0 + Z.of_nat n)) with n by lia. cbn [bind].
    eexists. split; [reflexivity |].
    unfold Cifti2MatrixIndicesMap.__len__, len.
    cbn [Cifti2MatrixIndicesMap._maps Cifti2MatrixIndicesMap.with_maps].
    split; [pose proof (length_remove_nth _ _ Hlt); lia |].
    split; [exact Hfilter |]. split; [exact Hcount |].
    split.
    + intros Hone. apply find_None_count.
      unfold MatrixIndicesMapSpec.count_Volume in *. lia.
    + exists before, old', after. rewrite Hrem. auto.
  - split; [reflexivity |].
    intros Hne. apply first_index_None in Hfirst. contradiction.
Qed.

(** X23: an object that is no Volume can always be inserted: the sequence
    gets one longer, [volume] reads what it read, and the object is at the
    index given when that index is within the sequence. *)
Theorem MatrixIndicesMap_insert_other
    (self : Cifti2MatrixIndicesMap.t) (index : Z)
    (e : Cifti2MatrixIndicesMap.element)
    (H : Cifti2MatrixIndicesMap.is_Volume e = false) :
  exists self',
    Cifti2MatrixIndicesMap.insert self index e = Ok self' /\
    Cifti2MatrixIndicesMap.__len__ self' = Cifti2MatrixIndicesMap.__len__ self + 1 /\
    Cifti2MatrixIndicesMap.volume self' = Cifti2MatrixIndicesMap.volume self /\
    (0 <= index <= Cifti2MatrixIndicesMap.__len__ self ->
     Cifti2MatrixIndicesMap.__getitem__ self' index = Ok e).
Proof.
  unfold Cifti2MatrixIndicesMap.insert. rewrite H. cbn [andb].
  eexists. split; [reflexivity |].
  unfold Cifti2MatrixIndicesMap.__len__, Cifti2MatrixIndicesMap.volume,
    Cifti2MatrixIndicesMap.__getitem__. simpl.
  split; [apply len_list_insert |].
  split; [now apply find_list_insert_other | apply list_getitem_insert].
Qed.

Lemma MatrixIndicesMap_insert_other_witness :
  exists self',
    Cifti2MatrixIndicesMap.insert MatrixIndicesMapSpec.sample_map 1
      (Cifti2MatrixIndicesMap.Surface MatrixIndicesMapSpec.sample_Surface)
    = Ok self' /\
    Cifti2MatrixIndicesMap.__len__ self' = 3 /\
    Cifti2MatrixIndicesMap.volume self'
    = Some (Cifti2MatrixIndicesMap.Volume MatrixIndicesMapSpec.sample_Volume).
Proof.
  destruct (MatrixIndicesMap_insert_other MatrixIndicesMapSpec.sample_map 1
              (Cifti2MatrixIndicesMap.Surface MatrixIndicesMapSpec.sample_Surface)
              eq_refl)
    as (self' & Hins & Hlen & Hvol & _).
  exists self'. split; [exact Hins |]. split; [exact Hlen | exact Hvol].
Defined.

(** ** Cifti2MatrixIndicesMap: the element *)

Section map_element.
Import Cifti2MatrixIndicesMap.
Context (B : text_builtins) (self : t).

Lemma MatrixIndicesMap_set_attributes (e : Element) :
  set_attributes B self
    ["IndicesMapToDataType"; "NumberOfSeriesPoints"; "SeriesExponent";
     "SeriesStart"; "SeriesStep"; "SeriesUnit"] e
  = Ok (put_attribute B "SeriesUnit" (series_unit self)
          (put_attribute B "SeriesStep" (series_step self)
             (put_attribute B "SeriesStart" (series_start self)
                (put_attribute B "SeriesExponent" (series_exponent self)
                   (put_attribute B "NumberOfSeriesPoints"
                      (number_of_series_points self)
                      (put_attribute B "IndicesMapToDataType"
                         (indices_map_to_data_type self) e)))))).
Proof.
  assert (Hstep : forall key v (e0 : Element),
             match v with
             | VNone => Ok e0
             | _ => Ok (set_attrib e0 key (str B v))
             end = Ok (put_attribute B key v e0))
    by (intros key v e0; now destruct v).
  unfold set_attributes. cbn [fold_result].
  replace (_underscore "IndicesMapToDataType")
    with "indices_map_to_data_type" by reflexivity.
  replace (_underscore "NumberOfSeriesPoints")
    with "number_of_series_points" by reflexivity.
  replace (_underscore "SeriesExponent") with "series_exponent" by reflexivity.
  replace (_underscore "SeriesStart") with "series_start" by reflexivity.
  replace (_underscore "SeriesStep") with "series_step" by reflexivity.
  replace (_underscore "SeriesUnit") with "series_unit" by reflexivity.
  unfold getattr. cbn [String.eqb Ascii.eqb Bool.eqb bind].
  repeat (rewrite Hstep; cbn [bind]). reflexivity.
Qed.

End map_element.

(** X24: the element of a MatrixIndicesMap fails with CIFTI2HeaderError when
    applies_to_matrix_dimension is None, and with the error of the first
    object of the sequence that does not serialize; otherwise it carries
    AppliesToMatrixDimension, the dimensions joined by commas, each of the
    six optional attributes exactly when it is not None, and the elements of
    the objects in the order of the sequence. *)
Theorem MatrixIndicesMap_to_xml_element
    (B : text_builtins) (named_map_xml : Cifti2NamedMap.t -> result Element)
    (self : Cifti2MatrixIndicesMap.t) :
  (Cifti2MatrixIndicesMap.applies_to_matrix_dimension self = None ->
   Cifti2MatrixIndicesMap._to_xml_element B named_map_xml self
   = Raise (CIFTI2HeaderError
              "MatrixIndicesMap element requires to be applied to at least 1 dimension")) /\
  (forall dims es,
      Cifti2MatrixIndicesMap.applies_to_matrix_dimension self = Some dims ->
      map_result (Cifti2MatrixIndicesMap.element_to_xml B named_map_xml)
        (Cifti2MatrixIndicesMap._maps self) = Ok es ->
      exists e,
        Cifti2MatrixIndicesMap._to_xml_element B named_map_xml self = Ok e /\
        tag e = "MatrixIndicesMap" /\
        children e = es /\
        get_attrib e "AppliesToMatrixDimension" = Some (join "," (map (str B) dims)) /\
        get_attrib e "IndicesMapToDataType"
        = ChildrenSpec.attribute B
            (Cifti2MatrixIndicesMap.indices_map_to_data_type self) /\
        get_attrib e "NumberOfSeriesPoints"
        = ChildrenSpec.attribute B
            (Cifti2MatrixIndicesMap.number_of_series_points self) /\
        get_attrib e "SeriesExponent"
        = ChildrenSpec.attribute B (Cifti2MatrixIndicesMap.series_exponent self) /\
        get_attrib e "SeriesStart"
        = ChildrenSpec.attribute B (Cifti2MatrixIndicesMap.series_start self) /\
        get_attrib e "SeriesStep"
        = ChildrenSpec.attribute B (Cifti2MatrixIndicesMap.series_step self) /\
        get_attrib e "SeriesUnit"
        = ChildrenSpec.attribute B (Cifti2MatrixIndicesMap.series_unit self)) /\
  (forall dims before x after err,
      Cifti2MatrixIndicesMap.applies_to_matrix_dimension self = Some dims ->
      Cifti2MatrixIndicesMap._maps self = (before ++ x :: after)%list ->
      Forall (fun y => is_ok (Cifti2MatrixIndicesMap.element_to_xml B named_map_xml y)
                       = true) before ->
      Cifti2MatrixIndicesMap.element_to_xml B named_map_xml x = Raise err ->
      Cifti2MatrixIndicesMap._to_xml_element B named_map_xml self = Raise err).
Proof.
  unfold Cifti2MatrixIndicesMap._to_xml_element.
  split; [now intros -> | split].
  - intros dims es -> Hes.
    rewrite MatrixIndicesMap_set_attributes. cbn [bind].
    rewrite fold_result_append_child, Hes. cbn [bind].
    eexists. split; [reflexivity |]. cbn [tag children].
    repeat rewrite (proj1 (put_attribute_fields B _ _ _)).
    repeat rewrite (proj2 (proj2 (put_attribute_fields B _ _ _))).
    split; [reflexivity |]. split; [reflexivity |].
    unfold get_attrib at 1 2 3 4 5 6 7. cbn [attrib].
    repeat match goal with
           | |- context [odict_get String.eqb (attrib ?x) ?k] =>
               change (odict_get String.eqb (attrib x) k) with (get_attrib x k)
           end.
    rewrite !get_attrib_put, !get_attrib_set_attrib.
    cbn [String.eqb Ascii.eqb Bool.eqb].
    repeat split;
      repeat match goal with
             | |- context [match ?v with VNone => _ | _ => _ end] => destruct v
             end;
      reflexivity.
  - intros dims before x after err -> Hmaps Hbefore Hx.
    rewrite MatrixIndicesMap_set_attributes. cbn [bind].
    rewrite fold_result_append_child, Hmaps.
    now rewrite (map_result_first_error _ _ _ _ _ Hbefore Hx).
Qed.

(** ** Cifti2Matrix and Cifti2Header: the elements *)

(** X25: the element of a Matrix fails with CIFTI2HeaderError when there is
    neither a map nor a MetaData, and with the error of the first map that
    does not serialize; otherwise it holds the MetaData child, left out for
    a MetaData without entry, and then the elements of the maps. *)
Theorem Matrix_to_xml_element
    (B : text_builtins) (named_map_xml : Cifti2NamedMap.t -> result Element)
    (self : Cifti2Matrix.t) :
  (Cifti2Matrix._mims self = [] -> Cifti2Matrix._meta self = None ->
   Cifti2Matrix._to_xml_element B named_map_xml self
   = Raise MatrixSpec.requires_content) /\
  (forall es,
      Cifti2Matrix._mims self <> [] \/ Cifti2Matrix._meta self <> None ->
      map_result (Cifti2MatrixIndicesMap._to_xml_element B named_map_xml)
        (Cifti2Matrix._mims self) = Ok es ->
      Cifti2Matrix._to_xml_element B named_map_xml self
      = Ok {| tag := "Matrix"; attrib := []; text := None;
              children :=
                (MatrixSpec.metadata_children (Cifti2Matrix._meta self) ++ es)%list |}) /\
  (forall before m after err,
      Cifti2Matrix._mims self = (before ++ m :: after)%list ->
      Forall (fun m' => is_ok (Cifti2MatrixIndicesMap._to_xml_element
                                 B named_map_xml m') = true) before ->
      Cifti2MatrixIndicesMap._to_xml_element B named_map_xml m = Raise err ->
      Cifti2Matrix._to_xml_element B named_map_xml self = Raise err).
Proof.
  assert (Hbody : Cifti2Matrix._mims self <> [] \/ Cifti2Matrix._meta self <> None ->
                  Cifti2Matrix._to_xml_element B named_map_xml self
                  = (es <- map_result
                             (Cifti2MatrixIndicesMap._to_xml_element B named_map_xml)
                             (Cifti2Matrix._mims self) ;;
                     Ok {| tag := "Matrix"; attrib := []; text := None;
                           children :=
                             (MatrixSpec.metadata_children (Cifti2Matrix._meta self)
                              ++ es)%list |})).
  { intros Hcontent. unfold Cifti2Matrix._to_xml_element.
    rewrite fold_result_append_child.
    assert (Hmeta : match Cifti2Matrix._meta self with
                    | Some md =>
                        if Cifti2MetaData.__len__ md =? 0 then new_Element "Matrix"
                        else append_child (new_Element "Matrix")
                               (Cifti2MetaData._to_xml_element md)
                    | None => new_Element "Matrix"
                    end
                    = {| tag := "Matrix"; attrib := []; text := None;
                         children :=
                           MatrixSpec.metadata_children (Cifti2Matrix._meta self) |}).
    { destruct (Cifti2Matrix._meta self) as [[d] |]; [| reflexivity].
      unfold Cifti2MetaData.__len__. simpl. now destruct d. }
    rewrite Hmeta. cbn [tag attrib text children].
    destruct (Cifti2Matrix._mims self) as [| m mims];
      destruct (Cifti2Matrix._meta self) as [md |]; try reflexivity.
    destruct Hcontent as [Hc | Hc]; contradiction. }
  split; [| split].
  - intros Hmims Hmeta. unfold Cifti2Matrix._to_xml_element.
    now rewrite Hmims, Hmeta.
  - intros es Hcontent Hes. now rewrite (Hbody Hcontent), Hes.
  - intros before m after err Hmims Hbefore Hm.
    rewrite Hbody by (left; rewrite Hmims; now destruct before).
    now rewrite Hmims, (map_result_first_error _ _ _ _ _ Hbefore Hm).
Qed.

(** X26: the element of a Header is the root CIFTI with Version, the string
    of the version, and one child, the element of its Matrix; it fails when
    the Matrix fails, and so a Header built without a matrix fails with
    CIFTI2HeaderError. *)
Theorem Header_to_xml_element
    (B : text_builtins) (named_map_xml : Cifti2NamedMap.t -> result Element) :
  (forall self mat_xml,
      Cifti2Matrix._to_xml_element B named_map_xml (Cifti2Header.matrix self)
      = Ok mat_xml ->
      Cifti2Header._to_xml_element B named_map_xml self
      = Ok {| tag := "CIFTI";
              attrib := [("Version", str B (Cifti2Header.version self))];
              text := None; children := [mat_xml] |}) /\
  (forall self err,
      Cifti2Matrix._to_xml_element B named_map_xml (Cifti2Header.matrix self)
      = Raise err ->
      Cifti2Header._to_xml_element B named_map_xml self = Raise err) /\
  (forall version,
      Cifti2Header._to_xml_element B named_map_xml
        (Cifti2Header.__init__ None version)
      = Raise MatrixSpec.requires_content).
Proof.
  unfold Cifti2Header._to_xml_element. split; [| split].
  - intros self mat_xml ->. reflexivity.
  - intros self err ->. reflexivity.
  - reflexivity.
Qed.

(** ** _underscore *)

Lemma to_lower_not_upper (c : ascii) : is_upper (to_lower c) = false.
Proof. destruct c as [[] [] [] [] [] [] [] []]; reflexivity. Qed.

Lemma to_lower_id (c : ascii) : is_upper c = false -> to_lower c = c.
Proof. unfold to_lower. now intros ->. Qed.

Lemma lower_no_capitals (s : string) : UnderscoreSpec.no_capitals (lower s).
Proof.
  unfold UnderscoreSpec.no_capitals, lower.
  rewrite list_ascii_of_string_of_list_ascii.
  induction (list_ascii_of_string s) as [| c l IH]; simpl; constructor;
    [apply to_lower_not_upper | exact IH].
Qed.

Lemma sub_caps_word_id (l : list ascii) :
  Forall (fun c => is_upper c = false) l -> sub_caps_word [] l = l.
Proof.
  induction 1 as [| c l Hc Hl IH]; simpl; [reflexivity |].
  now rewrite Hc, IH.
Qed.

Lemma sub_lower_cap_step (a b : ascii) (l : list ascii) :
  sub_lower_cap (a :: b :: l)
  = if (is_lower a || is_digit a) && is_upper b
    then a :: "_"%char :: b :: sub_lower_cap l
    else a :: sub_lower_cap (b :: l).
Proof. reflexivity. Qed.

Lemma sub_lower_cap_id (l : list ascii) :
  Forall (fun c => is_upper c = false) l -> sub_lower_cap l = l.
Proof.
  induction 1 as [| a l Ha Hl IH]; [reflexivity |].
  destruct Hl as [| b l Hb Hl]; [reflexivity |].
  rewrite sub_lower_cap_step, Hb, andb_false_r. now rewrite IH.
Qed.

Lemma map_to_lower_id (l : list ascii) :
  Forall (fun c => is_upper c = false) l -> map to_lower l = l.
Proof.
  induction 1 as [| c l Hc Hl IH]; simpl; [reflexivity |].
  now rewrite (to_lower_id c Hc), IH.
Qed.

(** X27: [_underscore] gives a string without capitals, leaves a string
    without capitals as it is, and so changes nothing when applied again. *)
Theorem underscore_no_capitals (s : string) :
  UnderscoreSpec.no_capitals (_underscore s) /\
  (UnderscoreSpec.no_capitals s -> _underscore s = s) /\
  _underscore (_underscore s) = _underscore s.
Proof.
  assert (Hid : forall s', UnderscoreSpec.no_capitals s' -> _underscore s' = s').
  { intros s' Hs'. unfold _underscore, lower.
    rewrite (sub_caps_word_id _ Hs'), (sub_lower_cap_id _ Hs').
    rewrite list_ascii_of_string_of_list_ascii, (map_to_lower_id _ Hs').
    apply string_of_list_ascii_of_string. }
  assert (Hno : UnderscoreSpec.no_capitals (_underscore s))
    by apply lower_no_capitals.
  split; [exact Hno |]. split; [apply Hid | now apply Hid].
Qed.
